(** * Baserow field types: a shallow embedding of
      [baserow/contrib/database/fields/field_types.py]

    The development follows the layout of the Python module: one Rocq
    [Module] per field type class, holding the methods of that class under
    their Python names.  Values that cross the boundary of a method are
    Python values ([PyValue]); exceptions are results ([Raise]); database
    tables are explicit states that are passed in and returned. *)

From Stdlib Require Import ZArith QArith Qround String Ascii Lia.
From stdpp Require Import gmap strings list pretty sorting.

Open Scope string_scope.
Open Scope Z_scope.

(* ================================================================== *)
(** * Part I: definitions                                              *)
(* ================================================================== *)

(** ** Exceptions *)

(** The messages of the [ValidationError]s raised in [field_types.py], one
    constructor per [raise] site. *)
Inductive ValidationMessage :=
  | CannotBeNegative (field_id : Z)
      (* f'The value for field {instance.id} cannot be negative.' *)
  | CouldNotConvertToDate
      (* 'The provided string could not converted to adate.' *)
  | ShouldBeDateValue
      (* 'The value should be a date/time string, date object or datetime object.' *)
  | MustBeAList
      (* 'The provided value must be a list.' *)
  | MustContainFileName
      (* 'Every provided value must at least contain the file name as `name`.' *)
  | VisibleNameMustBeString
      (* 'The provided `visible_name` must be a string.' *)
  | NotAValidOption
      (* 'The provided value is not a valid option.' *)
  | ValidatorMessage (code : string).
      (* raised inside Django's URLValidator / EmailValidator *)

Inductive Exception :=
  | ValidationError (m : ValidationMessage)
  | LinkRowTableNotProvided
  | LinkRowTableNotInSameDatabase (link_row_table_id table_id : Z)
  | UserFileDoesNotExist (file_name : string)
  | InvalidOperation                 (* decimal.InvalidOperation *)
  | ParserError                      (* dateutil.parser.ParserError *)
  | TypeError
  | ValueError
  | AttributeError
  | OverflowError
  | MultipleObjectsReturned
  | TableDoesNotExist
  | UserNotInGroup
  | DoesNotExist
  | RecursionError.                  (* maximum recursion depth exceeded *)

(** A call either returns or raises. *)
Inductive Result (A : Type) :=
  | Ok (a : A)
  | Raise (e : Exception).
Arguments Ok {A} a.
Arguments Raise {A} e.

#[global] Instance Result_ret : MRet Result := fun _ a => Ok a.
#[global] Instance Result_bind : MBind Result := fun _ _ f m =>
  match m with
  | Ok a => f a
  | Raise e => Raise e
  end.
#[global] Instance Result_fmap : FMap Result := fun _ _ f m =>
  match m with
  | Ok a => Ok (f a)
  | Raise e => Raise e
  end.

Definition raises {A} (m : Result A) : bool :=
  match m with Ok _ => false | Raise _ => true end.

(** ** Python's [decimal.Decimal] *)

(** A [Decimal] is a finite number (-1)^sign * coeff * 10^exp, an infinity
    or a NaN; [Decimal('-0')] is a finite number with a negative sign. *)
Inductive Decimal :=
  | DFinite (sign : bool) (coeff : N) (exp : Z)
  | DInfinity (sign : bool)
  | DNaN (signaling : bool).

Definition Decimal_of_int (z : Z) : Decimal :=
  DFinite (z <? 0) (Z.abs_N z) 0.

(** The number denoted by [d] is strictly below zero.  A NaN denotes no
    number and minus zero is zero. *)
Definition Decimal_is_negative (d : Decimal) : bool :=
  match d with
  | DFinite s c _ => s && negb (c =? 0)%N
  | DInfinity s => s
  | DNaN _ => false
  end.

(** [d < 0] as Python evaluates it: an ordering comparison that involves a
    NaN signals [InvalidOperation], which the default context traps. *)
Definition Decimal_lt_zero (d : Decimal) : Result bool :=
  match d with
  | DNaN _ => Raise InvalidOperation
  | _ => Ok (Decimal_is_negative d)
  end.

(** [bool(d)]: only zeros are falsy. *)
Definition Decimal_bool (d : Decimal) : bool :=
  match d with
  | DFinite _ c _ => negb (c =? 0)%N
  | _ => true
  end.

(** ** [datetime.date] and [datetime.datetime] *)

(** A calendar date is identified with its day number ([date.toordinal()]);
    year, month and day are a one-to-one view of it. *)
Record date := { toordinal : Z }.

Inductive tzinfo :=
  | UTC                                   (* pytz.timezone('UTC') *)
  | OtherTz (tzname : string) (utcoffset : Z).   (* offset in microseconds *)

(** A datetime is its wall clock reading, in microseconds counted from
    midnight of day number 0, and an optional time zone (naive when absent). *)
Record datetime := { wall : Z; tz : option tzinfo }.

Definition microseconds_per_day : Z := 86400000000.

Definition tz_utcoffset (t : tzinfo) : Z :=
  match t with UTC => 0 | OtherTz _ off => off end.

(** ** Rows of the [SelectOption] and [UserFile] models *)

Record SelectOption := {
  so_id : Z;
  so_value : string;
  so_color : string;
  so_order : Z;
  so_field_id : Z
}.

(** ** Python values

    The values a caller can hand to a field type.  Floating point numbers
    are left out. *)

#[warnings="-register-all"]
Inductive PyValue :=
  | PyNone
  | PyBool (b : bool)
  | PyInt (z : Z)
  | PyStr (s : string)
  | PyDecimal (d : Decimal)
  | PyDate (d : date)
  | PyDatetime (dt : datetime)
  | PyList (l : list PyValue)
  | PyDict (d : list (string * PyValue))
  | PySelectOption (o : SelectOption).

(** Python's truth value testing ([not value] is its negation). *)
Definition truthy (v : PyValue) : bool :=
  match v with
  | PyNone => false
  | PyBool b => b
  | PyInt z => negb (z =? 0)
  | PyStr s => negb (String.eqb s "")
  | PyDecimal d => Decimal_bool d
  | PyDate _ => true
  | PyDatetime _ => true
  | PyList l => match l with [] => false | _ => true end
  | PyDict d => match d with [] => false | _ => true end
  | PySelectOption _ => true
  end.

Definition is_None (v : PyValue) : bool :=
  match v with PyNone => true | _ => false end.

(** Dictionaries keep insertion order; [d[k] = v] overwrites in place. *)
Fixpoint dict_get (d : list (string * PyValue)) (k : string) : option PyValue :=
  match d with
  | [] => None
  | (k', v) :: d' => if String.eqb k' k then Some v else dict_get d' k
  end.

Fixpoint dict_set (d : list (string * PyValue)) (k : string) (v : PyValue)
  : list (string * PyValue) :=
  match d with
  | [] => [(k, v)]
  | (k', v') :: d' =>
      if String.eqb k' k then (k, v) :: d' else (k', v') :: dict_set d' k v
  end.

(** [a or b] *)
Definition py_or (a b : PyValue) : PyValue := if truthy a then a else b.

(** ** Rows of the [UserFile] model

    [UserFile] lives in [baserow.core.models]; of a row only what
    [FileFieldType] reads is kept: the [name] property, [original_name] and
    the dictionary that [serialize()] returns. *)
Record UserFile := {
  uf_name : string;
  uf_original_name : string;
  uf_serialized : list (string * PyValue)
}.

(** Modelled from the spec: [UserFile.serialize] is defined in
    [baserow/core/models.py]; the stored value of a file field is "the list
    of resolved records", so the serialized record carries the name it was
    resolved by under the key [name]. *)
Definition UserFile_serialize (u : UserFile) : list (string * PyValue) :=
  dict_set (uf_serialized u) "name" (PyStr (uf_name u)).

(** ** Library functions and database tables the field types read

    What the module calls but does not define: the parsers and validators
    of the Python and Django libraries, the system's local time zone, the
    contents of the [SelectOption] and [UserFile] tables, and what the
    database server decides: how [lower()] folds a text and in which order
    its collation sorts texts. *)
Class Environment := {
  (* Decimal(s) for a string; fails with InvalidOperation *)
  Decimal_of_str : string -> Result Decimal;
  (* Decimal(t) for a sequence (sign, digits, exponent) *)
  Decimal_of_seq : list PyValue -> Result Decimal;
  (* django.core.validators.URLValidator()(value) *)
  URLValidator : PyValue -> Result unit;
  (* django.core.validators.EmailValidator()(value) *)
  EmailValidator : PyValue -> Result unit;
  (* dateutil.parser.parse(s) *)
  parser_parse : string -> Result datetime;
  (* the UTC offset, in microseconds, of the system's local time zone at a
     naive wall clock reading, as astimezone() looks it up; the lookup
     raises near the ends of the datetime range (ValueError: year 0 is out
     of range) *)
  local_utcoffset : Z -> Result Z;
  (* SelectOption.objects.all() *)
  SelectOption_objects : list SelectOption;
  (* the rows of UserFile.objects.all().name, called with the names *)
  UserFile_objects_name : list string -> Result (list UserFile);
  (* lower(text) as the database server computes it *)
  sql_lower : string -> string;
  (* text1 sorts before or with text2 under the collation of the database,
     a total preorder: the order of order_by('value') *)
  collation_le : string -> string -> Prop;
  collation_dec : RelDecision collation_le;
  collation_trans : Transitive collation_le;
  collation_total : Total collation_le
}.

(** ** [datetime] operations used by the date field *)

(** [datetime(d.year, d.month, d.day)]: midnight of the day, naive. *)
Definition datetime_of_date (d : date) : datetime :=
  {| wall := toordinal d * microseconds_per_day; tz := None |}.

(** [django.utils.timezone.make_aware(value, timezone)] of a naive value. *)
Definition make_aware (value : datetime) (timezone : tzinfo) : datetime :=
  {| wall := wall value; tz := Some timezone |}.

(** The readings a [datetime] can hold: from 0001-01-01 00:00:00, the
    midnight of day number 1, to 9999-12-31 23:59:59.999999, the last
    microsecond of day number 3652059. *)
Definition datetime_min : Z := microseconds_per_day.
Definition datetime_max : Z := 3652060 * microseconds_per_day - 1.

Definition datetime_in_range (reading : Z) : bool :=
  (datetime_min <=? reading) && (reading <=? datetime_max).

(** [value - offset] on readings: a result outside the range is an
    [OverflowError] (date value out of range). *)
Definition datetime_sub (reading offset : Z) : Result Z :=
  if datetime_in_range (reading - offset) then Ok (reading - offset)
  else Raise OverflowError.

(** [value.astimezone(utc)]: the same instant read on the UTC clock.  A
    value that carries [utc] itself is returned as it is; the offset of
    another zone is subtracted; a naive value is taken to be in the
    system's local time zone, whose offset is looked up first. *)
Definition astimezone_utc `{Environment} (value : datetime)
  : Result datetime :=
  match tz value with
  | Some UTC => Ok value
  | Some (OtherTz _ offset) =>
      reading ← datetime_sub (wall value) offset;
      Ok {| wall := reading; tz := Some UTC |}
  | None =>
      offset ← local_utcoffset (wall value);
      reading ← datetime_sub (wall value) offset;
      Ok {| wall := reading; tz := Some UTC |}
  end.

(** [value.date()] *)
Definition datetime_date (value : datetime) : date :=
  {| toordinal := wall value / microseconds_per_day |}.

(** ** The models of [fields/models.py] *)

Record Table := {
  table_id : Z;
  table_name : string;
  database_id : Z
}.

(** The columns every field model shares ([Field]). *)
Record Field := {
  field_id : Z;
  field_table : Table;
  field_order : Z;
  field_name : string;
  field_primary : bool
}.

Inductive NumberType := NUMBER_TYPE_INTEGER | NUMBER_TYPE_DECIMAL.

Record NumberField := {
  number_base : Field;
  number_type : NumberType;
  number_decimal_places : Z;
  number_negative : bool
}.

Record DateField := {
  date_base : Field;
  date_format : string;
  date_include_time : bool;
  date_time_format : string
}.

Record SingleSelectField := {
  single_select_base : Field
}.

(** [field.select_options.all()]: the options that point to the field. *)
Definition select_options `{Environment} (field : SingleSelectField)
  : list SelectOption :=
  filter (fun o => so_field_id o = field_id (single_select_base field))
         SelectOption_objects.

Record TextField := {
  text_base : Field;
  text_default : string
}.

Record LinkRowField := {
  link_row_base : Field;
  link_row_table : Table;
  (* the id held by the foreign key to the related field, if any *)
  link_row_related_field : option Z;
  link_row_relation_id : option Z
}.

(** A field instance of any of the registered model classes. *)
Inductive AnyField :=
  | OfTextField (f : TextField)
  | OfLongTextField (f : Field)
  | OfURLField (f : Field)
  | OfEmailField (f : Field)
  | OfNumberField (f : NumberField)
  | OfBooleanField (f : Field)
  | OfDateField (f : DateField)
  | OfLinkRowField (f : LinkRowField)
  | OfFileField (f : Field)
  | OfSingleSelectField (f : SingleSelectField).

(** [field_type_registry.get_by_model(field).type]: the [type] attribute of
    the class whose [model_class] the instance belongs to, as the classes
    of [field_types.py] declare them. *)
Definition get_by_model_type (field : AnyField) : string :=
  match field with
  | OfTextField _ => "text"
  | OfLongTextField _ => "long_text"
  | OfURLField _ => "url"
  | OfEmailField _ => "email"
  | OfNumberField _ => "number"
  | OfBooleanField _ => "boolean"
  | OfDateField _ => "date"
  | OfLinkRowField _ => "link_row"
  | OfFileField _ => "file"
  | OfSingleSelectField _ => "single_select"
  end.

(** [connection.vendor] *)
Record Connection := { vendor : string }.

(** ** SQL fragments

    The [get_alter_column_prepare_*] hooks return the text of a PL/pgSQL
    statement that rewrites the variable [p_in], possibly with a dictionary
    of query parameters.  The text is built here exactly as the f-strings
    build it; next to it stands the term the text denotes, with the value
    PostgreSQL gives it. *)

(** What a hook hands back: the result of [super()] (the default of the
    base class, which is not part of this module), [None], a statement, or
    a statement with its parameters. *)
Inductive AlterColumnPrepare :=
  | Super
  | ReturnNone
  | ReturnSql (sql : string)
  | ReturnSqlVariables (sql : string) (variables : gmap string string).

Definition nl : string := String "010"%char "".
Definition indent12 : string := "            ".
Definition indent16 : string := "                ".
Definition indent20 : string := "                    ".

(** *** Numeric expressions over [p_in] *)

Inductive NumericExpr :=
  | PInNumeric                                  (* p_in::numeric *)
  | Round (e : NumericExpr) (places : Z)        (* round(e, places) *)
  | Greatest (e : NumericExpr) (bound : Z).     (* greatest(e, bound) *)

Fixpoint render_numeric (e : NumericExpr) : string :=
  match e with
  | PInNumeric => "p_in::numeric"
  | Round e places =>
      "round(" +:+ render_numeric e +:+ ", " +:+ pretty places +:+ ")"
  | Greatest e bound =>
      "greatest(" +:+ render_numeric e +:+ ", " +:+ pretty bound +:+ ")"
  end.

(** Rounding to the nearest integer, ties away from zero, as PostgreSQL
    rounds [numeric] values. *)
Definition round_half_away (q : Q) : Z :=
  if Qle_bool 0 q then Qfloor (q + (1 # 2))%Q
  else - Qfloor (- q + (1 # 2))%Q.

(** [round(q, places)] *)
Definition sql_round (q : Q) (places : Z) : Q :=
  (inject_Z (round_half_away (q * Qpower (10 # 1) places))
   / Qpower (10 # 1) places)%Q.

(** [greatest(a, b)] *)
Definition sql_greatest (a b : Q) : Q := if Qle_bool a b then b else a.

(** The value of a numeric expression, given the value of [p_in::numeric]. *)
Fixpoint eval_numeric (e : NumericExpr) (p_in : Q) : Q :=
  match e with
  | PInNumeric => p_in
  | Round e places => sql_round (eval_numeric e p_in) places
  | Greatest e bound => sql_greatest (eval_numeric e p_in) (inject_Z bound)
  end.

(** *** Text expressions and the literal lookup table *)

Inductive TextExpr :=
  | PIn                               (* p_in *)
  | Quoted (s : string)               (* 's' *)
  | Placeholder (name : string)       (* %(name)s *)
  | Lower (e : TextExpr).             (* lower(e) *)

Fixpoint render_text (e : TextExpr) : string :=
  match e with
  | PIn => "p_in"
  | Quoted s => "'" +:+ s +:+ "'"
  | Placeholder name => "%(" +:+ name +:+ ")s"
  | Lower e => "lower(" +:+ render_text e +:+ ")"
  end.

(** One tuple of a [VALUES] list. *)
Definition render_tuple (t : TextExpr * TextExpr) : string :=
  "(" +:+ render_text t.1 +:+ ", " +:+ render_text t.2 +:+ ")".

Definition lower_ascii (c : ascii) : ascii :=
  let n := nat_of_ascii c in
  if (65 <=? n)%nat && (n <=? 90)%nat then ascii_of_nat (n + 32) else c.

(** A [lower()] that folds the ASCII letters and nothing else, as a
    server does under the C locale; the sample environments use it. *)
Fixpoint ascii_lower (s : string) : string :=
  match s with
  | EmptyString => EmptyString
  | String c s' => String (lower_ascii c) (ascii_lower s')
  end.

(** The value of a text expression; [None] is SQL's NULL.  A placeholder
    stands for the parameter bound to its name, and [lower] is the
    function of the server. *)
Fixpoint eval_text `{Environment} (variables : gmap string string)
  (p_in : option string) (e : TextExpr) : option string :=
  match e with
  | PIn => p_in
  | Quoted s => Some s
  | Placeholder name => variables !! name
  | Lower e => sql_lower <$> eval_text variables p_in e
  end.

(** The statement
    [p_in = (SELECT value FROM (VALUES tuples) AS values (key, value)
             WHERE key = rhs);] *)
Record SelectMapping := {
  tuples : list (TextExpr * TextExpr);
  where_key_equals : TextExpr
}.

(** A scalar subquery yields NULL on no row, the value on one row, and
    fails when more than one row is returned. *)
Inductive SqlOutcome :=
  | SqlValue (v : option string)
  | SqlMoreThanOneRow.

Definition key_matches `{Environment} (variables : gmap string string)
  (p_in : option string) (rhs : option string)
  (t : TextExpr * TextExpr) : bool :=
  match eval_text variables p_in t.1, rhs with
  | Some k, Some r => String.eqb k r
  | _, _ => false
  end.

Definition eval_select `{Environment} (variables : gmap string string)
  (m : SelectMapping) (p_in : option string) : SqlOutcome :=
  let rhs := eval_text variables p_in (where_key_equals m) in
  match List.filter (key_matches variables p_in rhs) (tuples m) with
  | [] => SqlValue None
  | [t] => SqlValue (eval_text variables p_in t.2)
  | _ => SqlMoreThanOneRow
  end.

(** ** Generated table models

    A generated model is the list of its columns and the rows of the table;
    a row maps a column name to the cell it holds. *)

Inductive Cell :=
  | NullCell
  | NumericCell (q : Q)
  | TextCell (s : string)
  | BooleanCell (b : bool).

Inductive OnDelete := CASCADE | SET_NULL.

Inductive ModelField :=
  | DecimalField (max_digits decimal_places : Z) (null blank : bool)
  | SingleSelectForeignKey (to : string) (on_delete : OnDelete)
      (db_constraint null blank : bool)
  | OtherModelField (description : string).

Record GeneratedModel := {
  model_fields : gmap string ModelField;
  objects : list (gmap string Cell)
}.

(** [f'field_{field.id}'] *)
Definition db_column (id : Z) : string := "field_" +:+ pretty id.

(** The filter [column__lt=0] of a queryset: the cell is a number below
    zero (NULL cells never satisfy a comparison). *)
Definition cell_lt_zero (row : gmap string Cell) (column : string) : bool :=
  match row !! column with
  | Some (NumericCell q) => negb (Qle_bool 0 q)
  | _ => false
  end.

(** [queryset.filter(column__lt=0).update(column=0)] *)
Definition update_negative_to_zero (column : string)
  (rows : list (gmap string Cell)) : list (gmap string Cell) :=
  (fun row => if cell_lt_zero row column
              then <[column := NumericCell 0]> row
              else row) <$> rows.

(** ** Keyword arguments and [len]

    A method that ends in [Cls(a=1, **kwargs)] passes the explicit keywords
    together with the entries of [kwargs]; a keyword given both ways is a
    [TypeError] (got multiple values for keyword argument). *)
Definition call_with_kwargs (explicit kwargs : gmap string PyValue)
  : Result (gmap string PyValue) :=
  if decide (explicit ##ₘ kwargs) then Ok (explicit ∪ kwargs)
  else Raise TypeError.

(** [len(v)]: defined on strings, lists and dictionaries. *)
Definition py_len (v : PyValue) : Result Z :=
  match v with
  | PyStr s => Ok (Z.of_nat (String.length s))
  | PyList l => Ok (Z.of_nat (length l))
  | PyDict d => Ok (Z.of_nat (length d))
  | _ => Raise TypeError
  end.

(** ** Random values

    [random_value] fills a table with test data.  It draws from Python's
    [random] module and from the [Faker] it is handed, consults a [cache]
    dictionary that lives across calls, and indexes the rows it found. *)

(** [random.randrange] and [random.randint] on the state of the
    generator; an empty range is a [ValueError]. *)
Class Random := {
  RandomState : Type;
  randrange : Z -> Z -> RandomState -> Result Z * RandomState;
  randint : Z -> Z -> RandomState -> Result Z * RandomState
}.

(** The methods of [fake] that the number field calls, on the state [F]
    of the faker: [pyint(min_value, max_value, step)] and
    [pydecimal(min_value, max_value, positive)]. *)
Record Faker (F : Type) := {
  pyint : Z -> Z -> Z -> F -> Z * F;
  pydecimal : Z -> Z -> bool -> F -> Decimal * F
}.
Arguments pyint {F} _ _ _ _ _.
Arguments pydecimal {F} _ _ _ _ _.

(** What [random_value] gives: a value, an exception of the module, or
    one of the errors of indexing, which the field types raise nowhere
    else. *)
Inductive Generated (A : Type) :=
  | Value (a : A)
  | Raised (e : Exception)
  | IndexError
  | KeyError
  | AssertionError.
Arguments Value {A} a.
Arguments Raised {A} e.
Arguments IndexError {A}.
Arguments KeyError {A}.
Arguments AssertionError {A}.

#[global] Instance Generated_fmap : FMap Generated := fun _ _ f m =>
  match m with
  | Value a => Value (f a)
  | Raised e => Raised e
  | IndexError => IndexError
  | KeyError => KeyError
  | AssertionError => AssertionError
  end.

(** [rows[k]] on the rows of a queryset: a negative index is refused by
    an assertion, an index past the end is an [IndexError]. *)
Definition queryset_index {A} (rows : list A) (k : Z) : Generated A :=
  if k <? 0 then AssertionError else
  match rows !! Z.to_nat k with
  | Some row => Value row
  | None => IndexError
  end.

(** The entries the field types keep in [cache]: the options of a field,
    the model of a table (which stands for the table), and a row count. *)
Inductive CacheEntry :=
  | CachedOptions (options : list SelectOption)
  | CachedModel (table : Table)
  | CachedCount (count : Z).

(** ** [FieldType]: the defaults a field type inherits *)
Module FieldType.
(** Modelled from the spec: the base class [FieldType] is defined in
    [fields/registries.py]; its capability methods have a "documented
    default (no-op/identity) behavior", so the inherited
    [prepare_value_for_db] returns the value as it is. *)
Definition prepare_value_for_db {Instance : Type} (instance : Instance)
  (value : PyValue) : Result PyValue :=
  Ok value.
End FieldType.

(** ** [URLFieldType] *)
Module URLFieldType.
Definition type : string := "url".

Definition prepare_value_for_db `{Environment} (instance : Field)
  (value : PyValue) : Result PyValue :=
  match value with
  | PyStr "" | PyNone => Ok (PyStr "")
  | _ =>
      _ ← URLValidator value;
      Ok value
  end.
End URLFieldType.

(** ** [EmailFieldType] *)
Module EmailFieldType.
Definition type : string := "email".

Definition prepare_value_for_db `{Environment} (instance : Field)
  (value : PyValue) : Result PyValue :=
  match value with
  | PyStr "" | PyNone => Ok (PyStr "")
  | _ =>
      _ ← EmailValidator value;
      Ok value
  end.
End EmailFieldType.

(** ** [NumberFieldType] *)

(** [Decimal(value)] *)
Definition Decimal_new `{Environment} (value : PyValue) : Result Decimal :=
  match value with
  | PyDecimal d => Ok d
  | PyInt z => Ok (Decimal_of_int z)
  | PyBool b => Ok (Decimal_of_int (Z.b2z b))
  | PyStr s => Decimal_of_str s
  | PyList l => Decimal_of_seq l
  | _ => Raise TypeError
  end.

Module NumberFieldType.
Definition MAX_DIGITS : Z := 50.
Definition type : string := "number".

Definition prepare_value_for_db `{Environment} (instance : NumberField)
  (value : PyValue) : Result PyValue :=
  value ← (if negb (is_None value)
           then PyDecimal <$> Decimal_new value
           else Ok value);
  match value with
  | PyDecimal d =>
      if negb (number_negative instance) then
        lt ← Decimal_lt_zero d;
        if (lt : bool)
        then Raise (ValidationError
                      (CannotBeNegative (field_id (number_base instance))))
        else Ok value
      else Ok value
  | _ => Ok value
  end.

Definition decimal_places_of (instance : NumberField) : Z :=
  match number_type instance with
  | NUMBER_TYPE_INTEGER => 0
  | NUMBER_TYPE_DECIMAL => number_decimal_places instance
  end.

(** The physical column of a number field. *)
Definition get_model_field (instance : NumberField) : ModelField :=
  let decimal_places := decimal_places_of instance in
  DecimalField (MAX_DIGITS + decimal_places) decimal_places true true.

Definition get_alter_column_prepare_new_value (connection : Connection)
  (from_field : AnyField) (to_field : NumberField) : AlterColumnPrepare :=
  if String.eqb (vendor connection) "postgresql" then
    let decimal_places := 0 in
    let decimal_places :=
      match number_type to_field with
      | NUMBER_TYPE_DECIMAL => number_decimal_places to_field
      | _ => decimal_places
      end in
    let function :=
      "round(p_in::numeric, " +:+ pretty decimal_places +:+ ")" in
    let function :=
      if negb (number_negative to_field)
      then "greatest(" +:+ function +:+ ", 0)"
      else function in
    ReturnSql ("p_in = " +:+ function +:+ ";")
  else Super.

(** The expression that the text of [function] denotes. *)
Definition new_value_function (to_field : NumberField) : NumericExpr :=
  let decimal_places :=
    match number_type to_field with
    | NUMBER_TYPE_DECIMAL => number_decimal_places to_field
    | _ => 0
    end in
  let function := Round PInNumeric decimal_places in
  if negb (number_negative to_field) then Greatest function 0 else function.

(** [from_field.number_negative]: only number fields have the attribute. *)
Definition number_negative_of (field : AnyField) : Result bool :=
  match field with
  | OfNumberField f => Ok (number_negative f)
  | _ => Raise AttributeError
  end.

(** Returns [to_model] as the pass leaves its table. *)
Definition after_update (from_field : AnyField) (to_field : NumberField)
  (from_model to_model : GeneratedModel) (user : Z)
  (connection : Connection) (altered_column : bool) (before : PyValue)
  : Result GeneratedModel :=
  if negb altered_column && negb (number_negative to_field) then
    from_negative ← number_negative_of from_field;
    if (from_negative : bool) then
      Ok {| model_fields := model_fields to_model;
            objects :=
              update_negative_to_zero
                (db_column (field_id (number_base to_field)))
                (objects to_model) |}
    else Ok to_model
  else Ok to_model.

(** The keyword arguments [serializers.DecimalField] is constructed with.
    The assignments to [kwargs] overwrite what the caller passed. *)
Definition get_serializer_field (instance : NumberField)
  (kwargs : gmap string PyValue) : Result (gmap string PyValue) :=
  let decimal_places :=
    match number_type instance with
    | NUMBER_TYPE_INTEGER => 0
    | NUMBER_TYPE_DECIMAL => number_decimal_places instance
    end in
  let kwargs := <["decimal_places" := PyInt decimal_places]> kwargs in
  let kwargs :=
    if negb (number_negative instance)
    then <["min_value" := PyInt 0]> kwargs
    else kwargs in
  call_with_kwargs
    (<["max_digits" := PyInt (MAX_DIGITS + decimal_places)]>
     (<["required" := PyBool false]>
     (<["allow_null" := PyBool true]> ∅)))
    kwargs.

Definition random_value {F : Type} (instance : NumberField)
  (fake : Faker F) : F -> PyValue * F := fun f =>
  match number_type instance with
  | NUMBER_TYPE_INTEGER =>
      let (n, f) :=
        pyint fake (if number_negative instance then -10000 else 0) 10000 1 f in
      (PyInt n, f)
  | NUMBER_TYPE_DECIMAL =>
      let (d, f) :=
        pydecimal fake (if number_negative instance then -10000 else 0) 10000
          (negb (number_negative instance)) f in
      (PyDecimal d, f)
  end.
End NumberFieldType.

(** ** [DateFieldType] *)
Module DateFieldType.
Definition type : string := "date".

Definition prepare_value_for_db `{Environment} (instance : DateField)
  (value : PyValue) : Result PyValue :=
  if negb (truthy value) then Ok value else
  (* if type(value) == str: *)
  value ← match value with
          | PyStr s =>
              match parser_parse s with
              | Ok dt => Ok (PyDatetime dt)
              | Raise ParserError =>
                  Raise (ValidationError CouldNotConvertToDate)
              | Raise e => Raise e
              end
          | _ => Ok value
          end;
  (* if type(value) == date: *)
  let value := match value with
               | PyDate d => PyDatetime (make_aware (datetime_of_date d) UTC)
               | _ => value
               end in
  (* if type(value) == datetime: *)
  match value with
  | PyDatetime dt =>
      value ← astimezone_utc dt;
      Ok (if date_include_time instance
          then PyDatetime value
          else PyDate (datetime_date value))
  | _ => Raise (ValidationError ShouldBeDateValue)
  end.
End DateFieldType.

(** ** [FileFieldType] *)
Module FileFieldType.
Definition type : string := "file".

(** [o.get('name')]: only dictionaries have a [get]. *)
Definition get_attr (o : PyValue) (key : string) : Result PyValue :=
  match o with
  | PyDict d => Ok (default PyNone (dict_get d key))
  | _ => Raise AttributeError
  end.

Definition is_str (v : PyValue) : bool :=
  match v with PyStr _ => true | _ => false end.

(** The first loop: each provided object is checked and kept. *)
Fixpoint provided_files (value : list PyValue)
  : Result (list (list (string * PyValue))) :=
  match value with
  | [] => Ok []
  | o :: value' =>
      name ← get_attr o "name";
      if negb (is_str name)
      then Raise (ValidationError MustContainFileName)
      else
        match o with
        | PyDict d =>
            if match dict_get d "visible_name" with
               | Some visible_name => negb (is_str visible_name)
               | None => false
               end
            then Raise (ValidationError VisibleNameMustBeString)
            else rest ← provided_files value'; Ok (d :: rest)
        | _ => Raise AttributeError
        end
  end.

(** [file['name']] of a checked object. *)
Definition file_name (file : list (string * PyValue)) : string :=
  match dict_get file "name" with
  | Some (PyStr s) => s
  | _ => ""
  end.

(** [next(user_file for user_file in queryset if user_file.name == name)] *)
Definition next_user_file (queryset : list UserFile) (name : string)
  : option UserFile :=
  List.find (fun user_file => String.eqb (uf_name user_file) name) queryset.

(** The second loop: the serialized user files, in the provided order. *)
Fixpoint user_files (queryset : list UserFile)
  (files : list (list (string * PyValue))) : Result (list PyValue) :=
  match files with
  | [] => Ok []
  | file :: files' =>
      match next_user_file queryset (file_name file) with
      | Some user_file =>
          let serialized := UserFile_serialize user_file in
          let serialized :=
            dict_set serialized "visible_name"
              (py_or (default PyNone (dict_get file "visible_name"))
                     (PyStr (uf_original_name user_file))) in
          rest ← user_files queryset files';
          Ok (PyDict serialized :: rest)
      | None => Raise (UserFileDoesNotExist (file_name file))
      end
  end.

Definition prepare_value_for_db `{Environment} (instance : Field)
  (value : PyValue) : Result PyValue :=
  match value with
  | PyNone => Ok (PyList [])
  | PyList [] => Ok (PyList [])
  | PyList value =>
      files ← provided_files value;
      queryset ← UserFile_objects_name (file_name <$> files);
      PyList <$> user_files queryset files
  | _ => Raise (ValidationError MustBeAList)
  end.
End FileFieldType.

(** ** [SingleSelectFieldType] *)

(** [SelectOption.objects.get(field=instance, id=value)]; no row is
    [SelectOption.DoesNotExist], which the caller catches. *)
Definition SelectOption_objects_get `{Environment} (field : SingleSelectField)
  (id : Z) : Result (option SelectOption) :=
  match filter (fun o => so_id o = id) (select_options field) with
  | [] => Ok None
  | [o] => Ok (Some o)
  | _ => Raise MultipleObjectsReturned
  end.

(** [view_sort.order] *)
Record ViewSort := { view_sort_order : string }.

(** [When(field_name=value, then=index)] and [Case(whens)] *)
Record When := {
  when_field : string;
  when_value : option Z;
  when_then : Z
}.

(** The value of a [Case] on a row: the [then] of the first [When] whose
    condition the row's cell satisfies ([field=None] reads [IS NULL]), and
    NULL when there is none. *)
Definition eval_case (order : list When) (cell : option Z) : option Z :=
  when_then <$> List.find (fun w => bool_decide (when_value w = cell)) order.

(** [enumerate(options)] *)
Definition enumerate {A} (l : list A) : list (Z * A) :=
  imap (fun i x => (Z.of_nat i, x)) l.

(** The [Case] of one [When] per enumerated option: the row's cell equal
    to [option] gives [index]. *)
Definition Case (field_name : string) (options : list (option Z)) : list When :=
  (fun '(index, option) =>
     {| when_field := field_name; when_value := option; when_then := index |})
    <$> enumerate options.

(** The order of [order_by('value')]: the option texts compared under
    the collation of the database. *)
Definition value_le `{Environment} (a b : SelectOption) : Prop :=
  collation_le (so_value a) (so_value b).

#[global] Instance value_le_dec `{Environment} : RelDecision value_le :=
  fun a b => collation_dec (so_value a) (so_value b).

Module SingleSelectFieldType.
Definition type : string := "single_select".

(** [isinstance(value, int)]: [bool] is a subclass of [int]. *)
Definition as_int (value : PyValue) : option Z :=
  match value with
  | PyInt z => Some z
  | PyBool b => Some (Z.b2z b)
  | _ => None
  end.

Definition prepare_value_for_db `{Environment} (instance : SingleSelectField)
  (value : PyValue) : Result PyValue :=
  if is_None value then Ok value else
  found ← match as_int value with
          | Some id => SelectOption_objects_get instance id
          | None => Ok None
          end;
  match found with
  | Some o => Ok (PySelectOption o)
  | None =>
      match value with
      | PySelectOption o =>
          if bool_decide (so_field_id o = field_id (single_select_base instance))
          then Ok value
          else Raise (ValidationError NotAValidOption)
      | _ => Raise (ValidationError NotAValidOption)
      end
  end.

(** The physical column: a nullable reference to a select option that is
    set to NULL when the option is deleted. *)
Definition get_model_field (instance : SingleSelectField) : ModelField :=
  SingleSelectForeignKey "SelectOption" SET_NULL false true true.

(** [f'option_{option.id}_value'] *)
Definition variable_name (option : SelectOption) : string :=
  "option_" +:+ pretty (so_id option) +:+ "_value".

(** The dictionary the loop fills: [variables[variable_name] = option.value]. *)
Definition variables_of (options : list SelectOption) : gmap string string :=
  foldl (fun variables option =>
           <[variable_name option := so_value option]> variables)
        ∅ options.

Definition get_alter_column_prepare_old_value `{Environment}
  (connection : Connection) (from_field : SingleSelectField)
  (to_field : AnyField) : AlterColumnPrepare :=
  if negb (String.eqb (get_by_model_type to_field) type)
     && String.eqb (vendor connection) "postgresql" then
    let options := select_options from_field in
    let variables := variables_of options in
    let values_mapping :=
      (fun option =>
         "('" +:+ pretty (so_id option) +:+ "', %("
         +:+ variable_name option +:+ ")s)") <$> options in
    if (length values_mapping =? 0)%nat then ReturnNone else
    let sql :=
      nl +:+ indent16 +:+ "p_in = (SELECT value FROM (" +:+
      nl +:+ indent20 +:+ "VALUES " +:+ String.concat "," values_mapping +:+
      nl +:+ indent16 +:+ ") AS values (key, value)" +:+
      nl +:+ indent16 +:+ "WHERE key = p_in);" +:+
      nl +:+ indent12 in
    ReturnSqlVariables sql variables
  else Super.

Definition get_alter_column_prepare_new_value `{Environment}
  (connection : Connection) (from_field : AnyField)
  (to_field : SingleSelectField) : AlterColumnPrepare :=
  if negb (String.eqb (get_by_model_type from_field) type)
     && String.eqb (vendor connection) "postgresql" then
    let options := select_options to_field in
    let variables := variables_of options in
    let values_mapping :=
      (fun option =>
         "(lower(%(" +:+ variable_name option +:+ ")s), '"
         +:+ pretty (so_id option) +:+ "')") <$> options in
    if (length values_mapping =? 0)%nat then ReturnNone else
    ReturnSqlVariables
      ("p_in = (" +:+
       nl +:+ indent16 +:+ "SELECT value FROM (" +:+
       nl +:+ indent20 +:+ "VALUES " +:+ String.concat "," values_mapping +:+
       nl +:+ indent16 +:+ ") AS values (key, value)" +:+
       nl +:+ indent16 +:+ "WHERE key = lower(p_in)" +:+
       nl +:+ indent12 +:+ ");" +:+
       nl +:+ indent12)
      variables
  else Super.

(** The statements that the two texts denote. *)
Definition old_value_select (options : list SelectOption) : SelectMapping :=
  {| tuples :=
       (fun option => (Quoted (pretty (so_id option)),
                       Placeholder (variable_name option))) <$> options;
     where_key_equals := PIn |}.

Definition new_value_select (options : list SelectOption) : SelectMapping :=
  {| tuples :=
       (fun option => (Lower (Placeholder (variable_name option)),
                       Quoted (pretty (so_id option)))) <$> options;
     where_key_equals := Lower PIn |}.

Definition render_old_value (m : SelectMapping) : string :=
  nl +:+ indent16 +:+ "p_in = (SELECT value FROM (" +:+
  nl +:+ indent20 +:+ "VALUES " +:+
    String.concat "," (render_tuple <$> tuples m) +:+
  nl +:+ indent16 +:+ ") AS values (key, value)" +:+
  nl +:+ indent16 +:+ "WHERE key = " +:+ render_text (where_key_equals m)
    +:+ ");" +:+
  nl +:+ indent12.

Definition render_new_value (m : SelectMapping) : string :=
  "p_in = (" +:+
  nl +:+ indent16 +:+ "SELECT value FROM (" +:+
  nl +:+ indent20 +:+ "VALUES " +:+
    String.concat "," (render_tuple <$> tuples m) +:+
  nl +:+ indent16 +:+ ") AS values (key, value)" +:+
  nl +:+ indent16 +:+ "WHERE key = " +:+ render_text (where_key_equals m) +:+
  nl +:+ indent12 +:+ ");" +:+
  nl +:+ indent12.

Definition get_order `{Environment} (field : SingleSelectField)
  (field_name : string) (view_sort : ViewSort) : list When :=
  let select_options := merge_sort value_le (select_options field) in
  let options := (fun select_option => Some (so_id select_option))
                   <$> select_options in
  let options := None :: options in
  let options :=
    if String.eqb (view_sort_order view_sort) "DESC"
    then reverse options else options in
  let order := Case field_name options in
  order.

(** Modelled from the spec: the schema editor that runs the statements of
    the hooks is not among the sources.  In the old-value phase of a
    conversion [p_in] holds the cell as text and the statement the hook
    returned is run on it; when the hook returned no statement "the bridge
    is skipped entirely" and [p_in] keeps its value. *)
Definition run_prepare_value `{Environment} (hook : AlterColumnPrepare)
  (statement : SelectMapping) (p_in : option string) : SqlOutcome :=
  match hook with
  | ReturnSqlVariables _ variables => eval_select variables statement p_in
  | _ => SqlValue p_in
  end.

(** [values] is the dictionary the caller holds: the method returns what
    it popped, next to the dictionary as the call leaves it. *)
Definition before_create (table : Table) (primary : bool)
  (values : gmap string PyValue) (order : Z) (user : Z)
  : PyValue * gmap string PyValue :=
  match values !! "select_options" with
  | Some select_options => (select_options, delete "select_options" values)
  | None => (PyNone, values)
  end.

(** [update_field_select_options] stands for
    [FieldHandler().update_field_select_options], called with [user],
    [field] and the provided options, on a state [S] of its own. *)
Definition after_create {S : Type}
  (update_field_select_options :
     Z -> SingleSelectField -> PyValue -> S -> Result unit * S)
  (field : SingleSelectField) (user : Z) (before : PyValue)
  : S -> Result unit * S := fun s =>
  if truthy before then
    match py_len before with
    | Ok n =>
        if 0 <? n
        then update_field_select_options user field before s
        else (Ok (), s)
    | Raise e => (Raise e, s)
    end
  else (Ok (), s).

(** Returns [to_field_values] as the call leaves it; when the handler
    raises, the dictionary of the caller still holds the key. *)
Definition before_update {S : Type}
  (update_field_select_options :
     Z -> SingleSelectField -> PyValue -> S -> Result unit * S)
  (from_field : SingleSelectField) (to_field_values : gmap string PyValue)
  (user : Z) : S -> Result (gmap string PyValue) * S := fun s =>
  match to_field_values !! "select_options" with
  | Some select_options =>
      match update_field_select_options user from_field select_options s with
      | (Ok _, s) => (Ok (delete "select_options" to_field_values), s)
      | (Raise e, s) => (Raise e, s)
      end
  | None => (Ok to_field_values, s)
  end.

(** Returns the choice with the [cache] and the generator as the call
    leaves them. *)
Definition random_value `{Environment} `{Random} (instance : SingleSelectField)
  (cache : gmap string CacheEntry) (s : RandomState)
  : Generated PyValue * gmap string CacheEntry * RandomState :=
  let cache_entry_name :=
    "field_" +:+ pretty (field_id (single_select_base instance))
    +:+ "_options" in
  let cache :=
    if decide (is_Some (cache !! cache_entry_name)) then cache
    else <[cache_entry_name := CachedOptions (select_options instance)]> cache in
  match cache !! cache_entry_name with
  | None => (KeyError, cache, s)
  | Some (CachedOptions select_options) =>
      match select_options with
      | [] => (Value PyNone, cache, s)
      | _ =>
          match randint 0 (Z.of_nat (length select_options) - 1) s with
          | (Ok random_choice, s) =>
              (PySelectOption
                 <$> queryset_index select_options random_choice,
               cache, s)
          | (Raise e, s) => (Raised e, cache, s)
          end
      end
  | Some (CachedCount count) =>
      (* [not 0] holds; any other number has no [len] *)
      if count =? 0 then (Value PyNone, cache, s)
      else (Raised TypeError, cache, s)
  | Some (CachedModel _) => (Raised TypeError, cache, s)
  end.
End SingleSelectFieldType.


(** ** The tables behind the link row fields

    The methods of [LinkRowFieldType] read and write the rows of the
    [LinkRowField] model.  The database is threaded through them: a call
    takes the database and gives back its result, or the exception it
    raised, with the database as the call left it. *)

Record Database := {
  Table_objects : gmap Z Table;
  LinkRowField_objects : gmap Z LinkRowField;
  (* the id the next inserted field row gets *)
  next_field_id : Z;
  (* group.has_user(user), by user id and database id *)
  group_has_user : Z -> Z -> bool
}.

Definition DB (A : Type) : Type := Database -> Result A * Database.

#[global] Instance DB_ret : MRet DB := fun _ a db => (Ok a, db).
#[global] Instance DB_bind : MBind DB := fun _ _ f m db =>
  match m db with
  | (Ok a, db') => f a db'
  | (Raise e, db') => (Raise e, db')
  end.

Definition raise {A} (e : Exception) : DB A := fun db => (Raise e, db).

(** [field.save()] *)
Definition LinkRowField_save (field : LinkRowField) : DB unit := fun db =>
  (Ok (),
   {| Table_objects := Table_objects db;
      LinkRowField_objects :=
        <[field_id (link_row_base field) := field]> (LinkRowField_objects db);
      next_field_id := next_field_id db;
      group_has_user := group_has_user db |}).

(** The row [field] without its reference to the related field [id],
    when that is the field it refers to. *)
Definition set_null (id : Z) (field : LinkRowField) : LinkRowField :=
  if bool_decide (link_row_related_field field = Some id)
  then {| link_row_base := link_row_base field;
          link_row_table := link_row_table field;
          link_row_related_field := None;
          link_row_relation_id := link_row_relation_id field |}
  else field.

(** Modelled from the spec: [field.delete()] of the model [LinkRowField],
    which is declared in [fields/models.py].  A paired field outlives its
    partner ("after_delete: link-row deletes its paired Field"), so the
    self-referencing key [link_row_related_field] does not cascade: the
    row is removed and Django sets the reference of the rows that refer
    to it to null. *)
Definition LinkRowField_delete (field : LinkRowField) : DB unit := fun db =>
  (Ok (),
   {| Table_objects := Table_objects db;
      LinkRowField_objects :=
        set_null (field_id (link_row_base field))
          <$> delete (field_id (link_row_base field))
                (LinkRowField_objects db);
      next_field_id := next_field_id db;
      group_has_user := group_has_user db |}).

(** Modelled from the spec: [TableHandler.get_table] is defined in
    [table/handler.py]; the table resolver is
    "get_table(id) -> Table | TableNotFound". *)
Definition TableHandler_get_table (id : Z) : DB Table := fun db =>
  match Table_objects db !! id with
  | Some table => (Ok table, db)
  | None => (Raise TableDoesNotExist, db)
  end.

(** Modelled from the spec: [Group.has_user] is defined in
    [baserow/core/models.py]; the permission checker is
    "assert_member(user, workspace) -> () | PermissionDenied". *)
Definition has_user_or_raise (table : Table) (user : Z) : DB unit := fun db =>
  if group_has_user db user (database_id table)
  then (Ok (), db)
  else (Raise UserNotInGroup, db).

(** The values of the keyword arguments a field is created with. *)
Inductive KwargValue :=
  | KwNone
  | KwInt (z : Z)
  | KwStr (s : string)
  | KwTable (table : Table)
  | KwField (field : LinkRowField).

Definition kwarg_truthy (v : KwargValue) : bool :=
  match v with
  | KwNone => false
  | KwInt z => negb (z =? 0)
  | KwStr s => negb (String.eqb s "")
  | KwTable _ => true
  | KwField _ => true
  end.

(** ** [LinkRowFieldType] *)
Module LinkRowFieldType.
Definition type : string := "link_row".
Definition can_order_by : bool := false.
Definition can_be_primary_field : bool := false.

(** No column of its own: the relation is added after the model exists. *)
Definition get_model_field (instance : LinkRowField) : option ModelField :=
  None.

Definition prepare_values (values : gmap string KwargValue) (user : Z)
  : DB (gmap string KwargValue) :=
  match values !! "link_row_table" with
  | Some (KwInt id) =>
      table ← TableHandler_get_table id;
      _ ← has_user_or_raise table user;
      mret (<["link_row_table" := KwTable table]> values)
  | _ => mret values
  end.

Definition before_create (table : Table) (primary : bool)
  (values : gmap string KwargValue) (order : Z) (user : Z) : DB unit :=
  match values !! "link_row_table" with
  | None => raise LinkRowTableNotProvided
  | Some v =>
      if negb (kwarg_truthy v) then raise LinkRowTableNotProvided else
      match v with
      | KwTable link_row_table =>
          if bool_decide (database_id table ≠ database_id link_row_table)
          then raise (LinkRowTableNotInSameDatabase
                        (table_id link_row_table) (table_id table))
          else mret ()
      | _ => raise AttributeError     (* link_row_table.database_id *)
      end
  end.

Definition before_update (from_field : LinkRowField)
  (to_field_values : gmap string KwargValue) (user : Z) : DB unit :=
  match to_field_values !! "link_row_table" with
  | None => mret ()
  | Some v =>
      if negb (kwarg_truthy v) then mret () else
      match v with
      | KwTable link_row_table =>
          let table := field_table (link_row_base from_field) in
          if bool_decide (database_id table ≠ database_id link_row_table)
          then raise (LinkRowTableNotInSameDatabase
                        (table_id link_row_table) (table_id table))
          else mret ()
      | _ => raise AttributeError
      end
  end.

Definition relation_id_kwarg (relation_id : option Z) : KwargValue :=
  match relation_id with Some z => KwInt z | None => KwNone end.

(** The keyword arguments the related field is created with:
    [name=field.table.name, link_row_table=field.table,
     link_row_related_field=field,
     link_row_relation_id=field.link_row_relation_id]. *)
Definition related_kwargs (field : LinkRowField) : gmap string KwargValue :=
  <["name" := KwStr (table_name (field_table (link_row_base field)))]>
  (<["link_row_table" := KwTable (field_table (link_row_base field))]>
  (<["link_row_related_field" := KwField field]>
  (<["link_row_relation_id" :=
       relation_id_kwarg (link_row_relation_id field)]> ∅))).

(** [create_field] stands for [FieldHandler().create_field], called with
    [user], [table], [type_name], [do_schema_change] and the remaining
    keyword arguments.  The field is returned as the method leaves it. *)
Definition after_create
  (create_field :
     Z -> Table -> string -> bool -> gmap string KwargValue -> DB LinkRowField)
  (field : LinkRowField) (user : Z) : DB LinkRowField :=
  if bool_decide (is_Some (link_row_related_field field)) then mret field else
  related ← create_field user (link_row_table field) type false
              (related_kwargs field);
  let field :=
    {| link_row_base := link_row_base field;
       link_row_table := link_row_table field;
       link_row_related_field := Some (field_id (link_row_base related));
       link_row_relation_id := link_row_relation_id field |} in
  _ ← LinkRowField_save field;
  mret field.

(** [field.link_row_related_field.delete()]: the related field is read
    through the foreign key and removed. *)
Definition after_delete (field : LinkRowField) (user : Z) : DB unit :=
  match link_row_related_field field with
  | None => raise AttributeError
  | Some related_id => fun db =>
      match LinkRowField_objects db !! related_id with
      | Some related => LinkRowField_delete related db
      | None => (Raise DoesNotExist, db)
      end
  end.

(** [field.link_row_related_field] of any field instance: only link row
    fields have the attribute, and the row is read through the foreign
    key. *)
Definition link_row_related_field_of (field : AnyField)
  : DB (option LinkRowField) :=
  match field with
  | OfLinkRowField field =>
      match link_row_related_field field with
      | None => mret None
      | Some related_id => fun db =>
          match LinkRowField_objects db !! related_id with
          | Some related => (Ok (Some related), db)
          | None => (Raise DoesNotExist, db)
          end
      end
  | _ => raise AttributeError
  end.

(** [get_last_order] stands for [LinkRowField.get_last_order], a class
    method of the model. *)
Definition before_schema_change (get_last_order : Table -> DB Z)
  (from_field to_field : AnyField) (user : Z) : DB unit :=
  match to_field with
  | OfLinkRowField to_link =>
      match from_field with
      | OfLinkRowField from_link =>
          if bool_decide (table_id (link_row_table to_link)
                          ≠ table_id (link_row_table from_link)) then
            related ← link_row_related_field_of from_field;
            match related with
            | None => raise AttributeError
            | Some related =>
                order ← get_last_order (link_row_table to_link);
                LinkRowField_save
                  {| link_row_base :=
                       {| field_id := field_id (link_row_base related);
                          field_table := link_row_table to_link;
                          field_order := order;
                          field_name :=
                            table_name (field_table (link_row_base to_link));
                          field_primary :=
                            field_primary (link_row_base related) |};
                     link_row_table := field_table (link_row_base to_link);
                     link_row_related_field := link_row_related_field related;
                     link_row_relation_id := link_row_relation_id related |}
            end
          else mret ()
      | _ => mret ()
      end
  | _ =>
      related ← link_row_related_field_of from_field;
      match related with
      | None => raise AttributeError
      | Some related => LinkRowField_delete related
      end
  end.

(** Returns [to_field] as the method leaves it. *)
Definition after_update
  (create_field :
     Z -> Table -> string -> bool -> gmap string KwargValue -> DB LinkRowField)
  (from_field to_field : AnyField) (user : Z) : DB AnyField :=
  match from_field, to_field with
  | OfLinkRowField _, _ => mret to_field
  | _, OfLinkRowField to_link =>
      related ← create_field user (link_row_table to_link) type false
                  (related_kwargs to_link);
      let to_link :=
        {| link_row_base := link_row_base to_link;
           link_row_table := link_row_table to_link;
           link_row_related_field := Some (field_id (link_row_base related));
           link_row_relation_id := link_row_relation_id to_link |} in
      _ ← LinkRowField_save to_link;
      mret (OfLinkRowField to_link)
  | _, _ => mret to_field
  end.

(** The loop of [random_value]: [n] times a row is drawn and its id
    appended. *)
Fixpoint random_rows `{Random} (n : nat) (rows : list Z) (count : Z)
  (values : list Z) (s : RandomState) : Generated (list Z) * RandomState :=
  match n with
  | O => (Value values, s)
  | S n =>
      match randint 0 (count - 1) s with
      | (Ok k, s) =>
          match queryset_index rows k with
          | Value id => random_rows n rows count (values ++ [id]) s
          | Raised e => (Raised e, s)
          | IndexError => (IndexError, s)
          | KeyError => (KeyError, s)
          | AssertionError => (AssertionError, s)
          end
      | (Raise e, s) => (Raised e, s)
      end
  end.

(** [objects_all] stands for [model.objects.all()] of the model that
    [table.get_model()] generates: the ids of the rows of the table.
    Returns the ids with the [cache] and the generator as the call leaves
    them. *)
Definition random_value `{Random} (objects_all : Table -> list Z)
  (instance : LinkRowField) (cache : gmap string CacheEntry)
  (s : RandomState)
  : Generated (list Z) * gmap string CacheEntry * RandomState :=
  let model_name := "table_" +:+ pretty (table_id (link_row_table instance)) in
  let count_name :=
    "table_" +:+ pretty (table_id (link_row_table instance)) +:+ "_count" in
  let cache :=
    if decide (is_Some (cache !! model_name)) then cache
    else
      <[count_name :=
          CachedCount (Z.of_nat (length (objects_all (link_row_table instance))))]>
      (<[model_name := CachedModel (link_row_table instance)]> cache) in
  match cache !! model_name, cache !! count_name with
  | None, _ => (KeyError, cache, s)
  | _, None => (KeyError, cache, s)
  | Some model, Some count =>
      if match count with CachedCount count => count =? 0 | _ => false end
      then (Value [], cache, s) else
      match randrange 0 3 s with
      | (Ok n, s) =>
          if n <=? 0 then (Value [], cache, s) else
          match model, count with
          | CachedModel table, CachedCount count =>
              let (values, s) :=
                random_rows (Z.to_nat n) (objects_all table) count [] s in
              (values, cache, s)
          | CachedModel _, _ => (Raised TypeError, cache, s)
          | _, _ => (Raised AttributeError, cache, s)
          end
      | (Raise e, s) => (Raised e, cache, s)
      end
  end.
End LinkRowFieldType.

(** ** [FieldHandler]: creating and deleting a link row field

    [FieldHandler] is defined in [fields/handler.py], which is not part of
    the sources at hand; what [LinkRowFieldType] calls is modelled from the
    field lifecycle of the specification. *)
Module FieldHandler.

(** Modelled from the spec: a field has "an ordering rank"; a new field
    ranks after the link row fields of its table. *)
Definition last_order (db : Database) (table : Table) : Z :=
  1 + Z.of_nat (size (filter
        (fun kf => table_id (field_table (link_row_base kf.2)) = table_id table)
        (LinkRowField_objects db))).

(** [LinkRowField.get_last_order(table)] *)
Definition get_last_order (table : Table) : DB Z := fun db =>
  (Ok (last_order db table), db).

Definition kwarg_name (field_values : gmap string KwargValue) : string :=
  match field_values !! "name" with
  | Some (KwStr s) => s
  | _ => ""
  end.

Definition kwarg_related_field (field_values : gmap string KwargValue)
  : option Z :=
  match field_values !! "link_row_related_field" with
  | Some (KwField related) => Some (field_id (link_row_base related))
  | _ => None
  end.

Definition kwarg_relation_id (field_values : gmap string KwargValue)
  : option Z :=
  match field_values !! "link_row_relation_id" with
  | Some (KwInt z) => Some z
  | _ => None
  end.

(** The database with the row [field] written under [id]. *)
Definition with_field (db : Database) (id : Z) (field : LinkRowField)
  (next : Z) : Database :=
  {| Table_objects := Table_objects db;
     LinkRowField_objects := <[id := field]> (LinkRowField_objects db);
     next_field_id := next;
     group_has_user := group_has_user db |}.

(** The instance a creation builds: it gets the next id.  A link row field
    is never the primary field ([can_be_primary_field] is false). *)
Definition created (db : Database) (table : Table) (order : Z)
  (name : string) (link_row_table : Table) (related relation : option Z)
  : LinkRowField :=
  {| link_row_base :=
       {| field_id := next_field_id db; field_table := table;
          field_order := order; field_name := name;
          field_primary := false |};
     link_row_table := link_row_table;
     link_row_related_field := related;
     link_row_relation_id := relation |}.

(** Modelled from the spec: the step of the creation protocol in which the
    field row comes to exist, with [table], [order] and the prepared field
    values; the row gets the next id. *)
Definition objects_create (table : Table) (order : Z)
  (field_values : gmap string KwargValue) : DB LinkRowField := fun db =>
  match field_values !! "link_row_table" with
  | Some (KwTable link_row_table) =>
      let instance :=
        created db table order (kwarg_name field_values) link_row_table
          (kwarg_related_field field_values)
          (kwarg_relation_id field_values) in
      (Ok instance,
       with_field db (next_field_id db) instance (next_field_id db + 1))
  | _ => (Raise TypeError, db)
  end.

(** Modelled from the spec: the creation protocol of [FieldHandler] runs
    the hooks in the order of the field lifecycle: [prepare_values], then
    [before_create], then the field row is inserted (a link row field has
    no physical column of its own on its table), then [after_create].  Only
    the type name that [LinkRowFieldType] passes is modelled.  The first
    argument bounds the depth of nested calls, as the recursion limit of
    the interpreter does. *)
Fixpoint create_field (depth : nat) (user : Z) (table : Table)
  (type_name : string) (do_schema_change : bool)
  (kwargs : gmap string KwargValue) : DB LinkRowField :=
  match depth with
  | O => raise RecursionError
  | S depth =>
      if negb (String.eqb type_name LinkRowFieldType.type)
      then raise ValueError
      else
        last_order ← get_last_order table;
        field_values ← LinkRowFieldType.prepare_values kwargs user;
        _ ← LinkRowFieldType.before_create table false field_values
              last_order user;
        instance ← objects_create table last_order field_values;
        LinkRowFieldType.after_create (create_field depth) instance user
  end.

(** Modelled from the spec: the deletion protocol removes the field row
    and then runs [after_delete] on the removed instance. *)
Definition delete_field (user : Z) (field : LinkRowField) : DB unit :=
  _ ← LinkRowField_delete field;
  LinkRowFieldType.after_delete field user.
End FieldHandler.

(** ** [DatabaseConfig]: keeping generated models out of the app registry

    [config.py] replaces [apps.register_model] by a function that passes a
    model on to the original only when it is no generated table model and
    was not created automatically for one. *)

(** What the wrapper reads of a model class: whether it has the attribute
    [_generated_table_model], and [model._meta.auto_created], which is
    [False] or the model class a through model was created for. *)
#[warnings="-register-all"]
Inductive ModelClass :=
  | Model (name : string) (generated_table_model : bool)
      (auto_created : option ModelClass).

Definition has_generated_table_model (model : ModelClass) : bool :=
  match model with Model _ generated _ => generated end.

Definition meta_auto_created (model : ModelClass) : option ModelClass :=
  match model with Model _ _ auto_created => auto_created end.

(** The apps registry: the [register_model] attribute, a method that
    acts on the state [S] of the registry. *)
Record Apps (S : Type) := {
  apps_register_model : string -> ModelClass -> S -> Result unit * S
}.
Arguments apps_register_model {S} _ _ _ _.

Module DatabaseConfig.

(** The inner function [register_model], closed over [original]. *)
Definition register_model {S : Type}
  (original : string -> ModelClass -> S -> Result unit * S)
  (app_label : string) (model : ModelClass) : S -> Result unit * S :=
  fun s =>
    if negb (has_generated_table_model model)
       && negb (match meta_auto_created model with
                | Some creator => has_generated_table_model creator
                | None => false
                end)
    then original app_label model s
    else (Ok (), s).

Definition prevent_generated_model_for_registering {S : Type}
  (apps : Apps S) : Apps S :=
  let original := apps_register_model apps in
  {| apps_register_model := register_model original |}.
End DatabaseConfig.

(** ** Coercion through the registry

    [field_type_registry.get_by_model(field).prepare_value_for_db(field,
    value)]: the method of the class registered for the model of the field.
    The text, long text, boolean and link row types inherit it. *)
Definition prepare_value_for_db `{Environment} (field : AnyField)
  (value : PyValue) : Result PyValue :=
  match field with
  | OfTextField f => FieldType.prepare_value_for_db f value
  | OfLongTextField f => FieldType.prepare_value_for_db f value
  | OfURLField f => URLFieldType.prepare_value_for_db f value
  | OfEmailField f => EmailFieldType.prepare_value_for_db f value
  | OfNumberField f => NumberFieldType.prepare_value_for_db f value
  | OfBooleanField f => FieldType.prepare_value_for_db f value
  | OfDateField f => DateFieldType.prepare_value_for_db f value
  | OfLinkRowField f => FieldType.prepare_value_for_db f value
  | OfFileField f => FileFieldType.prepare_value_for_db f value
  | OfSingleSelectField f => SingleSelectFieldType.prepare_value_for_db f value
  end.

(** ** Notions the properties are stated with *)

(** The dictionary stored for a provided [file] that resolved to [u]. *)
Definition stored_file (u : UserFile) (file : list (string * PyValue))
  : list (string * PyValue) :=
  dict_set (UserFile_serialize u) "visible_name"
    (py_or (default PyNone (dict_get file "visible_name"))
           (PyStr (uf_original_name u))).

(** A provided object that passes the checks of the first loop. *)
Definition checked_file (file : list (string * PyValue)) : Prop :=
  FileFieldType.is_str (default PyNone (dict_get file "name")) = true /\
  match dict_get file "visible_name" with
  | Some v => FileFieldType.is_str v = true
  | None => True
  end.

(** [field.link_row_related_field], read from the database. *)
Definition pair (db : Database) (field : LinkRowField) : option LinkRowField :=
  related_id ← link_row_related_field field;
  LinkRowField_objects db !! related_id.

(** The pairing invariant: every stored link row field sits under its own
    id, below the next id, and it and its related field, a different row,
    point at each other. *)
Definition paired (db : Database) : Prop :=
  forall i f, LinkRowField_objects db !! i = Some f ->
    field_id (link_row_base f) = i /\
    i < next_field_id db /\
    exists j p,
      j <> i /\
      link_row_related_field f = Some j /\
      LinkRowField_objects db !! j = Some p /\
      link_row_related_field p = Some i.

(** The two rows a creation without a back reference leaves behind, and
    the database after it. *)
Definition created_field (db : Database) (table : Table)
  (values : gmap string KwargValue) (linked_table : Table) : LinkRowField :=
  FieldHandler.created db table (FieldHandler.last_order db table)
    (FieldHandler.kwarg_name values) linked_table
    (Some (next_field_id db + 1)) (FieldHandler.kwarg_relation_id values).

Definition created_related (db : Database) (table : Table)
  (values : gmap string KwargValue) (linked_table : Table) : LinkRowField :=
  let db1 :=
    FieldHandler.with_field db (next_field_id db)
      (FieldHandler.created db table (FieldHandler.last_order db table)
         (FieldHandler.kwarg_name values) linked_table None
         (FieldHandler.kwarg_relation_id values))
      (next_field_id db + 1) in
  FieldHandler.created db1 linked_table
    (FieldHandler.last_order db1 linked_table)
    (table_name table) table (Some (next_field_id db))
    (FieldHandler.kwarg_relation_id values).

Definition after_creation (db : Database) (table : Table)
  (values : gmap string KwargValue) (linked_table : Table) : Database :=
  {| Table_objects := Table_objects db;
     LinkRowField_objects :=
       <[next_field_id db := created_field db table values linked_table]>
       (<[next_field_id db + 1 :=
            created_related db table values linked_table]>
          (LinkRowField_objects db));
     next_field_id := next_field_id db + 2;
     group_has_user := group_has_user db |}.

(** The database without the rows [i] and [j]. *)
Definition without (db : Database) (i j : Z) : Database :=
  {| Table_objects := Table_objects db;
     LinkRowField_objects := delete j (delete i (LinkRowField_objects db));
     next_field_id := next_field_id db;
     group_has_user := group_has_user db |}.

(** The error the first loop of the file field raises on an object. *)
Definition provided_file_error (o : PyValue) : Exception :=
  match o with
  | PyDict d =>
      if FileFieldType.is_str (default PyNone (dict_get d "name"))
      then ValidationError VisibleNameMustBeString
      else ValidationError MustContainFileName
  | _ => AttributeError
  end.

(** A generated table model, or a model created automatically for one. *)
Definition of_generated_table (model : ModelClass) : bool :=
  has_generated_table_model model
  || match meta_auto_created model with
     | Some creator => has_generated_table_model creator
     | None => false
     end.

(** Model classes registered one after the other, as their definitions
    are executed; the first exception ends the run. *)
Fixpoint register_all {S : Type}
  (register_model : string -> ModelClass -> S -> Result unit * S)
  (models : list (string * ModelClass)) (s : S) : Result unit * S :=
  match models with
  | [] => (Ok (), s)
  | (app_label, model) :: models =>
      match register_model app_label model s with
      | (Ok _, s) => register_all register_model models s
      | (Raise e, s) => (Raise e, s)
      end
  end.

(** The text of the statement a hook hands back, if it hands one back. *)
Definition statement_text (hook : AlterColumnPrepare) : option string :=
  match hook with
  | ReturnSql sql => Some sql
  | ReturnSqlVariables sql _ => Some sql
  | _ => None
  end.

(** The parameters a hook hands back with its statement. *)
Definition statement_variables (hook : AlterColumnPrepare)
  : gmap string string :=
  match hook with
  | ReturnSqlVariables _ variables => variables
  | _ => ∅
  end.

(** ** Sample data *)

(** An environment in which strings are not parsed, every value passes the
    validators, the local time zone is UTC and the tables hold two select
    options of field 7.  The server is one under the C locale: [lower()]
    folds the ASCII letters and texts are sorted by their codes. *)
Definition sample_environment : Environment := {|
  Decimal_of_str := fun _ => Raise InvalidOperation;
  Decimal_of_seq := fun _ => Raise ValueError;
  URLValidator := fun _ => Ok ();
  EmailValidator := fun _ => Ok ();
  parser_parse := fun _ => Raise ParserError;
  local_utcoffset := fun _ => Ok 0;
  SelectOption_objects :=
    [ {| so_id := 1; so_value := "Red"; so_color := "red";
         so_order := 0; so_field_id := 7 |};
      {| so_id := 2; so_value := "Blue"; so_color := "blue";
         so_order := 1; so_field_id := 7 |} ];
  UserFile_objects_name := fun _ => Ok [];
  sql_lower := ascii_lower;
  collation_le := String.le;
  collation_dec := String.le_dec;
  collation_trans := _;
  collation_total := _
|}.

(** The same, with two options of field 7 whose texts differ in case only. *)
Definition sample_environment_same_text : Environment := {|
  Decimal_of_str := fun _ => Raise InvalidOperation;
  Decimal_of_seq := fun _ => Raise ValueError;
  URLValidator := fun _ => Ok ();
  EmailValidator := fun _ => Ok ();
  parser_parse := fun _ => Raise ParserError;
  local_utcoffset := fun _ => Ok 0;
  SelectOption_objects :=
    [ {| so_id := 1; so_value := "Red"; so_color := "red";
         so_order := 0; so_field_id := 7 |};
      {| so_id := 2; so_value := "red"; so_color := "dark-red";
         so_order := 1; so_field_id := 7 |} ];
  UserFile_objects_name := fun _ => Ok [];
  sql_lower := ascii_lower;
  collation_le := String.le;
  collation_dec := String.le_dec;
  collation_trans := _;
  collation_total := _
|}.

(** Two uploaded files, and an environment whose [UserFile] table holds
    them: the queryset of a list of names is the files that carry one. *)
Definition sample_user_files : list UserFile :=
  [ {| uf_name := "a.png"; uf_original_name := "holiday.png";
       uf_serialized := [("size", PyInt 10)] |};
    {| uf_name := "b.pdf"; uf_original_name := "report-final.pdf";
       uf_serialized := [("size", PyInt 20)] |} ].

Definition sample_environment_files : Environment := {|
  Decimal_of_str := fun _ => Raise InvalidOperation;
  Decimal_of_seq := fun _ => Raise ValueError;
  URLValidator := fun _ => Ok ();
  EmailValidator := fun _ => Ok ();
  parser_parse := fun _ => Raise ParserError;
  local_utcoffset := fun _ => Ok 0;
  SelectOption_objects := [];
  UserFile_objects_name := fun names =>
    Ok (filter (fun u => uf_name u ∈ names) sample_user_files);
  sql_lower := ascii_lower;
  collation_le := String.le;
  collation_dec := String.le_dec;
  collation_trans := _;
  collation_total := _
|}.

(** A decimal field of two places that does not allow negative numbers. *)
Definition sample_decimal_field : NumberField :=
  {| number_base :=
       {| field_id := 9;
          field_table :=
            {| table_id := 1; table_name := "Customers"; database_id := 1 |};
          field_order := 2; field_name := "price"; field_primary := false |};
     number_type := NUMBER_TYPE_DECIMAL;
     number_decimal_places := 2; number_negative := false |}.

(** A third table, and a database in which the link row field 1 of
    Customers and the field 2 of Projects are each other's related field. *)
Definition sample_other_table : Table :=
  {| table_id := 3; table_name := "Invoices"; database_id := 1 |}.

Definition sample_link_row_field : LinkRowField :=
  {| link_row_base :=
       {| field_id := 1;
          field_table :=
            {| table_id := 1; table_name := "Customers"; database_id := 1 |};
          field_order := 1; field_name := "Project"; field_primary := false |};
     link_row_table :=
       {| table_id := 2; table_name := "Projects"; database_id := 1 |};
     link_row_related_field := Some 2;
     link_row_relation_id := Some 1 |}.

Definition sample_related_field : LinkRowField :=
  {| link_row_base :=
       {| field_id := 2;
          field_table :=
            {| table_id := 2; table_name := "Projects"; database_id := 1 |};
          field_order := 1; field_name := "Customers";
          field_primary := false |};
     link_row_table :=
       {| table_id := 1; table_name := "Customers"; database_id := 1 |};
     link_row_related_field := Some 1;
     link_row_relation_id := Some 1 |}.

Definition sample_paired_database : Database :=
  {| Table_objects :=
       <[1 := {| table_id := 1; table_name := "Customers";
                 database_id := 1 |}]>
       (<[2 := {| table_id := 2; table_name := "Projects";
                  database_id := 1 |}]>
       (<[3 := sample_other_table]> ∅));
     LinkRowField_objects :=
       <[1 := sample_link_row_field]> (<[2 := sample_related_field]> ∅);
     next_field_id := 3;
     group_has_user := fun _ _ => true |}.

(** A link row field that has no related field yet. *)
Definition sample_unrelated_field : LinkRowField :=
  {| link_row_base :=
       {| field_id := 5;
          field_table :=
            {| table_id := 1; table_name := "Customers"; database_id := 1 |};
          field_order := 1; field_name := "Project"; field_primary := false |};
     link_row_table :=
       {| table_id := 2; table_name := "Projects"; database_id := 1 |};
     link_row_related_field := None;
     link_row_relation_id := None |}.

(** A generator that counts: the [k]-th draw from a range of [n] numbers
    is the [k mod n]-th of them. *)
Definition sample_random : Random :=
  {| RandomState := Z;
     randrange := fun start stop s =>
       if start <? stop then (Ok (start + s mod (stop - start)), s + 1)
       else (Raise ValueError, s);
     randint := fun a b s =>
       if a <=? b then (Ok (a + s mod (b - a + 1)), s + 1)
       else (Raise ValueError, s) |}.

(** A faker that gives the smallest value it is asked for. *)
Definition sample_faker : Faker unit :=
  {| pyint := fun min_value max_value step f => (min_value, f);
     pydecimal := fun min_value max_value positive f =>
       (Decimal_of_int min_value, f) |}.


(** A date field that includes the time. *)
Definition sample_datetime_field : DateField :=
  {| date_base :=
       {| field_id := 8;
          field_table :=
            {| table_id := 1; table_name := "Customers"; database_id := 1 |};
          field_order := 3; field_name := "due"; field_primary := false |};
     date_format := "ISO"; date_include_time := true;
     date_time_format := "24" |}.

Definition sample_table : Table :=
  {| table_id := 1; table_name := "Customers"; database_id := 1 |}.

Definition sample_linked_table : Table :=
  {| table_id := 2; table_name := "Projects"; database_id := 1 |}.

(** An empty database in which everybody belongs to every group. *)
Definition sample_database : Database :=
  {| Table_objects := <[1 := sample_table]> (<[2 := sample_linked_table]> ∅);
     LinkRowField_objects := ∅;
     next_field_id := 1;
     group_has_user := fun _ _ => true |}.

Definition sample_link_row_values : gmap string KwargValue :=
  <["name" := KwStr "Project"]>
  (<["link_row_table" := KwTable sample_linked_table]> ∅).

Definition sample_field (id : Z) : Field :=
  {| field_id := id; field_table := sample_table; field_order := 1;
     field_name := "field"; field_primary := false |}.

Definition sample_number_field (negative : bool) : NumberField :=
  {| number_base := sample_field 3; number_type := NUMBER_TYPE_INTEGER;
     number_decimal_places := 1; number_negative := negative |}.

Definition sample_single_select_field (id : Z) : SingleSelectField :=
  {| single_select_base := sample_field id |}.

Definition sample_text_field : AnyField :=
  OfTextField {| text_base := sample_field 5; text_default := "" |}.

Definition postgresql : Connection := {| vendor := "postgresql" |}.

(** A table with the number column [field_3] holding -5, 2 and NULL. *)
Definition sample_model : GeneratedModel :=
  {| model_fields :=
       {[ "field_3" := NumberFieldType.get_model_field
                         (sample_number_field true) ]};
     objects := [ {[ "field_3" := NumericCell (-5 # 1) ]};
                  {[ "field_3" := NumericCell (2 # 1) ]};
                  {[ "field_3" := NullCell ]} ] |}.

Definition sample_date_field : DateField :=
  {| date_base := sample_field 4; date_format := "ISO";
     date_include_time := false; date_time_format := "24" |}.

(* ================================================================== *)
(** * Part II: properties                                              *)
(* ================================================================== *)

(** ** Value coercion: the date field *)

(** C10: for every date field configuration, [prepare_value_for_db] returns
    a falsy raw value (None, the empty string, zero, False) unchanged and
    raises nothing; the empty string in particular never reaches the
    parser. *)
Theorem date_prepare_value_for_db_falsy `{Environment}
  (instance : DateField) (value : PyValue) :
  truthy value = false ->
  DateFieldType.prepare_value_for_db instance value = Ok value.
Proof.
  intros Hfalsy. unfold DateFieldType.prepare_value_for_db.
  now rewrite Hfalsy.
Qed.

Lemma date_prepare_value_for_db_falsy_witness :
  truthy (PyStr "") = false /\
  @DateFieldType.prepare_value_for_db sample_environment
     sample_date_field (PyStr "") = Ok (PyStr "").
Proof.
  split; [reflexivity |].
  apply (@date_prepare_value_for_db_falsy sample_environment
           sample_date_field (PyStr "")).
  reflexivity.
Defined.

(** ** Value coercion: the number field *)

Lemma number_prepare_value_for_db_parsed `{Environment}
  (instance : NumberField) (value : PyValue) (d : Decimal) :
  value <> PyNone ->
  Decimal_new value = Ok d ->
  NumberFieldType.prepare_value_for_db instance value =
    if number_negative instance then Ok (PyDecimal d)
    else
      lt ← Decimal_lt_zero d;
      if (lt : bool)
      then Raise (ValidationError
                    (CannotBeNegative (field_id (number_base instance))))
      else Ok (PyDecimal d).
Proof.
  intros Hnot_none Hparsed. unfold NumberFieldType.prepare_value_for_db.
  assert (is_None value = false) as -> by (destruct value; [congruence | reflexivity ..]).
  cbn. rewrite Hparsed. cbn. now destruct (number_negative instance).
Qed.

(** C8, as the code has it: a raw value other than None is parsed as a
    decimal; when the parsed decimal is a number (not a NaN) the call fails
    with the "cannot be negative" validation error exactly when the field
    disallows negative values and the decimal is strictly below zero, and
    returns the parsed decimal otherwise.  A NaN is returned when negative
    values are allowed; when they are not, comparing it with zero raises
    [InvalidOperation]. *)
Theorem number_prepare_value_for_db_negative `{Environment}
  (instance : NumberField) (value : PyValue) (d : Decimal) :
  value <> PyNone ->
  Decimal_new value = Ok d ->
  match d with
  | DNaN _ =>
      NumberFieldType.prepare_value_for_db instance value =
        if number_negative instance then Ok (PyDecimal d)
        else Raise InvalidOperation
  | _ =>
      NumberFieldType.prepare_value_for_db instance value =
        if negb (number_negative instance) && Decimal_is_negative d
        then Raise (ValidationError
                      (CannotBeNegative (field_id (number_base instance))))
        else Ok (PyDecimal d)
  end.
Proof.
  intros Hnot_none Hparsed.
  rewrite (number_prepare_value_for_db_parsed instance value d Hnot_none Hparsed).
  destruct d as [s c e | s | sg]; destruct (number_negative instance);
    reflexivity.
Qed.

Lemma number_prepare_value_for_db_negative_witness :
  @NumberFieldType.prepare_value_for_db sample_environment
     (sample_number_field false) (PyInt (-5)) =
  Raise (ValidationError (CannotBeNegative 3)).
Proof.
  apply (@number_prepare_value_for_db_negative sample_environment
           (sample_number_field false) (PyInt (-5)) (Decimal_of_int (-5))).
  - discriminate.
  - reflexivity.
Defined.

(** The claim as the spec words it fails on a NaN: the value parses, it is
    not below zero, negative values are disallowed, and the call neither
    raises the validation error nor returns the parsed decimal. *)
Lemma number_prepare_value_for_db_nan_counterexample :
  let instance := sample_number_field false in
  let value := PyDecimal (DNaN false) in
  let result :=
    @NumberFieldType.prepare_value_for_db sample_environment instance value in
  value <> PyNone /\
  @Decimal_new sample_environment value = Ok (DNaN false) /\
  Decimal_is_negative (DNaN false) = false /\
  result = Raise InvalidOperation /\
  result <> Ok (PyDecimal (DNaN false)) /\
  result <> Raise (ValidationError (CannotBeNegative 3)).
Proof. cbn. repeat split; discriminate. Qed.

(** ** The number field: conversion expression and backfill *)

Lemma render_new_value_function (to_field : NumberField) :
  render_numeric (NumberFieldType.new_value_function to_field) =
    let function :=
      "round(p_in::numeric, "
      +:+ pretty (NumberFieldType.decimal_places_of to_field) +:+ ")" in
    if negb (number_negative to_field)
    then "greatest(" +:+ function +:+ ", 0)"
    else function.
Proof.
  unfold NumberFieldType.new_value_function, NumberFieldType.decimal_places_of.
  destruct (number_type to_field), (number_negative to_field); reflexivity.
Qed.

Lemma sql_greatest_lower_bound (a b : Q) : (b <= sql_greatest a b)%Q.
Proof.
  unfold sql_greatest. destruct (Qle_bool a b) eqn:Hle.
  - apply Qle_refl.
  - destruct (Qlt_le_dec a b) as [Hlt | Hge]; [| exact Hge].
    apply Qlt_le_weak, Qle_bool_iff in Hlt. congruence.
Qed.

(** The statement for a decimal target with two places that allows
    negative values. *)
Example number_new_value_hook_example :
  NumberFieldType.get_alter_column_prepare_new_value postgresql
    sample_text_field
    {| number_base := sample_field 3; number_type := NUMBER_TYPE_DECIMAL;
       number_decimal_places := 2; number_negative := true |}
  = ReturnSql "p_in = round(p_in::numeric, 2);".
Proof. reflexivity. Qed.

(** C4, as the code has it: on PostgreSQL the new-value expression of a
    conversion to a number field rounds the incoming value to the decimal
    places of the target field (zero places unless its number type is
    decimal) and floors the result at zero exactly when the target field
    disallows negative values, whatever the old field allowed. *)
Theorem number_get_alter_column_prepare_new_value
  (connection : Connection) (from_field : AnyField) (to_field : NumberField) :
  vendor connection = "postgresql" ->
  let places := NumberFieldType.decimal_places_of to_field in
  let function := NumberFieldType.new_value_function to_field in
  NumberFieldType.get_alter_column_prepare_new_value
    connection from_field to_field
    = ReturnSql ("p_in = " +:+ render_numeric function +:+ ";") /\
  function = (if number_negative to_field
              then Round PInNumeric places
              else Greatest (Round PInNumeric places) 0) /\
  (forall p_in : Q,
     eval_numeric function p_in =
       if number_negative to_field
       then sql_round p_in places
       else sql_greatest (sql_round p_in places) 0) /\
  (number_negative to_field = false ->
   forall p_in : Q, (0 <= eval_numeric function p_in)%Q).
Proof.
  intros Hvendor places function. subst places function.
  split; [| split; [| split]].
  - unfold NumberFieldType.get_alter_column_prepare_new_value.
    rewrite Hvendor. cbn [String.eqb Ascii.eqb Bool.eqb].
    rewrite render_new_value_function.
    unfold NumberFieldType.decimal_places_of.
    destruct (number_type to_field), (number_negative to_field); reflexivity.
  - unfold NumberFieldType.new_value_function, NumberFieldType.decimal_places_of.
    destruct (number_type to_field), (number_negative to_field); reflexivity.
  - intros p_in.
    unfold NumberFieldType.new_value_function, NumberFieldType.decimal_places_of.
    destruct (number_type to_field), (number_negative to_field); reflexivity.
  - intros Hdisallowed p_in.
    unfold NumberFieldType.new_value_function. rewrite Hdisallowed. cbn.
    apply (sql_greatest_lower_bound _ (inject_Z 0)).
Qed.

Lemma number_get_alter_column_prepare_new_value_witness :
  NumberFieldType.get_alter_column_prepare_new_value
    postgresql
    (OfNumberField (sample_number_field true)) (sample_number_field false)
  = ReturnSql "p_in = greatest(round(p_in::numeric, 0), 0);".
Proof.
  exact (proj1 (number_get_alter_column_prepare_new_value
                  postgresql
                  (OfNumberField (sample_number_field true))
                  (sample_number_field false) eq_refl)).
Defined.

(** The claim as the spec words it fails when the old field already
    disallowed negative values: nothing is newly disallowed, and the
    expression still floors at zero, so an incoming -5 becomes 0 where
    rounding alone gives -5. *)
Lemma number_new_value_floor_counterexample :
  let from_field := sample_number_field false in
  let to_field := sample_number_field false in
  number_negative from_field = false /\
  NumberFieldType.get_alter_column_prepare_new_value
    postgresql (OfNumberField from_field) to_field
  = ReturnSql "p_in = greatest(round(p_in::numeric, 0), 0);" /\
  (eval_numeric (NumberFieldType.new_value_function to_field) (-5 # 1) == 0)%Q /\
  (sql_round (-5 # 1) 0 == -5 # 1)%Q.
Proof. repeat split. Qed.

Lemma cell_lt_zero_true (row : gmap string Cell) (column : string) :
  cell_lt_zero row column = true <->
  exists q, row !! column = Some (NumericCell q) /\ (q < 0)%Q.
Proof.
  unfold cell_lt_zero. split.
  - destruct (row !! column) as [[| q | |] |]; try discriminate.
    intros Hneg. exists q. split; [reflexivity |].
    apply negb_true_iff in Hneg.
    destruct (Qlt_le_dec q 0) as [Hlt | Hge]; [exact Hlt |].
    apply Qle_bool_iff in Hge. congruence.
  - intros (q & -> & Hlt). apply negb_true_iff.
    destruct (Qle_bool 0 q) eqn:Hle; [| reflexivity].
    apply Qle_bool_iff in Hle. exfalso. exact (Qlt_not_le _ _ Hlt Hle).
Qed.

Lemma update_negative_to_zero_lookup (column : string)
  (rows : list (gmap string Cell)) (i : nat) (row : gmap string Cell) :
  rows !! i = Some row ->
  update_negative_to_zero column rows !! i =
    Some (if cell_lt_zero row column
          then <[column := NumericCell 0]> row else row).
Proof.
  intros Hrow. unfold update_negative_to_zero.
  rewrite list_lookup_fmap, Hrow. reflexivity.
Qed.

(** C3: when only the allow-negative flag of a number field goes from
    allowed to disallowed and the column was not altered, [after_update]
    sets the cell of every row whose value is strictly negative to zero and
    leaves the columns of the model, the other cells and every row whose
    value is null or not negative as they were; when the column was altered
    or the flag did not change in that direction the pass leaves the table
    untouched. *)
Theorem number_after_update_backfill
  (from_field : AnyField) (to_field : NumberField)
  (from_model to_model : GeneratedModel) (user : Z) (connection : Connection)
  (altered_column : bool) (before : PyValue) :
  let column := db_column (field_id (number_base to_field)) in
  let result :=
    NumberFieldType.after_update from_field to_field from_model to_model
      user connection altered_column before in
  (altered_column = true \/ number_negative to_field = true ->
   result = Ok to_model) /\
  (forall from, from_field = OfNumberField from ->
     number_negative from = false -> result = Ok to_model) /\
  (forall from, from_field = OfNumberField from ->
     number_negative from = true -> number_negative to_field = false ->
     altered_column = false ->
     exists to_model',
       result = Ok to_model' /\
       model_fields to_model' = model_fields to_model /\
       length (objects to_model') = length (objects to_model) /\
       forall (i : nat) (row : gmap string Cell),
         objects to_model !! i = Some row ->
         exists row',
           objects to_model' !! i = Some row' /\
           (forall c, c <> column -> row' !! c = row !! c) /\
           (forall q, row !! column = Some (NumericCell q) -> (q < 0)%Q ->
              row' !! column = Some (NumericCell 0)) /\
           ((forall q, row !! column = Some (NumericCell q) -> ~ (q < 0)%Q) ->
              row' = row)).
Proof.
  intros column result. subst result.
  unfold NumberFieldType.after_update. split; [| split].
  - intros [-> | ->]; [reflexivity |].
    now rewrite andb_false_r.
  - intros from -> Hfrom. cbn. rewrite Hfrom.
    now destruct (negb altered_column && negb (number_negative to_field)).
  - intros from -> Hfrom Hto ->. rewrite Hto. cbn. rewrite Hfrom.
    eexists. split; [reflexivity |]. cbn. split; [reflexivity |].
    split; [unfold update_negative_to_zero; now rewrite length_fmap |].
    intros i row Hrow.
    rewrite (update_negative_to_zero_lookup _ _ _ _ Hrow).
    eexists. split; [reflexivity |].
    fold column. destruct (cell_lt_zero row column) eqn:Hneg.
    + split; [| split].
      * intros c Hc. now rewrite lookup_insert_ne.
      * intros q _ _. now rewrite lookup_insert_eq.
      * intros Hnone. apply cell_lt_zero_true in Hneg as (q & Hq & Hlt).
        now destruct (Hnone q Hq).
    + split; [| split]; [reflexivity | | reflexivity].
      intros q Hq Hlt.
      assert (cell_lt_zero row column = true) as Habs
        by (apply cell_lt_zero_true; eauto).
      congruence.
Qed.

Lemma number_after_update_backfill_witness :
  exists to_model',
    NumberFieldType.after_update (OfNumberField (sample_number_field true))
      (sample_number_field false) sample_model sample_model 1 postgresql
      false PyNone = Ok to_model' /\
    model_fields to_model' = model_fields sample_model /\
    objects to_model' = [ {[ "field_3" := NumericCell 0 ]};
                          {[ "field_3" := NumericCell (2 # 1) ]};
                          {[ "field_3" := NullCell ]} ].
Proof.
  destruct (number_after_update_backfill
              (OfNumberField (sample_number_field true))
              (sample_number_field false) sample_model sample_model 1
              postgresql false PyNone) as (_ & _ & Hbackfill).
  destruct (Hbackfill (sample_number_field true) eq_refl eq_refl eq_refl
              eq_refl) as (to_model' & Hresult & Hfields & _).
  exists to_model'. split; [exact Hresult |]. split; [exact Hfields |].
  injection Hresult as <-. reflexivity.
Defined.

(** ** Value coercion: every field type *)

Lemma bind_Ok {A B} (m : Result A) (f : A -> Result B) (b : B) :
  (m ≫= f) = Ok b -> exists a, m = Ok a /\ f a = Ok b.
Proof. destruct m as [a | e]; [eauto | discriminate]. Qed.

Lemma fmap_Ok {A B} (m : Result A) (f : A -> B) (b : B) :
  (f <$> m) = Ok b -> exists a, m = Ok a /\ b = f a.
Proof. destruct m as [a | e]; cbn; [| discriminate]. intros [= <-]. eauto. Qed.

(** *** URL and email *)

Lemma URL_idempotent `{Environment} (instance : Field) (value result : PyValue) :
  URLFieldType.prepare_value_for_db instance value = Ok result ->
  URLFieldType.prepare_value_for_db instance result = Ok result.
Proof.
  unfold URLFieldType.prepare_value_for_db.
  destruct value as [| b | z | [| c s] | d | d | dt | l | d | o]; cbn;
    try (intros [= <-]; reflexivity);
    (intros Hv; apply bind_Ok in Hv as ([] & Hvalid & [= <-]);
     cbn; now rewrite Hvalid).
Qed.

Lemma Email_idempotent `{Environment} (instance : Field) (value result : PyValue) :
  EmailFieldType.prepare_value_for_db instance value = Ok result ->
  EmailFieldType.prepare_value_for_db instance result = Ok result.
Proof.
  unfold EmailFieldType.prepare_value_for_db.
  destruct value as [| b | z | [| c s] | d | d | dt | l | d | o]; cbn;
    try (intros [= <-]; reflexivity);
    (intros Hv; apply bind_Ok in Hv as ([] & Hvalid & [= <-]);
     cbn; now rewrite Hvalid).
Qed.

(** *** Number *)

Lemma Number_result `{Environment} (instance : NumberField) (value result : PyValue) :
  NumberFieldType.prepare_value_for_db instance value = Ok result ->
  result = PyNone \/
  exists d, result = PyDecimal d /\
    (number_negative instance = false -> Decimal_lt_zero d = Ok false).
Proof.
  unfold NumberFieldType.prepare_value_for_db. intros Hv.
  apply bind_Ok in Hv as (v & Hparse & Hv).
  destruct (is_None value) eqn:Hnone; cbn in Hparse.
  - injection Hparse as <-. destruct value; try discriminate.
    injection Hv as <-. now left.
  - apply fmap_Ok in Hparse as (d & _ & ->). right. exists d.
    destruct (number_negative instance); cbn in Hv.
    + injection Hv as <-. split; [reflexivity | discriminate].
    + apply bind_Ok in Hv as (lt & Hlt & Hv).
      destruct lt; [discriminate |]. injection Hv as <-. now split.
Qed.

Lemma Number_idempotent `{Environment} (instance : NumberField) (value result : PyValue) :
  NumberFieldType.prepare_value_for_db instance value = Ok result ->
  NumberFieldType.prepare_value_for_db instance result = Ok result.
Proof.
  intros Hv. apply Number_result in Hv as [-> | (d & -> & Hcheck)];
    [reflexivity |].
  unfold NumberFieldType.prepare_value_for_db. cbn.
  destruct (number_negative instance); cbn; [reflexivity |].
  now rewrite Hcheck.
Qed.

(** *** Date *)

Lemma astimezone_utc_tz `{Environment} (dt dt' : datetime) :
  astimezone_utc dt = Ok dt' -> tz dt' = Some UTC.
Proof.
  unfold astimezone_utc. destruct (tz dt) as [[| name offset] |] eqn:Htz.
  - now intros [= <-].
  - intros Hdt. apply bind_Ok in Hdt as (reading & _ & [= <-]). reflexivity.
  - intros Hdt. apply bind_Ok in Hdt as (offset & _ & Hdt).
    apply bind_Ok in Hdt as (reading & _ & [= <-]). reflexivity.
Qed.

Lemma astimezone_utc_of_utc `{Environment} (dt : datetime) :
  tz dt = Some UTC -> astimezone_utc dt = Ok dt.
Proof. intros Htz. unfold astimezone_utc. now rewrite Htz. Qed.

Lemma astimezone_utc_idempotent `{Environment} (dt dt' : datetime) :
  astimezone_utc dt = Ok dt' -> astimezone_utc dt' = Ok dt'.
Proof. intros Hdt. eapply astimezone_utc_of_utc, astimezone_utc_tz, Hdt. Qed.

Lemma date_of_midnight `{Environment} (d : date) :
  datetime_date <$> astimezone_utc (make_aware (datetime_of_date d) UTC)
  = Ok d.
Proof.
  destruct d as [n]. unfold datetime_date, astimezone_utc, make_aware,
    datetime_of_date. cbn. do 2 f_equal.
  now apply Z.div_mul.
Qed.

(** A date object is stored as itself, or as midnight of the day in UTC. *)
Lemma Date_of_date `{Environment} (instance : DateField) (d : date) :
  DateFieldType.prepare_value_for_db instance (PyDate d) =
    Ok (if date_include_time instance
        then PyDatetime (make_aware (datetime_of_date d) UTC)
        else PyDate d).
Proof.
  unfold DateFieldType.prepare_value_for_db. cbn.
  destruct (date_include_time instance); [reflexivity |].
  do 2 f_equal. destruct d as [n].
  unfold datetime_date, make_aware, datetime_of_date. cbn. f_equal.
  now apply Z.div_mul.
Qed.

Lemma Date_idempotent `{Environment} (instance : DateField) (value result : PyValue) :
  DateFieldType.prepare_value_for_db instance value = Ok result ->
  DateFieldType.prepare_value_for_db instance result = Ok result.
Proof.
  unfold DateFieldType.prepare_value_for_db at 1.
  destruct (truthy value) eqn:Htruthy; cbn [negb].
  2:{ intros [= <-]. unfold DateFieldType.prepare_value_for_db.
      now rewrite Htruthy. }
  intros Hv. apply bind_Ok in Hv as (v & _ & Hv).
  assert (exists dt dt', astimezone_utc dt = Ok dt' /\
            result = if date_include_time instance
                     then PyDatetime dt'
                     else PyDate (datetime_date dt')) as (dt & dt' & Hdt & ->).
  { destruct v; try discriminate;
      apply bind_Ok in Hv as (dt' & Hdt & [= <-]); eauto. }
  destruct (date_include_time instance) eqn:Htime.
  - unfold DateFieldType.prepare_value_for_db. cbn.
    rewrite (astimezone_utc_idempotent dt dt' Hdt). cbn. now rewrite Htime.
  - rewrite Date_of_date. now rewrite Htime.
Qed.

(** *** Single select *)

Lemma SelectOption_objects_get_field `{Environment}
  (instance : SingleSelectField) (id : Z) (o : SelectOption) :
  SelectOption_objects_get instance id = Ok (Some o) ->
  so_field_id o = field_id (single_select_base instance).
Proof.
  unfold SelectOption_objects_get.
  destruct (filter _ (select_options instance)) as [| o' [| ? ?]] eqn:Hfilter;
    try discriminate.
  intros [= ->].
  assert (o ∈ select_options instance) as Hin.
  { eapply (list_elem_of_filter (fun o => so_id o = id)).
    rewrite Hfilter. now left. }
  unfold select_options in Hin. now apply list_elem_of_filter in Hin as [? _].
Qed.

Lemma SingleSelect_idempotent `{Environment} (instance : SingleSelectField)
  (value result : PyValue) :
  SingleSelectFieldType.prepare_value_for_db instance value = Ok result ->
  SingleSelectFieldType.prepare_value_for_db instance result = Ok result.
Proof.
  unfold SingleSelectFieldType.prepare_value_for_db at 1.
  destruct (is_None value) eqn:Hnone.
  { intros [= <-]. unfold SingleSelectFieldType.prepare_value_for_db.
    now rewrite Hnone. }
  intros Hv. apply bind_Ok in Hv as (found & Hfound & Hv).
  assert (exists o, result = PySelectOption o /\
            so_field_id o = field_id (single_select_base instance))
    as (o & -> & Hfield).
  { destruct found as [o |].
    - injection Hv as <-. exists o. split; [reflexivity |].
      destruct (SingleSelectFieldType.as_int value) as [id |];
        [| discriminate].
      now apply SelectOption_objects_get_field in Hfound.
    - destruct value; try discriminate.
      case_bool_decide; [| discriminate]. injection Hv as <-. eauto. }
  unfold SingleSelectFieldType.prepare_value_for_db. cbn.
  now rewrite bool_decide_eq_true_2.
Qed.

(** *** File *)

Lemma dict_get_set_eq (d : list (string * PyValue)) (k : string) (v : PyValue) :
  dict_get (dict_set d k v) k = Some v.
Proof.
  induction d as [| [k' v'] d IH]; cbn.
  - now rewrite String.eqb_refl.
  - destruct (String.eqb k' k) eqn:Hk; cbn.
    + now rewrite String.eqb_refl.
    + now rewrite Hk.
Qed.

Lemma dict_get_set_ne (d : list (string * PyValue)) (k k' : string) (v : PyValue) :
  k <> k' -> dict_get (dict_set d k v) k' = dict_get d k'.
Proof.
  intros Hne. induction d as [| [k0 v0] d IH]; cbn.
  - apply String.eqb_neq in Hne. now rewrite Hne.
  - destruct (String.eqb k0 k) eqn:Hk; cbn.
    + apply String.eqb_eq in Hk as ->.
      apply String.eqb_neq in Hne. now rewrite Hne.
    + destruct (String.eqb k0 k'); [reflexivity | exact IH].
Qed.

Lemma py_or_str (a : PyValue) (s : string) :
  (a = PyNone \/ FileFieldType.is_str a = true) ->
  FileFieldType.is_str (py_or a (PyStr s)) = true /\
  py_or (py_or a (PyStr s)) (PyStr s) = py_or a (PyStr s).
Proof.
  assert (py_or (PyStr s) (PyStr s) = PyStr s) as Hsame.
  { unfold py_or. now destruct (truthy (PyStr s)). }
  intros [-> | Hstr].
  - change (py_or PyNone (PyStr s)) with (PyStr s). now rewrite Hsame.
  - unfold py_or at 1 3 4. destruct (truthy a) eqn:Ha.
    + split; [exact Hstr |]. unfold py_or. now rewrite Ha.
    + now rewrite Hsame.
Qed.

Lemma stored_facts (u : UserFile) (file : list (string * PyValue)) :
  checked_file file ->
  dict_get (stored_file u file) "name" = Some (PyStr (uf_name u)) /\
  checked_file (stored_file u file) /\
  stored_file u (stored_file u file) = stored_file u file.
Proof.
  intros [_ Hvisible].
  assert (default PyNone (dict_get file "visible_name") = PyNone \/
          FileFieldType.is_str (default PyNone (dict_get file "visible_name"))
            = true) as Hcase.
  { destruct (dict_get file "visible_name"); [now right | now left]. }
  destruct (py_or_str _ (uf_original_name u) Hcase) as [Hstr Hfix].
  assert (dict_get (stored_file u file) "name" = Some (PyStr (uf_name u))) as Hname.
  { unfold stored_file. rewrite dict_get_set_ne by discriminate.
    unfold UserFile_serialize. apply dict_get_set_eq. }
  assert (dict_get (stored_file u file) "visible_name"
          = Some (py_or (default PyNone (dict_get file "visible_name"))
                        (PyStr (uf_original_name u)))) as Hget.
  { unfold stored_file. apply dict_get_set_eq. }
  split; [exact Hname | split].
  - unfold checked_file. rewrite Hname, Hget. now split.
  - unfold stored_file at 1. rewrite Hget.
    simpl (from_option _ _ (Some _)). now rewrite Hfix.
Qed.

Lemma provided_files_checked (value : list PyValue)
  (files : list (list (string * PyValue))) :
  FileFieldType.provided_files value = Ok files -> Forall checked_file files.
Proof.
  revert files. induction value as [| o value IH]; intros files Hv; cbn in Hv.
  - injection Hv as <-. constructor.
  - apply bind_Ok in Hv as (name & Hname & Hv).
    destruct (FileFieldType.is_str name) eqn:Hstr; [| discriminate].
    cbn [negb] in Hv. destruct o; try discriminate.
    cbn in Hname. injection Hname as <-.
    destruct (match dict_get d "visible_name" with
              | Some v => negb (FileFieldType.is_str v) | None => false end)
      eqn:Hvisible; [discriminate |].
    apply bind_Ok in Hv as (rest & Hrest & [= <-]).
    constructor; [| now apply IH]. split; [exact Hstr |].
    destruct (dict_get d "visible_name"); [| exact I].
    now apply negb_false_iff in Hvisible.
Qed.

Lemma next_user_file_name (queryset : list UserFile) (name : string) (u : UserFile) :
  FileFieldType.next_user_file queryset name = Some u -> uf_name u = name.
Proof.
  unfold FileFieldType.next_user_file. intros Hfind.
  apply List.find_some in Hfind as [_ Heq]. now apply String.eqb_eq.
Qed.

Lemma file_name_stored (u : UserFile) (file : list (string * PyValue)) :
  checked_file file -> FileFieldType.file_name (stored_file u file) = uf_name u.
Proof.
  intros Hchecked. unfold FileFieldType.file_name.
  now destruct (stored_facts u file Hchecked) as (-> & _).
Qed.

Lemma provided_files_checked_cons (d : list (string * PyValue))
  (value : list PyValue) :
  checked_file d ->
  FileFieldType.provided_files (PyDict d :: value) =
    (rest ← FileFieldType.provided_files value; Ok (d :: rest)).
Proof.
  intros [Hname Hvisible].
  change (FileFieldType.provided_files (PyDict d :: value)) with
    (if negb (FileFieldType.is_str (default PyNone (dict_get d "name")))
     then Raise (ValidationError MustContainFileName)
     else if match dict_get d "visible_name" with
             | Some visible_name => negb (FileFieldType.is_str visible_name)
             | None => false
             end
          then Raise (ValidationError VisibleNameMustBeString)
          else rest ← FileFieldType.provided_files value; Ok (d :: rest)).
  rewrite Hname. cbn [negb].
  destruct (dict_get d "visible_name"); [now rewrite Hvisible | reflexivity].
Qed.

Lemma user_files_found (queryset : list UserFile) (u : UserFile)
  (file : list (string * PyValue)) (files : list (list (string * PyValue))) :
  FileFieldType.next_user_file queryset (FileFieldType.file_name file) = Some u ->
  FileFieldType.user_files queryset (file :: files) =
    (rest ← FileFieldType.user_files queryset files;
     Ok (PyDict (stored_file u file) :: rest)).
Proof.
  intros Hnext.
  change (FileFieldType.user_files queryset (file :: files)) with
    (match FileFieldType.next_user_file queryset
             (FileFieldType.file_name file) with
     | Some user_file =>
         rest ← FileFieldType.user_files queryset files;
         Ok (PyDict (stored_file user_file file) :: rest)
     | None => Raise (UserFileDoesNotExist (FileFieldType.file_name file))
     end).
  now rewrite Hnext.
Qed.

(** The stored_file list, passed through the two loops again, is itself. *)
Lemma user_files_again (queryset : list UserFile)
  (files : list (list (string * PyValue))) (results : list PyValue) :
  Forall checked_file files ->
  FileFieldType.user_files queryset files = Ok results ->
  exists files',
    FileFieldType.provided_files results = Ok files' /\
    FileFieldType.file_name <$> files' = FileFieldType.file_name <$> files /\
    FileFieldType.user_files queryset files' = Ok results.
Proof.
  revert results. induction files as [| file files IH];
    intros results Hchecked Hv.
  - injection Hv as <-. exists []. now repeat split.
  - apply Forall_cons in Hchecked as [Hfile Hchecked].
    destruct (FileFieldType.next_user_file queryset
                (FileFieldType.file_name file)) as [u |] eqn:Hnext.
    2:{ cbn in Hv. now rewrite Hnext in Hv. }
    rewrite (user_files_found _ _ _ _ Hnext) in Hv.
    apply bind_Ok in Hv as (rest & Hrest & [= <-]).
    destruct (IH rest Hchecked Hrest) as (files' & Hprovided & Hnames & Hagain).
    destruct (stored_facts u file Hfile) as (Hname & Hstored & Hfix).
    pose proof (next_user_file_name _ _ _ Hnext) as Hu.
    pose proof (file_name_stored u file Hfile) as Hstored_name.
    exists (stored_file u file :: files'). split; [| split].
    + rewrite (provided_files_checked_cons _ _ Hstored).
      now rewrite Hprovided.
    + rewrite !fmap_cons, Hnames, Hstored_name, Hu. reflexivity.
    + rewrite (user_files_found queryset u).
      * rewrite Hagain, Hfix. reflexivity.
      * now rewrite Hstored_name, Hu.
Qed.

Lemma File_idempotent `{Environment} (instance : Field) (value result : PyValue) :
  FileFieldType.prepare_value_for_db instance value = Ok result ->
  FileFieldType.prepare_value_for_db instance result = Ok result.
Proof.
  unfold FileFieldType.prepare_value_for_db at 1.
  destruct value as [| | | | | | | [| o value] |  |]; try discriminate;
    try (intros [= <-]; reflexivity).
  intros Hv. apply bind_Ok in Hv as (files & Hfiles & Hv).
  apply bind_Ok in Hv as (queryset & Hquery & Hv).
  apply fmap_Ok in Hv as (results & Hresults & ->).
  pose proof (provided_files_checked _ _ Hfiles) as Hchecked.
  destruct (user_files_again queryset files results Hchecked Hresults)
    as (files' & Hprovided & Hnames & Hagain).
  unfold FileFieldType.prepare_value_for_db.
  destruct results as [| r results]; [reflexivity |].
  rewrite Hprovided. cbn. rewrite Hnames, Hquery. cbn. now rewrite Hagain.
Qed.

(** C7: for every field type and every field configuration,
    [prepare_value_for_db] is idempotent: when coercing a raw value
    succeeds, coercing the result again succeeds and returns that same
    result (an already parsed decimal, an already normalized UTC date or
    datetime, an already validated URL, a resolved option or file list). *)
Theorem prepare_value_for_db_idempotent `{Environment}
  (field : AnyField) (value result : PyValue) :
  prepare_value_for_db field value = Ok result ->
  prepare_value_for_db field result = Ok result.
Proof.
  destruct field as [f | f | f | f | f | f | f | f | f | f]; cbn.
  - intros [= <-]. reflexivity.
  - intros [= <-]. reflexivity.
  - apply URL_idempotent.
  - apply Email_idempotent.
  - apply Number_idempotent.
  - intros [= <-]. reflexivity.
  - apply Date_idempotent.
  - intros [= <-]. reflexivity.
  - apply File_idempotent.
  - apply SingleSelect_idempotent.
Qed.

Lemma prepare_value_for_db_idempotent_witness :
  @prepare_value_for_db sample_environment
     (OfNumberField (sample_number_field true)) (PyInt (-5))
    = Ok (PyDecimal (Decimal_of_int (-5))) /\
  @prepare_value_for_db sample_environment
     (OfNumberField (sample_number_field true))
     (PyDecimal (Decimal_of_int (-5)))
    = Ok (PyDecimal (Decimal_of_int (-5))).
Proof.
  split; [reflexivity |].
  apply (@prepare_value_for_db_idempotent sample_environment
           (OfNumberField (sample_number_field true)) (PyInt (-5))).
  reflexivity.
Defined.

(** ** The single select field: conversion to and from text *)

Lemma String_length_app (s1 s2 : string) :
  String.length (s1 +:+ s2) = (String.length s1 + String.length s2)%nat.
Proof. induction s1 as [| c s1 IH]; simpl; [reflexivity | f_equal; exact IH]. Qed.

Lemma String_app_inj_r (s1 s2 t : string) : s1 +:+ t = s2 +:+ t -> s1 = s2.
Proof.
  revert s2. induction s1 as [| c s1 IH]; intros [| c2 s2] Heq.
  - reflexivity.
  - apply (f_equal String.length) in Heq.
    rewrite !String_length_app in Heq. simpl in Heq. lia.
  - apply (f_equal String.length) in Heq.
    rewrite !String_length_app in Heq. simpl in Heq. lia.
  - simpl in Heq. injection Heq as -> Heq. f_equal. now apply IH.
Qed.

Lemma variable_name_inj (a b : SelectOption) :
  SingleSelectFieldType.variable_name a = SingleSelectFieldType.variable_name b ->
  so_id a = so_id b.
Proof.
  unfold SingleSelectFieldType.variable_name. intros Heq.
  apply String.app_inj in Heq. apply String_app_inj_r in Heq.
  now apply (inj pretty).
Qed.

Lemma variables_of_app (options : list SelectOption) (o : SelectOption) :
  SingleSelectFieldType.variables_of (options ++ [o]) =
  <[SingleSelectFieldType.variable_name o := so_value o]>
    (SingleSelectFieldType.variables_of options).
Proof. unfold SingleSelectFieldType.variables_of. now rewrite foldl_app. Qed.

Lemma variables_of_lookup (options : list SelectOption) (o : SelectOption) :
  NoDup (so_id <$> options) -> o ∈ options ->
  SingleSelectFieldType.variables_of options
    !! SingleSelectFieldType.variable_name o = Some (so_value o).
Proof.
  induction options as [| o' options IH] using rev_ind; intros Hnodup Hin.
  - inversion Hin.
  - rewrite variables_of_app. rewrite fmap_app in Hnodup.
    apply NoDup_app in Hnodup as (Hnodup & Hdisjoint & _).
    apply elem_of_app in Hin as [Hin | Hin].
    + rewrite lookup_insert_ne; [now apply IH |].
      intros Heq. apply variable_name_inj in Heq.
      apply (Hdisjoint (so_id o)).
      * apply list_elem_of_fmap. eauto.
      * rewrite <- Heq. cbn. apply list_elem_of_singleton. reflexivity.
    + apply list_elem_of_singleton in Hin as ->. now rewrite lookup_insert_eq.
Qed.

Lemma filter_fmap_none {A B} (g : A -> B) (p : B -> bool) (l : list A) :
  (forall y, y ∈ l -> p (g y) = false) -> List.filter p (g <$> l) = [].
Proof.
  induction l as [| a l IH]; intros Hnone; [reflexivity |].
  cbn. rewrite Hnone by now left. apply IH. intros y Hy. apply Hnone. now right.
Qed.

Lemma filter_fmap_unique {A B} (g : A -> B) (p : B -> bool)
  (l : list A) (x : A) :
  NoDup l -> x ∈ l -> p (g x) = true ->
  (forall y, y ∈ l -> p (g y) = true -> y = x) ->
  List.filter p (g <$> l) = [g x].
Proof.
  induction l as [| a l IH]; intros Hnodup Hin Hx Hunique.
  - inversion Hin.
  - apply NoDup_cons in Hnodup as [Hnotin Hnodup]. cbn.
    apply elem_of_cons in Hin as [<- | Hin].
    + rewrite Hx. f_equal. apply filter_fmap_none.
      intros y Hy. destruct (p (g y)) eqn:Hp; [| reflexivity].
      destruct Hnotin. rewrite <- (Hunique y); [exact Hy | now right | exact Hp].
    + destruct (p (g a)) eqn:Hp.
      * destruct Hnotin. rewrite (Hunique a); [exact Hin | now left | exact Hp].
      * apply IH; try assumption. intros y Hy. apply Hunique. now right.
Qed.

Lemma NoDup_of_ids (options : list SelectOption) :
  NoDup (so_id <$> options) -> NoDup options.
Proof. apply NoDup_fmap_1. Qed.

Lemma same_id_same_option (options : list SelectOption) (a b : SelectOption) :
  NoDup (so_id <$> options) -> a ∈ options -> b ∈ options ->
  so_id a = so_id b -> a = b.
Proof.
  intros Hnodup Ha Hb Heq.
  apply list_elem_of_lookup in Ha as [i Hi], Hb as [j Hj].
  assert (i = j) as ->.
  { eapply NoDup_lookup; [exact Hnodup | |];
      rewrite list_lookup_fmap; [rewrite Hi | rewrite Hj]; cbn;
      [reflexivity | now rewrite Heq]. }
  congruence.
Qed.

Section Mapping.
Context `{Environment}.
Variable options : list SelectOption.
Hypothesis ids_unique : NoDup (so_id <$> options).

Let variables := SingleSelectFieldType.variables_of options.

(** The old-value statement gives the text of the stored option. *)
Lemma old_value_select_option (o : SelectOption) :
  o ∈ options ->
  eval_select variables (SingleSelectFieldType.old_value_select options)
    (Some (pretty (so_id o))) = SqlValue (Some (so_value o)).
Proof.
  intros Ho. unfold eval_select, SingleSelectFieldType.old_value_select.
  cbn [tuples where_key_equals eval_text].
  erewrite (filter_fmap_unique _ _ options o); [| | exact Ho | |].
  - cbn. unfold variables. now rewrite variables_of_lookup.
  - now apply NoDup_of_ids.
  - unfold key_matches. cbn. now rewrite String.eqb_refl.
  - intros y Hy Hmatch. unfold key_matches in Hmatch. cbn in Hmatch.
    apply String.eqb_eq, (inj pretty) in Hmatch.
    now apply (same_id_same_option options).
Qed.

(** The new-value statement gives the id of the option that alone has the
    lower-cased text, and NULL when no option has it. *)
Lemma new_value_select_match (o : SelectOption) (text : string) :
  o ∈ options ->
  sql_lower text = sql_lower (so_value o) ->
  (forall o', o' ∈ options ->
     sql_lower (so_value o') = sql_lower (so_value o) -> o' = o) ->
  eval_select variables (SingleSelectFieldType.new_value_select options)
    (Some text) = SqlValue (Some (pretty (so_id o))).
Proof.
  intros Ho Htext Hunique.
  unfold eval_select, SingleSelectFieldType.new_value_select.
  cbn [tuples where_key_equals eval_text].
  erewrite (filter_fmap_unique _ _ options o); [| | exact Ho | |].
  - reflexivity.
  - now apply NoDup_of_ids.
  - unfold key_matches. cbn. unfold variables.
    rewrite variables_of_lookup by assumption. cbn.
    rewrite Htext. apply String.eqb_refl.
  - intros y Hy Hmatch. unfold key_matches in Hmatch. cbn in Hmatch.
    unfold variables in Hmatch.
    rewrite variables_of_lookup in Hmatch by assumption. cbn in Hmatch.
    apply String.eqb_eq in Hmatch. apply Hunique; [exact Hy |]. congruence.
Qed.

Lemma new_value_select_unmatched (text : string) :
  (forall o, o ∈ options -> sql_lower (so_value o) <> sql_lower text) ->
  eval_select variables (SingleSelectFieldType.new_value_select options)
    (Some text) = SqlValue None.
Proof.
  intros Hnone.
  unfold eval_select, SingleSelectFieldType.new_value_select.
  cbn [tuples where_key_equals eval_text].
  rewrite filter_fmap_none; [reflexivity |].
  intros y Hy. unfold key_matches. cbn. unfold variables.
  rewrite variables_of_lookup by assumption. cbn.
  apply String.eqb_neq. now apply Hnone.
Qed.

(** The old-value statement gives NULL for an id that no option has. *)
Lemma old_value_select_stale (id : Z) :
  id ∉ so_id <$> options ->
  eval_select variables (SingleSelectFieldType.old_value_select options)
    (Some (pretty id)) = SqlValue None.
Proof.
  intros Hstale.
  unfold eval_select, SingleSelectFieldType.old_value_select.
  cbn [tuples where_key_equals eval_text].
  rewrite filter_fmap_none; [reflexivity |].
  intros y Hy. unfold key_matches. cbn.
  apply String.eqb_neq. intros Heq. apply (inj pretty) in Heq.
  apply Hstale. rewrite <- Heq. now apply list_elem_of_fmap_2.
Qed.
End Mapping.

Lemma String_app_assoc (a b c : string) : (a +:+ b) +:+ c = a +:+ (b +:+ c).
Proof.
  induction a as [| x a IH]; [reflexivity |].
  change (String x ((a +:+ b) +:+ c) = String x (a +:+ (b +:+ c))).
  f_equal. exact IH.
Qed.

Lemma old_values_mapping_render (options : list SelectOption) :
  (fun option =>
     "('" +:+ pretty (so_id option) +:+ "', %("
     +:+ SingleSelectFieldType.variable_name option +:+ ")s)") <$> options
  = render_tuple <$> tuples (SingleSelectFieldType.old_value_select options).
Proof.
  unfold SingleSelectFieldType.old_value_select. cbn [tuples].
  rewrite <- list_fmap_compose. apply list_fmap_ext. intros i o _.
  unfold render_tuple, compose. cbn [fst snd render_text].
  rewrite !String_app_assoc. reflexivity.
Qed.

Lemma new_values_mapping_render (options : list SelectOption) :
  (fun option =>
     "(lower(%(" +:+ SingleSelectFieldType.variable_name option +:+ ")s), '"
     +:+ pretty (so_id option) +:+ "')") <$> options
  = render_tuple <$> tuples (SingleSelectFieldType.new_value_select options).
Proof.
  unfold SingleSelectFieldType.new_value_select. cbn [tuples].
  rewrite <- list_fmap_compose. apply list_fmap_ext. intros i o _.
  unfold render_tuple, compose. cbn [fst snd render_text].
  rewrite !String_app_assoc. reflexivity.
Qed.

Lemma old_value_hook `{Environment} (connection : Connection)
  (from_field : SingleSelectField) (to_field : AnyField) :
  vendor connection = "postgresql" ->
  get_by_model_type to_field <> SingleSelectFieldType.type ->
  SingleSelectFieldType.get_alter_column_prepare_old_value
    connection from_field to_field =
  match select_options from_field with
  | [] => ReturnNone
  | options =>
      ReturnSqlVariables
        (SingleSelectFieldType.render_old_value
           (SingleSelectFieldType.old_value_select options))
        (SingleSelectFieldType.variables_of options)
  end.
Proof.
  intros Hvendor Htype.
  unfold SingleSelectFieldType.get_alter_column_prepare_old_value.
  apply String.eqb_neq in Htype. rewrite Htype, Hvendor.
  change ("postgresql" =? "postgresql")%string with true. cbn [negb andb].
  rewrite length_fmap.
  destruct (select_options from_field) as [| o options] eqn:Hoptions;
    [reflexivity |].
  cbn [length Nat.eqb]. rewrite old_values_mapping_render. reflexivity.
Qed.

Lemma new_value_hook `{Environment} (connection : Connection)
  (from_field : AnyField) (to_field : SingleSelectField) :
  vendor connection = "postgresql" ->
  get_by_model_type from_field <> SingleSelectFieldType.type ->
  SingleSelectFieldType.get_alter_column_prepare_new_value
    connection from_field to_field =
  match select_options to_field with
  | [] => ReturnNone
  | options =>
      ReturnSqlVariables
        (SingleSelectFieldType.render_new_value
           (SingleSelectFieldType.new_value_select options))
        (SingleSelectFieldType.variables_of options)
  end.
Proof.
  intros Hvendor Htype.
  unfold SingleSelectFieldType.get_alter_column_prepare_new_value.
  apply String.eqb_neq in Htype. rewrite Htype, Hvendor.
  change ("postgresql" =? "postgresql")%string with true. cbn [negb andb].
  rewrite length_fmap.
  destruct (select_options to_field) as [| o options] eqn:Hoptions;
    [reflexivity |].
  cbn [length Nat.eqb]. rewrite new_values_mapping_render. reflexivity.
Qed.

(** The two hooks on a field with the options 1 "Red" and 2 "Blue": the
    statements, character for character, and their parameters. *)
Example single_select_old_value_hook_example :
  @SingleSelectFieldType.get_alter_column_prepare_old_value sample_environment
     postgresql (sample_single_select_field 7) sample_text_field
  = ReturnSqlVariables
      "
                p_in = (SELECT value FROM (
                    VALUES ('1', %(option_1_value)s),('2', %(option_2_value)s)
                ) AS values (key, value)
                WHERE key = p_in);
            "
      (<["option_2_value" := "Blue"]> (<["option_1_value" := "Red"]> ∅)).
Proof. reflexivity. Qed.

Example single_select_new_value_hook_example :
  @SingleSelectFieldType.get_alter_column_prepare_new_value sample_environment
     postgresql sample_text_field (sample_single_select_field 7)
  = ReturnSqlVariables
      "p_in = (
                SELECT value FROM (
                    VALUES (lower(%(option_1_value)s), '1'),(lower(%(option_2_value)s), '2')
                ) AS values (key, value)
                WHERE key = lower(p_in)
            );
            "
      (<["option_2_value" := "Blue"]> (<["option_1_value" := "Red"]> ∅)).
Proof. reflexivity. Qed.

(** C5, as the code has it: on PostgreSQL, for a single select field with
    a non-empty option set whose option ids are distinct, the old-value
    statement of a conversion to text maps the stored option id to the text
    of that option, and the new-value statement of a conversion back maps a
    text to the id of the option whose lower-cased text equals the
    lower-cased incoming text, provided no other option has the same
    lower-cased text; a text that matches no option becomes null.  Texts
    are lower-cased by the [lower()] of the database server, whichever
    letters it folds.  So the round trip restores the original option when
    its text is unique among the options up to case. *)
Theorem single_select_text_round_trip `{Environment}
  (connection : Connection) (field : SingleSelectField) (text_field : AnyField) :
  vendor connection = "postgresql" ->
  get_by_model_type text_field <> SingleSelectFieldType.type ->
  select_options field <> [] ->
  NoDup (so_id <$> select_options field) ->
  let options := select_options field in
  let variables := SingleSelectFieldType.variables_of options in
  let to_text := SingleSelectFieldType.old_value_select options in
  let to_option := SingleSelectFieldType.new_value_select options in
  SingleSelectFieldType.get_alter_column_prepare_old_value
    connection field text_field
  = ReturnSqlVariables (SingleSelectFieldType.render_old_value to_text) variables /\
  SingleSelectFieldType.get_alter_column_prepare_new_value
    connection text_field field
  = ReturnSqlVariables (SingleSelectFieldType.render_new_value to_option) variables /\
  (forall o, o ∈ options ->
     eval_select variables to_text (Some (pretty (so_id o)))
     = SqlValue (Some (so_value o))) /\
  (forall o text, o ∈ options ->
     sql_lower text = sql_lower (so_value o) ->
     (forall o', o' ∈ options ->
        sql_lower (so_value o') = sql_lower (so_value o) -> o' = o) ->
     eval_select variables to_option (Some text)
     = SqlValue (Some (pretty (so_id o)))) /\
  (forall text,
     (forall o, o ∈ options -> sql_lower (so_value o) <> sql_lower text) ->
     eval_select variables to_option (Some text) = SqlValue None).
Proof.
  intros Hvendor Htype Hnonempty Hnodup options variables to_text to_option.
  subst variables to_text to_option options.
  split; [| split; [| split; [| split]]].
  - rewrite (old_value_hook connection field text_field Hvendor Htype).
    now destruct (select_options field).
  - rewrite (new_value_hook connection text_field field Hvendor Htype).
    now destruct (select_options field).
  - intros o Ho. now apply old_value_select_option.
  - intros o text Ho Htext Hunique. now apply new_value_select_match.
  - intros text Hnone. now apply new_value_select_unmatched.
Qed.

(** The claim as the spec words it fails when two options carry the same
    text up to case: option 1 becomes the text "Red", and the way back
    finds two rows for "red", so the subquery fails instead of yielding 1.
    The two texts are ASCII, which every [lower()] folds alike. *)
Lemma single_select_text_round_trip_witness :
  let options := @select_options sample_environment
                   (sample_single_select_field 7) in
  let variables := SingleSelectFieldType.variables_of options in
  @eval_select sample_environment variables
    (SingleSelectFieldType.old_value_select options)
    (Some "1") = SqlValue (Some "Red") /\
  @eval_select sample_environment variables
    (SingleSelectFieldType.new_value_select options)
    (Some "Red") = SqlValue (Some "1").
Proof.
  pose proof (@single_select_text_round_trip sample_environment postgresql
                (sample_single_select_field 7) sample_text_field)
    as Hround_trip.
  destruct Hround_trip as (_ & _ & Hto_text & Hto_option & _).
  - reflexivity.
  - discriminate.
  - discriminate.
  - apply (bool_decide_unpack _). vm_compute. exact I.
  - split.
    + apply (Hto_text {| so_id := 1; so_value := "Red"; so_color := "red";
                         so_order := 0; so_field_id := 7 |}).
      vm_compute. left.
    + apply (Hto_option
               {| so_id := 1; so_value := "Red"; so_color := "red";
                  so_order := 0; so_field_id := 7 |} "Red").
      * vm_compute. left.
      * reflexivity.
      * intros o' Hin Hlower. vm_compute in Hin.
        apply elem_of_cons in Hin as [-> | Hin]; [reflexivity |].
        apply list_elem_of_singleton in Hin as ->.
        vm_compute in Hlower. discriminate Hlower.
Defined.

Lemma single_select_round_trip_counterexample :
  let field := sample_single_select_field 7 in
  let options := @select_options sample_environment_same_text field in
  let variables := SingleSelectFieldType.variables_of options in
  options <> [] /\
  @eval_select sample_environment_same_text variables
    (SingleSelectFieldType.old_value_select options)
    (Some "1") = SqlValue (Some "Red") /\
  @eval_select sample_environment_same_text variables
    (SingleSelectFieldType.new_value_select options)
    (Some "Red") = SqlMoreThanOneRow /\
  @eval_select sample_environment_same_text variables
    (SingleSelectFieldType.new_value_select options)
    (Some "Red") <> SqlValue (Some "1").
Proof. vm_compute. repeat split; discriminate. Qed.

(** C6, as the code behaves: on PostgreSQL the old-value hook of a single
    select field without options returns [None].  No statement runs, so
    nothing can fail, and [p_in] keeps its value: a row that holds NULL
    stays NULL, but a row that still holds an option id, which the column
    admits because it is declared without a database constraint, keeps the
    id as its text instead of becoming NULL.  Beside it, the statement of a
    field that has options turns such an id, the id of none of its
    options, into NULL. *)
Theorem single_select_old_value_no_options `{Environment}
  (connection : Connection) (field other : SingleSelectField)
  (to_field : AnyField) (cell : option Z) (stale : Z) :
  vendor connection = "postgresql" ->
  get_by_model_type to_field <> SingleSelectFieldType.type ->
  select_options field = [] ->
  select_options other <> [] ->
  stale ∉ so_id <$> select_options other ->
  let hook :=
    SingleSelectFieldType.get_alter_column_prepare_old_value
      connection field to_field in
  let sibling :=
    SingleSelectFieldType.get_alter_column_prepare_old_value
      connection other to_field in
  hook = ReturnNone /\
  SingleSelectFieldType.run_prepare_value hook
    (SingleSelectFieldType.old_value_select (select_options field))
    (pretty <$> cell) = SqlValue (pretty <$> cell) /\
  SingleSelectFieldType.run_prepare_value sibling
    (SingleSelectFieldType.old_value_select (select_options other))
    (Some (pretty stale)) = SqlValue None.
Proof.
  intros Hvendor Htype Hempty Hoptions Hstale hook sibling.
  subst hook sibling.
  rewrite !(old_value_hook connection _ to_field Hvendor Htype).
  rewrite Hempty. split; [reflexivity |]. split; [reflexivity |].
  destruct (select_options other) as [| o options] eqn:Hother;
    [congruence |].
  cbn [SingleSelectFieldType.run_prepare_value].
  now apply old_value_select_stale.
Qed.

(** The failing input: the field 8 has no options and a row of its column
    still holds the id 5; the row keeps the text "5".  For the field 7,
    which has options, the same id becomes NULL. *)
Lemma single_select_old_value_no_options_witness :
  let convert (field : SingleSelectField) :=
    @SingleSelectFieldType.run_prepare_value sample_environment
      (@SingleSelectFieldType.get_alter_column_prepare_old_value
         sample_environment postgresql field sample_text_field)
      (SingleSelectFieldType.old_value_select
         (@select_options sample_environment field))
      (Some "5") in
  convert (sample_single_select_field 8) = SqlValue (Some "5") /\
  convert (sample_single_select_field 7) = SqlValue None.
Proof.
  intros convert.
  destruct (@single_select_old_value_no_options sample_environment
              postgresql (sample_single_select_field 8)
              (sample_single_select_field 7) sample_text_field (Some 5) 5)
    as (_ & Hkept & Hnull).
  - reflexivity.
  - discriminate.
  - reflexivity.
  - discriminate.
  - apply (bool_decide_unpack _). vm_compute. exact I.
  - split; [exact Hkept | exact Hnull].
Defined.

(** ** The single select field: ordering *)

#[global] Instance value_le_trans `{Environment} : Transitive value_le.
Proof. intros a b c. unfold value_le. apply collation_trans. Qed.

#[global] Instance value_le_total `{Environment} : Total value_le.
Proof. intros a b. unfold value_le. apply collation_total. Qed.

Lemma eval_case_imap (field_name : string) (options : list (option Z)) :
  forall (j i : nat) (k : option Z),
  NoDup options ->
  options !! i = Some k ->
  when_then <$> List.find (fun w => bool_decide (when_value w = k))
    ((fun '(index, option) =>
       {| when_field := field_name; when_value := option; when_then := index |})
      <$> imap (fun i x => (Z.of_nat (j + i), x)) options)
  = Some (Z.of_nat (j + i)).
Proof.
  induction options as [| o options IH]; intros j i k Hnodup Hi.
  - discriminate.
  - apply NoDup_cons in Hnodup as [Hnotin Hnodup].
    destruct i as [| i]; cbn in Hi.
    + injection Hi as ->. cbn. rewrite bool_decide_eq_true_2 by reflexivity.
      cbn. now rewrite Nat.add_0_r.
    + cbn. rewrite bool_decide_eq_false_2.
      2:{ cbn. intros ->. apply Hnotin. eapply list_elem_of_lookup_2, Hi. }
      rewrite (imap_ext _ (fun i x => (Z.of_nat (S j + i), x))).
      2:{ intros. cbn. f_equal. lia. }
      rewrite (IH (S j) i k Hnodup Hi). f_equal. lia.
Qed.

Lemma eval_case_index (field_name : string) (options : list (option Z))
  (i : nat) (k : option Z) :
  NoDup options -> options !! i = Some k ->
  eval_case (Case field_name options) k = Some (Z.of_nat i).
Proof.
  intros Hnodup Hi. unfold eval_case, Case, enumerate.
  exact (eval_case_imap field_name options 0 i k Hnodup Hi).
Qed.

Lemma StronglySorted_lookup_lt {A} (R : relation A) (l : list A)
  (i j : nat) (x y : A) :
  StronglySorted R l -> l !! i = Some x -> l !! j = Some y -> (i < j)%nat ->
  R x y.
Proof.
  intros Hsorted Hi Hj Hlt.
  rewrite <- (take_drop j l) in Hsorted.
  eapply StronglySorted_app_1_elem_of; [exact Hsorted | |].
  - apply list_elem_of_lookup. exists i. now rewrite lookup_take_lt.
  - apply list_elem_of_lookup. exists 0%nat. rewrite lookup_drop.
    now rewrite Nat.add_0_r.
Qed.

Section GetOrder.
Context `{Environment}.
Variable field : SingleSelectField.
Variable field_name : string.

Let sorted := merge_sort value_le (select_options field).
Let keys := None :: ((fun o => Some (so_id o)) <$> sorted).

Lemma get_order_ascending (view_sort : ViewSort) :
  view_sort_order view_sort <> "DESC" ->
  SingleSelectFieldType.get_order field field_name view_sort
  = Case field_name keys.
Proof.
  intros Hasc. unfold SingleSelectFieldType.get_order.
  apply String.eqb_neq in Hasc. now rewrite Hasc.
Qed.

Lemma get_order_descending (view_sort : ViewSort) :
  view_sort_order view_sort = "DESC" ->
  SingleSelectFieldType.get_order field field_name view_sort
  = Case field_name (reverse keys).
Proof.
  intros Hdesc. unfold SingleSelectFieldType.get_order.
  now rewrite Hdesc.
Qed.

Lemma sorted_Permutation : sorted ≡ₚ select_options field.
Proof. apply merge_sort_Permutation. Qed.

Lemma keys_NoDup :
  NoDup (so_id <$> select_options field) -> NoDup keys.
Proof.
  intros Hnodup. unfold keys. apply NoDup_cons. split.
  - intros Hin. apply list_elem_of_fmap in Hin as (o & Ho & _). discriminate.
  - rewrite <- sorted_Permutation in Hnodup.
    replace ((fun o => Some (so_id o)) <$> sorted)
      with (Some <$> (so_id <$> sorted))
      by (now rewrite <- list_fmap_compose).
    apply NoDup_fmap_2; [| exact Hnodup]. intros a b. congruence.
Qed.

Lemma keys_length :
  length keys = S (length (select_options field)).
Proof.
  unfold keys. rewrite length_cons, length_fmap.
  now rewrite sorted_Permutation.
Qed.

Lemma rank_of_sorted (asc desc : ViewSort) (i : nat) (o : SelectOption) :
  view_sort_order asc <> "DESC" -> view_sort_order desc = "DESC" ->
  NoDup (so_id <$> select_options field) ->
  sorted !! i = Some o ->
  eval_case (SingleSelectFieldType.get_order field field_name asc)
    (Some (so_id o)) = Some (Z.of_nat (S i)) /\
  eval_case (SingleSelectFieldType.get_order field field_name desc)
    (Some (so_id o))
  = Some (Z.of_nat (length (select_options field)) - Z.of_nat (S i)).
Proof.
  intros Hasc Hdesc Hnodup Hi.
  assert (keys !! S i = Some (Some (so_id o))) as Hkey.
  { unfold keys.
    change (((fun o => Some (so_id o)) <$> sorted) !! i
            = Some (Some (so_id o))).
    now rewrite list_lookup_fmap, Hi. }
  assert (i < length (select_options field))%nat as Hlt.
  { rewrite <- sorted_Permutation. eapply lookup_lt_Some, Hi. }
  split.
  - rewrite (get_order_ascending asc Hasc).
    apply eval_case_index; [now apply keys_NoDup | exact Hkey].
  - rewrite (get_order_descending desc Hdesc).
    rewrite (eval_case_index field_name (reverse keys)
               (length (select_options field) - S i) (Some (so_id o))).
    + f_equal. lia.
    + rewrite reverse_Permutation. now apply keys_NoDup.
    + rewrite reverse_lookup by (rewrite keys_length; lia).
      rewrite keys_length.
      replace (S (length (select_options field))
               - S (length (select_options field) - S i))%nat with (S i) by lia.
      exact Hkey.
Qed.

Lemma rank_of_None (asc desc : ViewSort) :
  view_sort_order asc <> "DESC" -> view_sort_order desc = "DESC" ->
  NoDup (so_id <$> select_options field) ->
  eval_case (SingleSelectFieldType.get_order field field_name asc) None
    = Some 0 /\
  eval_case (SingleSelectFieldType.get_order field field_name desc) None
    = Some (Z.of_nat (length (select_options field))).
Proof.
  intros Hasc Hdesc Hnodup. split.
  - rewrite (get_order_ascending asc Hasc).
    now apply (eval_case_index field_name keys 0 None); [apply keys_NoDup |].
  - rewrite (get_order_descending desc Hdesc).
    apply eval_case_index.
    + rewrite reverse_Permutation. now apply keys_NoDup.
    + rewrite reverse_lookup by (rewrite keys_length; lia).
      rewrite keys_length.
      now replace (S (length (select_options field))
               - S (length (select_options field)))%nat with 0%nat by lia.
Qed.

Lemma sorted_index_lt (i1 i2 : nat) (o1 o2 : SelectOption) :
  sorted !! i1 = Some o1 -> sorted !! i2 = Some o2 ->
  ~ collation_le (so_value o2) (so_value o1) ->
  (i1 < i2)%nat.
Proof.
  intros H1 H2 Hstrict.
  destruct (Nat.lt_trichotomy i1 i2) as [Hlt | [Heq | Hgt]]; [exact Hlt | |].
  - subst i2. rewrite H1 in H2. injection H2 as ->.
    exfalso. apply Hstrict.
    now destruct (collation_total (so_value o2) (so_value o2)).
  - exfalso. apply Hstrict.
    eapply (StronglySorted_lookup_lt value_le sorted i2 i1); eauto.
    apply StronglySorted_merge_sort; apply _.
Qed.

End GetOrder.

(** C9: for every single select field whose option ids are distinct and
    every sort direction, the [Case] that [get_order] builds ranks a row by
    the position of its option in the list of options sorted by text, not
    by the option id.  The texts are sorted as the database sorts them,
    under its collation, whichever it is: an option whose text comes
    strictly first there gets the smaller rank when the direction is not
    DESC and the larger rank when it is DESC, where every rank is exactly
    mirrored ([n - r] for [r]); rows without an option rank first ascending
    and last descending. *)
Theorem single_select_get_order `{Environment} (field : SingleSelectField)
  (field_name : string) (asc desc : ViewSort) :
  view_sort_order asc <> "DESC" -> view_sort_order desc = "DESC" ->
  NoDup (so_id <$> select_options field) ->
  let rank_asc := eval_case (SingleSelectFieldType.get_order field field_name asc) in
  let rank_desc := eval_case (SingleSelectFieldType.get_order field field_name desc) in
  let n := Z.of_nat (length (select_options field)) in
  (rank_asc None = Some 0 /\ rank_desc None = Some n) /\
  (forall o, o ∈ select_options field ->
     exists r, 1 <= r <= n /\
       rank_asc (Some (so_id o)) = Some r /\
       rank_desc (Some (so_id o)) = Some (n - r)) /\
  (forall o1 o2, o1 ∈ select_options field -> o2 ∈ select_options field ->
     ~ collation_le (so_value o2) (so_value o1) ->
     exists r1 r2,
       rank_asc (Some (so_id o1)) = Some r1 /\
       rank_asc (Some (so_id o2)) = Some r2 /\
       rank_desc (Some (so_id o1)) = Some (n - r1) /\
       rank_desc (Some (so_id o2)) = Some (n - r2) /\
       r1 < r2 /\ n - r2 < n - r1).
Proof.
  intros Hasc Hdesc Hnodup rank_asc rank_desc n.
  assert (forall o, o ∈ select_options field ->
            exists i, merge_sort value_le (select_options field) !! i = Some o)
    as Hindex.
  { intros o Ho. apply list_elem_of_lookup.
    now rewrite merge_sort_Permutation. }
  split; [| split].
  - exact (rank_of_None field field_name asc desc Hasc Hdesc Hnodup).
  - intros o Ho. destruct (Hindex o Ho) as [i Hi].
    destruct (rank_of_sorted field field_name asc desc i o Hasc Hdesc Hnodup Hi)
      as [Ha Hd].
    exists (Z.of_nat (S i)). split; [| split; assumption].
    apply lookup_lt_Some in Hi.
    rewrite (Permutation_length (merge_sort_Permutation _ _)) in Hi.
    subst n. lia.
  - intros o1 o2 Ho1 Ho2 Hstrict.
    destruct (Hindex o1 Ho1) as [i1 Hi1], (Hindex o2 Ho2) as [i2 Hi2].
    destruct (rank_of_sorted field field_name asc desc i1 o1 Hasc Hdesc Hnodup Hi1)
      as [Ha1 Hd1].
    destruct (rank_of_sorted field field_name asc desc i2 o2 Hasc Hdesc Hnodup Hi2)
      as [Ha2 Hd2].
    pose proof (sorted_index_lt field i1 i2 o1 o2 Hi1 Hi2 Hstrict) as Hlt.
    exists (Z.of_nat (S i1)), (Z.of_nat (S i2)).
    repeat split; try assumption; lia.
Qed.

Lemma single_select_get_order_witness :
  let rank :=
    eval_case (@SingleSelectFieldType.get_order sample_environment
                 (sample_single_select_field 7) "field_7"
                 {| view_sort_order := "ASC" |}) in
  exists r_blue r_red,
    rank (Some 2) = Some r_blue /\ rank (Some 1) = Some r_red /\
    r_blue < r_red.
Proof.
  pose proof (@single_select_get_order sample_environment
                (sample_single_select_field 7) "field_7"
                {| view_sort_order := "ASC" |} {| view_sort_order := "DESC" |})
    as Horder.
  destruct Horder as (_ & _ & Hranks).
  - discriminate.
  - reflexivity.
  - apply (bool_decide_unpack _). vm_compute. exact I.
  - destruct (Hranks
                {| so_id := 2; so_value := "Blue"; so_color := "blue";
                   so_order := 1; so_field_id := 7 |}
                {| so_id := 1; so_value := "Red"; so_color := "red";
                   so_order := 0; so_field_id := 7 |})
      as (r1 & r2 & H1 & H2 & _ & _ & Hlt & _).
    + vm_compute. right. left.
    + vm_compute. left.
    + intros Hle. vm_compute in Hle. exact Hle.
    + exists r1, r2. repeat split; assumption.
Defined.

(** ** The link row field: creation, pairing and deletion *)

Lemma after_create_related (create_field :
     Z -> Table -> string -> bool -> gmap string KwargValue -> DB LinkRowField)
  (field : LinkRowField) (user : Z) (db : Database) :
  is_Some (link_row_related_field field) ->
  LinkRowFieldType.after_create create_field field user db = (Ok field, db).
Proof.
  intros Hsome. unfold LinkRowFieldType.after_create.
  now rewrite bool_decide_eq_true_2.
Qed.

Lemma before_create_same_database (table link_row_table : Table)
  (primary : bool) (values : gmap string KwargValue) (order user : Z)
  (db : Database) :
  values !! "link_row_table" = Some (KwTable link_row_table) ->
  database_id table = database_id link_row_table ->
  LinkRowFieldType.before_create table primary values order user db
  = (Ok (), db).
Proof.
  intros Hvalue Hsame. unfold LinkRowFieldType.before_create.
  rewrite Hvalue. cbn. now rewrite bool_decide_eq_false_2 by congruence.
Qed.

Lemma prepare_values_table (values : gmap string KwargValue) (user : Z)
  (table : Table) (db : Database) :
  values !! "link_row_table" = Some (KwTable table) ->
  LinkRowFieldType.prepare_values values user db = (Ok values, db).
Proof.
  intros Hvalue. unfold LinkRowFieldType.prepare_values. now rewrite Hvalue.
Qed.

Lemma bind_run {A B} (m : DB A) (f : A -> DB B) (db db' : Database) (a : A) :
  m db = (Ok a, db') -> (m ≫= f) db = f a db'.
Proof. intros Hm. unfold mbind, DB_bind. now rewrite Hm. Qed.

Lemma bind_raise {A B} (m : DB A) (f : A -> DB B) (db db' : Database)
  (e : Exception) :
  m db = (Raise e, db') -> (m ≫= f) db = (Raise e, db').
Proof. intros Hm. unfold mbind, DB_bind. now rewrite Hm. Qed.

Lemma related_kwargs_lookup (field : LinkRowField) :
  LinkRowFieldType.related_kwargs field !! "link_row_table"
    = Some (KwTable (field_table (link_row_base field))) /\
  FieldHandler.kwarg_name (LinkRowFieldType.related_kwargs field)
    = table_name (field_table (link_row_base field)) /\
  FieldHandler.kwarg_related_field (LinkRowFieldType.related_kwargs field)
    = Some (field_id (link_row_base field)) /\
  FieldHandler.kwarg_relation_id (LinkRowFieldType.related_kwargs field)
    = link_row_relation_id field.
Proof.
  unfold FieldHandler.kwarg_name, FieldHandler.kwarg_related_field,
    FieldHandler.kwarg_relation_id, LinkRowFieldType.related_kwargs.
  split_and!.
  - rewrite lookup_insert_ne by done. now rewrite lookup_insert_eq.
  - now rewrite lookup_insert_eq.
  - do 2 rewrite lookup_insert_ne by done. now rewrite lookup_insert_eq.
  - do 3 rewrite lookup_insert_ne by done. rewrite lookup_insert_eq.
    now destruct (link_row_relation_id field).
Qed.

(** Creating the related field: the back reference is supplied, so
    [after_create] returns at once and no further call is made. *)
Lemma create_field_related (depth : nat) (user : Z) (field : LinkRowField)
  (db : Database) :
  database_id (link_row_table field)
    = database_id (field_table (link_row_base field)) ->
  let related :=
    FieldHandler.created db (link_row_table field)
      (FieldHandler.last_order db (link_row_table field))
      (table_name (field_table (link_row_base field)))
      (field_table (link_row_base field))
      (Some (field_id (link_row_base field)))
      (link_row_relation_id field) in
  FieldHandler.create_field (S depth) user (link_row_table field)
    LinkRowFieldType.type false (LinkRowFieldType.related_kwargs field) db
  = (Ok related,
     FieldHandler.with_field db (next_field_id db) related
       (next_field_id db + 1)).
Proof.
  intros Hsame related.
  destruct (related_kwargs_lookup field) as (Htable & Hname & Hback & Hrelation).
  cbn [FieldHandler.create_field]. rewrite String.eqb_refl. cbn [negb].
  erewrite bind_run by reflexivity.
  erewrite bind_run by (eapply prepare_values_table; exact Htable).
  erewrite bind_run
    by (eapply before_create_same_database; [exact Htable | exact Hsame]).
  erewrite bind_run.
  2:{ unfold FieldHandler.objects_create.
      rewrite Htable, Hname, Hback, Hrelation. reflexivity. }
  now rewrite after_create_related by (cbn; eauto).
Qed.

Lemma create_field_run (depth : nat) (user : Z) (table linked_table : Table)
  (do_schema_change : bool) (values : gmap string KwargValue) (db : Database) :
  values !! "link_row_table" = Some (KwTable linked_table) ->
  values !! "link_row_related_field" = None ->
  database_id table = database_id linked_table ->
  FieldHandler.create_field (S (S depth)) user table LinkRowFieldType.type
    do_schema_change values db
  = (Ok (created_field db table values linked_table),
     after_creation db table values linked_table).
Proof.
  intros Htable Hrelated Hsame.
  assert (FieldHandler.kwarg_related_field values = None) as Hback.
  { unfold FieldHandler.kwarg_related_field. now rewrite Hrelated. }
  cbn [FieldHandler.create_field]. rewrite String.eqb_refl. cbn [negb].
  erewrite bind_run by reflexivity.
  erewrite bind_run by (eapply prepare_values_table; exact Htable).
  erewrite bind_run
    by (eapply before_create_same_database; [exact Htable | exact Hsame]).
  erewrite bind_run.
  2:{ unfold FieldHandler.objects_create. rewrite Htable, Hback. reflexivity. }
  unfold LinkRowFieldType.after_create.
  rewrite bool_decide_eq_false_2 by (cbn; intros [? [=]]).
  erewrite bind_run.
  2:{ apply create_field_related. cbn. congruence. }
  unfold mbind, DB_bind, mret, DB_ret, LinkRowField_save.
  unfold created_field, after_creation, created_related,
    FieldHandler.created, FieldHandler.with_field. cbn.
  f_equal. f_equal; [| lia].
  rewrite (insert_insert_ne _ (next_field_id db + 1) (next_field_id db)) by lia.
  now rewrite insert_insert_eq.
Qed.

Lemma paired_after_creation (db : Database) (table link_row_table : Table)
  (values : gmap string KwargValue) :
  paired db -> paired (after_creation db table values link_row_table).
Proof.
  intros Hpaired i f Hf. unfold after_creation in *. cbn in *.
  destruct (decide (i = next_field_id db)) as [-> | Hne1].
  { rewrite lookup_insert_eq in Hf. injection Hf as <-.
    split; [reflexivity |]. split; [lia |].
    exists (next_field_id db + 1),
           (created_related db table values link_row_table).
    split; [lia |]. split; [reflexivity |]. split; [| reflexivity].
    rewrite lookup_insert_ne by lia. now rewrite lookup_insert_eq. }
  rewrite lookup_insert_ne in Hf by congruence.
  destruct (decide (i = next_field_id db + 1)) as [-> | Hne2].
  { rewrite lookup_insert_eq in Hf. injection Hf as <-.
    split; [reflexivity |]. split; [lia |].
    exists (next_field_id db), (created_field db table values link_row_table).
    split; [lia |]. split; [reflexivity |]. split; [| reflexivity].
    now rewrite lookup_insert_eq. }
  rewrite lookup_insert_ne in Hf by congruence.
  destruct (Hpaired i f Hf) as (Hid & Hlt & j & p & Hji & Hrel & Hp & Hback).
  split; [exact Hid |]. split; [lia |].
  exists j, p. repeat split; try assumption.
  destruct (Hpaired j p Hp) as (_ & Hj & _).
  rewrite !lookup_insert_ne by lia. exact Hp.
Qed.

Lemma delete_field_run (db : Database) (user : Z) (f p : LinkRowField) :
  paired db ->
  LinkRowField_objects db !! field_id (link_row_base f) = Some f ->
  pair db f = Some p ->
  field_id (link_row_base p) <> field_id (link_row_base f) /\
  pair db p = Some f /\
  FieldHandler.delete_field user f db
  = (Ok (), without db (field_id (link_row_base f)) (field_id (link_row_base p))).
Proof.
  intros Hpaired Hf Hpair.
  destruct (Hpaired _ f Hf) as (_ & _ & j & p' & Hji & Hrel & Hp & Hback).
  unfold pair in *. rewrite Hrel in Hpair. cbn in Hpair.
  rewrite Hp in Hpair. injection Hpair as <-.
  destruct (Hpaired j p' Hp) as (Hidp & _).
  rewrite Hidp. split; [exact Hji |]. split.
  - rewrite Hback. cbn. exact Hf.
  - unfold FieldHandler.delete_field, LinkRowFieldType.after_delete.
    unfold mbind, DB_bind, LinkRowField_delete. cbv beta iota.
    rewrite Hrel. cbn [LinkRowField_objects].
    rewrite lookup_fmap, lookup_delete_ne by congruence. rewrite Hp.
    cbn [fmap option_fmap option_map].
    assert (field_id (link_row_base (set_null (field_id (link_row_base f)) p'))
            = j) as -> by (unfold set_null; now destruct (bool_decide _)).
    unfold without. f_equal. f_equal. apply map_eq. intros k.
    rewrite lookup_fmap.
    destruct (decide (k = j)) as [-> | Hkj];
      [now rewrite !lookup_delete_eq |].
    rewrite !(lookup_delete_ne _ j k) by congruence.
    rewrite lookup_fmap.
    destruct (decide (k = field_id (link_row_base f))) as [-> | Hki];
      [now rewrite !lookup_delete_eq |].
    rewrite !lookup_delete_ne by congruence.
    destruct (LinkRowField_objects db !! k) as [g |] eqn:Hg; [| reflexivity].
    cbn. f_equal.
    destruct (Hpaired k g Hg) as (_ & _ & j' & q & _ & Hgrel & Hq & Hqback).
    unfold set_null.
    rewrite (bool_decide_eq_false_2 (link_row_related_field g = Some _)).
    2:{ rewrite Hgrel. intros [= ->]. rewrite Hf in Hq. injection Hq as <-.
        congruence. }
    rewrite bool_decide_eq_false_2; [reflexivity |].
    rewrite Hgrel. intros [= ->]. rewrite Hp in Hq. injection Hq as <-.
    congruence.
Qed.

Lemma paired_without (db : Database) (f p : LinkRowField) :
  paired db ->
  LinkRowField_objects db !! field_id (link_row_base f) = Some f ->
  pair db f = Some p ->
  paired (without db (field_id (link_row_base f)) (field_id (link_row_base p))).
Proof.
  intros Hpaired Hf Hpair.
  destruct (Hpaired _ f Hf) as (_ & _ & j & p' & Hji & Hrel & Hp & Hback).
  unfold pair in Hpair. rewrite Hrel in Hpair. cbn in Hpair.
  rewrite Hp in Hpair. injection Hpair as <-.
  destruct (Hpaired j p' Hp) as (Hidp & _). rewrite Hidp.
  intros k g Hg. unfold without in *. cbn in *.
  apply lookup_delete_Some in Hg as [Hkj Hg].
  apply lookup_delete_Some in Hg as [Hki Hg].
  destruct (Hpaired k g Hg) as (Hid & Hlt & j' & q & Hj'k & Hgrel & Hq & Hqback).
  split; [exact Hid |]. split; [exact Hlt |].
  exists j', q. repeat split; try assumption.
  rewrite !lookup_delete_ne; [exact Hq | |].
  - intros <-. rewrite Hf in Hq. injection Hq as <-. congruence.
  - intros <-. rewrite Hp in Hq. injection Hq as <-. congruence.
Qed.

(** C2: in a database where the pairing invariant holds, following the
    pairing reference of a link row field twice leads back to the field;
    creating a link row field without a back reference creates the field
    and, on the linked table, its related field, named after the table of
    the field, each pointing at the other, and keeps the invariant; the
    related field is created with the back reference supplied, so its own
    [after_create] returns at once and two nested calls suffice; deleting
    a field removes it and its related field and keeps the invariant. *)
Theorem link_row_pairing (db : Database) (user : Z) :
  paired db ->
  (forall f, LinkRowField_objects db !! field_id (link_row_base f) = Some f ->
     exists p, pair db f = Some p /\ pair db p = Some f) /\
  (forall depth table linked_table do_schema_change values,
     values !! "link_row_table" = Some (KwTable linked_table) ->
     values !! "link_row_related_field" = None ->
     database_id table = database_id linked_table ->
     exists f p db',
       FieldHandler.create_field (S (S depth)) user table
         LinkRowFieldType.type do_schema_change values db = (Ok f, db') /\
       pair db' f = Some p /\ pair db' p = Some f /\
       field_table (link_row_base f) = table /\
       link_row_table f = linked_table /\
       field_table (link_row_base p) = linked_table /\
       link_row_table p = table /\
       field_name (link_row_base p) = table_name table /\
       LinkRowField_objects db !! field_id (link_row_base f) = None /\
       LinkRowField_objects db !! field_id (link_row_base p) = None /\
       (forall i, i <> field_id (link_row_base f) ->
                  i <> field_id (link_row_base p) ->
          LinkRowField_objects db' !! i = LinkRowField_objects db !! i) /\
       paired db') /\
  (forall create_field field db0,
     is_Some (link_row_related_field field) ->
     LinkRowFieldType.after_create create_field field user db0
     = (Ok field, db0)) /\
  (forall f p,
     LinkRowField_objects db !! field_id (link_row_base f) = Some f ->
     pair db f = Some p ->
     exists db',
       FieldHandler.delete_field user f db = (Ok (), db') /\
       LinkRowField_objects db' !! field_id (link_row_base f) = None /\
       LinkRowField_objects db' !! field_id (link_row_base p) = None /\
       (forall i, i <> field_id (link_row_base f) ->
                  i <> field_id (link_row_base p) ->
          LinkRowField_objects db' !! i = LinkRowField_objects db !! i) /\
       paired db').
Proof.
  intros Hpaired. split; [| split; [| split]].
  - intros f Hf.
    destruct (Hpaired _ f Hf) as (_ & _ & j & p & _ & Hrel & Hp & Hback).
    exists p. unfold pair. rewrite Hrel, Hback. cbn. now split.
  - intros depth table linked_table do_schema_change values
      Htable Hrelated Hsame.
    assert (forall i, next_field_id db <= i ->
              LinkRowField_objects db !! i = None) as Hfresh.
    { intros i Hi. destruct (LinkRowField_objects db !! i) as [g |] eqn:Hg;
        [| reflexivity].
      destruct (Hpaired i g Hg) as (_ & Hlt & _). lia. }
    exists (created_field db table values linked_table),
           (created_related db table values linked_table),
           (after_creation db table values linked_table).
    split; [now apply create_field_run |].
    unfold pair, after_creation. cbn.
    rewrite lookup_insert_ne by lia. rewrite !lookup_insert_eq.
    split_and!; try reflexivity.
    + apply Hfresh. lia.
    + apply Hfresh. lia.
    + intros i Hi1 Hi2. now rewrite !lookup_insert_ne by congruence.
    + now apply paired_after_creation.
  - intros create_field field db0. apply after_create_related.
  - intros f p Hf Hpair.
    destruct (delete_field_run db user f p Hpaired Hf Hpair)
      as (Hne & _ & Hrun).
    eexists. split; [exact Hrun |]. unfold without. cbn.
    split; [| split; [| split]].
    + rewrite lookup_delete_ne by congruence. apply lookup_delete_eq.
    + apply lookup_delete_eq.
    + intros i Hi1 Hi2. now rewrite !lookup_delete_ne by congruence.
    + now apply paired_without.
Qed.

(** C1: [before_create] of a link row field fails with
    [LinkRowTableNotProvided] when the values hold no linked table (the key
    is missing or its value is falsy) and with
    [LinkRowTableNotInSameDatabase] when the database id of the linked
    table differs from that of the table of the field; in both cases the
    database is as it was, and whatever the creation would do after the
    hook is not run, so no field row is created. *)
Theorem link_row_before_create_fails (table : Table) (primary : bool)
  (values : gmap string KwargValue) (order user : Z) (db : Database) :
  let before_create :=
    LinkRowFieldType.before_create table primary values order user in
  ((values !! "link_row_table" = None \/
    exists v, values !! "link_row_table" = Some v /\ kwarg_truthy v = false) ->
   before_create db = (Raise LinkRowTableNotProvided, db)) /\
  (forall link_row_table,
     values !! "link_row_table" = Some (KwTable link_row_table) ->
     database_id link_row_table <> database_id table ->
     before_create db
     = (Raise (LinkRowTableNotInSameDatabase
                 (table_id link_row_table) (table_id table)), db)) /\
  (forall (e : Exception) (B : Type) (rest : unit -> DB B),
     before_create db = (Raise e, db) ->
     (before_create ≫= rest) db = (Raise e, db)).
Proof.
  intros before_create. subst before_create.
  unfold LinkRowFieldType.before_create. split; [| split].
  - intros [-> | (v & -> & Hfalsy)]; [reflexivity |]. now rewrite Hfalsy.
  - intros link_row_table -> Hother. cbn.
    now rewrite bool_decide_eq_true_2 by congruence.
  - intros e B rest Hraise. now apply bind_raise.
Qed.

Lemma link_row_before_create_fails_witness :
  LinkRowFieldType.before_create sample_table false ∅ 1 1 sample_database
  = (Raise LinkRowTableNotProvided, sample_database).
Proof.
  apply (link_row_before_create_fails sample_table false ∅ 1 1 sample_database).
  left. reflexivity.
Defined.

Lemma paired_sample_database : paired sample_database.
Proof. intros i f Hf. discriminate. Qed.

Lemma link_row_pairing_witness :
  exists f p db' db'',
    FieldHandler.create_field 2 1 sample_table LinkRowFieldType.type true
      sample_link_row_values sample_database = (Ok f, db') /\
    pair db' f = Some p /\ pair db' p = Some f /\
    field_table (link_row_base p) = sample_linked_table /\
    field_name (link_row_base p) = "Customers" /\
    FieldHandler.delete_field 1 p db' = (Ok (), db'') /\
    LinkRowField_objects db'' !! field_id (link_row_base f) = None /\
    LinkRowField_objects db'' !! field_id (link_row_base p) = None.
Proof.
  destruct (link_row_pairing sample_database 1 paired_sample_database)
    as (_ & Hcreate & _).
  destruct (Hcreate 0%nat sample_table sample_linked_table true
              sample_link_row_values eq_refl eq_refl eq_refl)
    as (f & p & db' & Hrun & Hfp & Hpf & _ & _ & Hp & _ & Hname & _ & _ & _
        & Hpaired).
  destruct (link_row_pairing db' 1 Hpaired) as (_ & _ & _ & Hdelete).
  assert (LinkRowField_objects db' !! field_id (link_row_base p) = Some p)
    as Hstored.
  { unfold pair in Hfp. destruct (link_row_related_field f) as [j |];
      [| discriminate]. cbn in Hfp.
    destruct (Hpaired j p Hfp) as (<- & _). exact Hfp. }
  destruct (Hdelete p f Hstored Hpf) as (db'' & Hgone & Hnone_p & Hnone_f & _).
  exists f, p, db', db''. repeat split; assumption.
Defined.

(** With the creation protocol of [FieldHandler]: when [before_create]
    fails, the creation fails with the same exception before the field row
    is inserted, and the database is as it was. *)
Corollary create_field_aborts_before_insert (depth : nat) (user : Z)
  (table : Table) (do_schema_change : bool)
  (values values' : gmap string KwargValue) (db : Database) (e : Exception) :
  LinkRowFieldType.prepare_values values user db = (Ok values', db) ->
  LinkRowFieldType.before_create table false values'
    (FieldHandler.last_order db table) user db = (Raise e, db) ->
  FieldHandler.create_field (S depth) user table LinkRowFieldType.type
    do_schema_change values db = (Raise e, db).
Proof.
  intros Hprepare Hbefore.
  cbn [FieldHandler.create_field]. rewrite String.eqb_refl. cbn [negb].
  erewrite bind_run by reflexivity.
  erewrite bind_run by exact Hprepare.
  now apply bind_raise.
Qed.

(* ================================================================== *)
(** * Part III: further properties of the field types                  *)
(* ================================================================== *)

(** ** The date field: what is stored *)

Lemma date_prepare_truthy `{Environment} (instance : DateField)
  (value : PyValue) :
  truthy value = true ->
  DateFieldType.prepare_value_for_db instance value =
    match value with
    | PyStr s =>
        match parser_parse s with
        | Ok dt =>
            dt' ← astimezone_utc dt;
            Ok (if date_include_time instance
                then PyDatetime dt'
                else PyDate (datetime_date dt'))
        | Raise ParserError => Raise (ValidationError CouldNotConvertToDate)
        | Raise e => Raise e
        end
    | PyDate d =>
        Ok (if date_include_time instance
            then PyDatetime (make_aware (datetime_of_date d) UTC)
            else PyDate d)
    | PyDatetime dt =>
        dt' ← astimezone_utc dt;
        Ok (if date_include_time instance
            then PyDatetime dt'
            else PyDate (datetime_date dt'))
    | _ => Raise (ValidationError ShouldBeDateValue)
    end.
Proof.
  intros Htruthy.
  destruct value as [| b | z | s | d | d | dt | l | d | o];
    try (unfold DateFieldType.prepare_value_for_db; rewrite Htruthy;
         reflexivity).
  - unfold DateFieldType.prepare_value_for_db. rewrite Htruthy. cbn [negb].
    destruct (parser_parse s) as [dt | []]; reflexivity.
  - apply Date_of_date.
Qed.


(** The conversion of an aware datetime that is within the range. *)
Lemma astimezone_utc_aware `{Environment} (dt : datetime) (t : tzinfo) :
  tz dt = Some t ->
  datetime_in_range (wall dt) = true ->
  astimezone_utc dt =
    if datetime_in_range (wall dt - tz_utcoffset t)
    then Ok {| wall := wall dt - tz_utcoffset t; tz := Some UTC |}
    else Raise OverflowError.
Proof.
  intros Htz Hrange. unfold astimezone_utc. rewrite Htz.
  destruct t as [| name offset]; cbn [tz_utcoffset].
  - rewrite Z.sub_0_r, Hrange. destruct dt as [w z]. cbn in *.
    subst z. reflexivity.
  - unfold datetime_sub.
    destruct (datetime_in_range (wall dt - offset)); reflexivity.
Qed.

(** X1: a truthy value that is accepted is stored as a datetime on the UTC
    clock when the field includes the time, and as a calendar date
    otherwise. *)
Theorem date_prepare_value_for_db_result `{Environment}
  (instance : DateField) (value result : PyValue) :
  truthy value = true ->
  DateFieldType.prepare_value_for_db instance value = Ok result ->
  if date_include_time instance
  then exists dt, result = PyDatetime dt /\ tz dt = Some UTC
  else exists d, result = PyDate d.
Proof.
  intros Htruthy. rewrite (date_prepare_truthy instance value Htruthy).
  assert (forall dt,
            (dt' ← astimezone_utc dt;
             Ok (if date_include_time instance
                 then PyDatetime dt'
                 else PyDate (datetime_date dt'))) = Ok result ->
            if date_include_time instance
            then exists dt, result = PyDatetime dt /\ tz dt = Some UTC
            else exists d, result = PyDate d) as Hconverted.
  { intros dt Hv. apply bind_Ok in Hv as (dt' & Hdt & [= <-]).
    apply astimezone_utc_tz in Hdt.
    destruct (date_include_time instance); eauto. }
  destruct value as [| b | z | s | d | d | dt | l | d | o]; try discriminate.
  - destruct (parser_parse s) as [dt | []]; try discriminate.
    apply Hconverted.
  - intros [= <-]. destruct (date_include_time instance); eexists;
      [split; reflexivity | reflexivity].
  - apply Hconverted.
Qed.

Lemma date_prepare_value_for_db_result_witness :
  exists d,
    @DateFieldType.prepare_value_for_db sample_environment sample_date_field
       (PyDatetime {| wall := 90000000000; tz := Some UTC |}) = Ok (PyDate d).
Proof.
  destruct (@date_prepare_value_for_db_result sample_environment
              sample_date_field
              (PyDatetime {| wall := 90000000000; tz := Some UTC |})
              (PyDate {| toordinal := 1 |}) eq_refl eq_refl) as [d Hd].
  exists d. now rewrite <- Hd.
Defined.

(** X2: a day survives the switch between a field with and a field
    without time.  A date object is stored by a field with time as midnight
    of that day on the UTC clock and by a field without time as itself;
    the field without time stores that midnight as the day again, and the
    field with time stores it unchanged. *)
Theorem date_prepare_value_for_db_day_round_trip `{Environment}
  (with_time without_time : DateField) (d : date) :
  date_include_time with_time = true ->
  date_include_time without_time = false ->
  let midnight :=
    PyDatetime {| wall := toordinal d * microseconds_per_day;
                  tz := Some UTC |} in
  DateFieldType.prepare_value_for_db with_time (PyDate d) = Ok midnight /\
  DateFieldType.prepare_value_for_db without_time midnight = Ok (PyDate d) /\
  DateFieldType.prepare_value_for_db without_time (PyDate d) = Ok (PyDate d) /\
  DateFieldType.prepare_value_for_db with_time midnight = Ok midnight.
Proof.
  intros Hwith Hwithout midnight. subst midnight.
  rewrite !date_prepare_truthy by reflexivity.
  rewrite Hwith, Hwithout. cbn.
  split; [reflexivity |]. split; [| split; reflexivity].
  do 2 f_equal. destruct d as [n]. unfold datetime_date. cbn. f_equal.
  now apply Z.div_mul.
Qed.

Lemma date_prepare_value_for_db_day_round_trip_witness :
  @DateFieldType.prepare_value_for_db sample_environment sample_date_field
    (PyDatetime {| wall := 737439 * microseconds_per_day; tz := Some UTC |})
  = Ok (PyDate {| toordinal := 737439 |}).
Proof.
  exact (proj1 (proj2
    (@date_prepare_value_for_db_day_round_trip sample_environment
       sample_datetime_field sample_date_field {| toordinal := 737439 |}
       eq_refl eq_refl))).
Defined.

(** X3: two aware datetimes that denote the same instant are treated
    alike, whatever their time zones.  When the instant read on the UTC
    clock is within the range of a datetime, both are stored as that
    reading, or, by a field without time, as its calendar day; when it is
    not, both raise [OverflowError]. *)
Theorem date_prepare_value_for_db_same_instant `{Environment}
  (instance : DateField) (dt1 dt2 : datetime) (t1 t2 : tzinfo) :
  tz dt1 = Some t1 -> tz dt2 = Some t2 ->
  datetime_in_range (wall dt1) = true ->
  datetime_in_range (wall dt2) = true ->
  wall dt1 - tz_utcoffset t1 = wall dt2 - tz_utcoffset t2 ->
  let instant := wall dt1 - tz_utcoffset t1 in
  DateFieldType.prepare_value_for_db instance (PyDatetime dt1)
    = DateFieldType.prepare_value_for_db instance (PyDatetime dt2) /\
  DateFieldType.prepare_value_for_db instance (PyDatetime dt1) =
    if datetime_in_range instant
    then Ok (if date_include_time instance
             then PyDatetime {| wall := instant; tz := Some UTC |}
             else PyDate {| toordinal := instant / microseconds_per_day |})
    else Raise OverflowError.
Proof.
  intros Htz1 Htz2 Hrange1 Hrange2 Hinstant instant. subst instant.
  rewrite !date_prepare_truthy by reflexivity.
  rewrite (astimezone_utc_aware dt1 t1 Htz1 Hrange1),
    (astimezone_utc_aware dt2 t2 Htz2 Hrange2), <- Hinstant.
  split; [reflexivity |].
  destruct (datetime_in_range (wall dt1 - tz_utcoffset t1)); reflexivity.
Qed.

Lemma date_prepare_value_for_db_same_instant_witness :
  let utc_evening := {| wall := 1000 * microseconds_per_day + 84600000000;
                        tz := Some UTC |} in
  let local_next_morning :=
    {| wall := 1001 * microseconds_per_day + 5400000000;
       tz := Some (OtherTz "+02:00" 7200000000) |} in
  @DateFieldType.prepare_value_for_db sample_environment sample_date_field
     (PyDatetime local_next_morning)
  = @DateFieldType.prepare_value_for_db sample_environment sample_date_field
      (PyDatetime utc_evening).
Proof.
  intros utc_evening local_next_morning.
  exact (proj1 (@date_prepare_value_for_db_same_instant sample_environment
                  sample_date_field local_next_morning utc_evening
                  (OtherTz "+02:00" 7200000000) UTC
                  eq_refl eq_refl eq_refl eq_refl eq_refl)).
Defined.

(** X4: what the date field refuses.  A non-empty string that the parser
    rejects with [ParserError] raises the "could not convert" validation
    error, and any other exception of the parser passes through.  A date
    never raises.  A datetime raises exactly when its conversion to UTC
    does: an aware one with [OverflowError] when the instant read on the
    UTC clock is outside the range of a datetime, a naive one with the
    exception of the lookup of the local offset or, when the lookup gives
    an offset, with [OverflowError] in the same way.  Any other truthy
    value raises the "should be a date" validation error. *)
Theorem date_prepare_value_for_db_errors `{Environment}
  (instance : DateField) (value : PyValue) :
  truthy value = true ->
  let result := DateFieldType.prepare_value_for_db instance value in
  match value with
  | PyStr s =>
      forall e, parser_parse s = Raise e ->
        result = match e with
                 | ParserError => Raise (ValidationError CouldNotConvertToDate)
                 | _ => Raise e
                 end
  | PyDate _ => raises result = false
  | PyDatetime dt =>
      match tz dt with
      | Some t =>
          datetime_in_range (wall dt) = true ->
          result =
            if datetime_in_range (wall dt - tz_utcoffset t)
            then Ok (if date_include_time instance
                     then PyDatetime {| wall := wall dt - tz_utcoffset t;
                                        tz := Some UTC |}
                     else PyDate
                            {| toordinal :=
                                 (wall dt - tz_utcoffset t)
                                   / microseconds_per_day |})
            else Raise OverflowError
      | None =>
          (forall e, local_utcoffset (wall dt) = Raise e -> result = Raise e) /\
          (forall offset, local_utcoffset (wall dt) = Ok offset ->
             raises result = negb (datetime_in_range (wall dt - offset)) /\
             (raises result = true -> result = Raise OverflowError))
      end
  | _ => result = Raise (ValidationError ShouldBeDateValue)
  end.
Proof.
  intros Htruthy result. subst result.
  rewrite (date_prepare_truthy instance value Htruthy).
  destruct value as [| b | z | s | d | d | dt | l | d | o]; try reflexivity.
  - intros e ->. now destruct e.
  - destruct (tz dt) as [t |] eqn:Htz.
    + intros Hrange. rewrite (astimezone_utc_aware dt t Htz Hrange).
      destruct (datetime_in_range (wall dt - tz_utcoffset t)); reflexivity.
    + unfold astimezone_utc. rewrite Htz. split.
      * intros e ->. reflexivity.
      * intros offset ->. cbn. unfold datetime_sub.
        destruct (datetime_in_range (wall dt - offset)); cbn; now split.
Qed.

Lemma date_prepare_value_for_db_errors_witness :
  @DateFieldType.prepare_value_for_db sample_environment sample_date_field
     (PyStr "tomorrow") = Raise (ValidationError CouldNotConvertToDate) /\
  @DateFieldType.prepare_value_for_db sample_environment sample_date_field
     (PyDatetime {| wall := microseconds_per_day + 3600000000;
                    tz := Some (OtherTz "+02:00" 7200000000) |})
  = Raise OverflowError.
Proof.
  split.
  - exact (@date_prepare_value_for_db_errors sample_environment
             sample_date_field (PyStr "tomorrow") eq_refl ParserError eq_refl).
  - exact (@date_prepare_value_for_db_errors sample_environment
             sample_date_field
             (PyDatetime {| wall := microseconds_per_day + 3600000000;
                            tz := Some (OtherTz "+02:00" 7200000000) |})
             eq_refl eq_refl).
Defined.

(** ** The URL and email fields *)

(** X5: the URL and the email field never store null.  None and the empty
    string are stored as the empty string without asking the validator;
    any other value is stored as it is when the validator accepts it, and
    the exception of the validator is raised when it does not. *)
Theorem url_email_prepare_value_for_db `{Environment}
  (instance : Field) (value : PyValue) :
  let empty := match value with
               | PyNone | PyStr "" => true
               | _ => false
               end in
  URLFieldType.prepare_value_for_db instance value =
    (if empty then Ok (PyStr "") else _ ← URLValidator value; Ok value) /\
  EmailFieldType.prepare_value_for_db instance value =
    (if empty then Ok (PyStr "") else _ ← EmailValidator value; Ok value) /\
  (forall result,
     URLFieldType.prepare_value_for_db instance value = Ok result \/
     EmailFieldType.prepare_value_for_db instance value = Ok result ->
     result <> PyNone).
Proof.
  intros empty. subst empty.
  unfold URLFieldType.prepare_value_for_db, EmailFieldType.prepare_value_for_db.
  destruct value as [| b | z | [| c s] | d | d | dt | l | d | o];
    (split; [reflexivity | split; [reflexivity |]]);
    intros result [Hr | Hr]; try (injection Hr as <-; discriminate);
    (apply bind_Ok in Hr as ([] & _ & [= <-]); discriminate).
Qed.

(** ** The date field: naive values are read on the local clock *)



(** ** The number field: the backfill settles *)

Lemma cell_lt_zero_settled (row : gmap string Cell) (column : string) :
  cell_lt_zero
    (if cell_lt_zero row column then <[column := NumericCell 0]> row else row)
    column = false.
Proof.
  destruct (cell_lt_zero row column) eqn:Hnegative; [| exact Hnegative].
  unfold cell_lt_zero. now rewrite lookup_insert_eq.
Qed.

(** X7: the backfill of a number field settles.  Running [after_update]
    again on the model it returned returns that model unchanged; and after
    a pass from negative numbers allowed to disallowed, without an altered
    column, no row holds a number below zero in the column any more. *)
Theorem number_after_update_settles
  (from_field : AnyField) (to_field : NumberField)
  (from_model to_model to_model' : GeneratedModel) (user : Z)
  (connection : Connection) (altered_column : bool) (before : PyValue) :
  NumberFieldType.after_update from_field to_field from_model to_model
    user connection altered_column before = Ok to_model' ->
  NumberFieldType.after_update from_field to_field from_model to_model'
    user connection altered_column before = Ok to_model' /\
  (forall from, from_field = OfNumberField from ->
     number_negative from = true -> number_negative to_field = false ->
     altered_column = false ->
     Forall (fun row =>
               cell_lt_zero row (db_column (field_id (number_base to_field)))
               = false)
            (objects to_model')).
Proof.
  unfold NumberFieldType.after_update.
  destruct (negb altered_column && negb (number_negative to_field)) eqn:Hpass.
  2:{ intros [= <-]. split; [reflexivity |].
      intros from _ _ Hto Haltered. rewrite Hto, Haltered in Hpass.
      discriminate Hpass. }
  destruct from_field; try discriminate. cbn.
  destruct (number_negative f) eqn:Hfrom.
  2:{ intros [= <-]. split; [reflexivity |]. intros from [= <-]. congruence. }
  intros [= <-]. cbn.
  assert (Forall (fun row =>
                    cell_lt_zero row
                      (db_column (field_id (number_base to_field))) = false)
            (update_negative_to_zero
               (db_column (field_id (number_base to_field)))
               (objects to_model))) as Hsettled.
  { unfold update_negative_to_zero. apply Forall_fmap, Forall_true.
    intros row. apply cell_lt_zero_settled. }
  split; [| intros; exact Hsettled].
  do 2 f_equal. revert Hsettled.
  generalize (update_negative_to_zero
                (db_column (field_id (number_base to_field)))
                (objects to_model)).
  intros rows Hrows. unfold update_negative_to_zero.
  induction Hrows as [| row rows Hrow _ IH]; [reflexivity |].
  rewrite fmap_cons, Hrow. f_equal. exact IH.
Qed.

Lemma number_after_update_settles_witness :
  exists to_model',
    NumberFieldType.after_update (OfNumberField (sample_number_field true))
      (sample_number_field false) sample_model sample_model 1 postgresql
      false PyNone = Ok to_model' /\
    Forall (fun row => cell_lt_zero row "field_3" = false) (objects to_model').
Proof.
  eexists. split; [reflexivity |].
  exact (proj2 (number_after_update_settles
                  (OfNumberField (sample_number_field true))
                  (sample_number_field false) sample_model sample_model _
                  1 postgresql false PyNone eq_refl)
           (sample_number_field true) eq_refl eq_refl eq_refl eq_refl).
Defined.

(** ** The file field: what is stored and what is refused *)

Lemma provided_files_Forall2 (value : list PyValue)
  (files : list (list (string * PyValue))) :
  FileFieldType.provided_files value = Ok files ->
  Forall2 (fun o file => o = PyDict file /\ checked_file file) value files.
Proof.
  revert files. induction value as [| o value IH]; intros files Hv.
  - injection Hv as <-. constructor.
  - cbn in Hv. apply bind_Ok in Hv as (name & Hname & Hv).
    destruct (FileFieldType.is_str name) eqn:Hstr; [| discriminate].
    cbn [negb] in Hv. destruct o; try discriminate.
    cbn in Hname. injection Hname as <-.
    destruct (match dict_get d "visible_name" with
              | Some v => negb (FileFieldType.is_str v) | None => false end)
      eqn:Hvisible; [discriminate |].
    apply bind_Ok in Hv as (rest & Hrest & [= <-]).
    constructor; [| now apply IH]. split; [reflexivity |].
    split; [exact Hstr |].
    destruct (dict_get d "visible_name"); [| exact I].
    now apply negb_false_iff in Hvisible.
Qed.

Lemma user_files_Forall2 (queryset : list UserFile)
  (files : list (list (string * PyValue))) (results : list PyValue) :
  FileFieldType.user_files queryset files = Ok results ->
  Forall2 (fun file r =>
             exists u,
               FileFieldType.next_user_file queryset
                 (FileFieldType.file_name file) = Some u /\
               r = PyDict (stored_file u file)) files results.
Proof.
  revert results. induction files as [| file files IH]; intros results Hv.
  - injection Hv as <-. constructor.
  - destruct (FileFieldType.next_user_file queryset
                (FileFieldType.file_name file)) as [u |] eqn:Hnext.
    2:{ cbn in Hv. now rewrite Hnext in Hv. }
    rewrite (user_files_found _ _ _ _ Hnext) in Hv.
    apply bind_Ok in Hv as (rest & Hrest & [= <-]).
    constructor; [eauto | now apply IH].
Qed.

(** X8: on success the file field stores one dictionary per provided
    object, in the order provided: the serialized user file of that name,
    with the provided visible name when it is a non-empty string and the
    original name of the file otherwise. *)
Theorem file_prepare_value_for_db_stored `{Environment}
  (instance : Field) (value : list PyValue) (result : PyValue) :
  FileFieldType.prepare_value_for_db instance (PyList value) = Ok result ->
  exists results,
    result = PyList results /\
    length results = length value /\
    forall (i : nat) (o : PyValue), value !! i = Some o ->
      exists file u,
        o = PyDict file /\
        uf_name u = FileFieldType.file_name file /\
        results !! i = Some (PyDict (stored_file u file)) /\
        dict_get (stored_file u file) "visible_name" =
          Some (match dict_get file "visible_name" with
                | Some v => if truthy v then v else PyStr (uf_original_name u)
                | None => PyStr (uf_original_name u)
                end).
Proof.
  unfold FileFieldType.prepare_value_for_db.
  destruct value as [| o0 value0].
  { intros [= <-]. exists []. split; [reflexivity |]. split; [reflexivity |].
    intros i o Hi. discriminate. }
  set (value := o0 :: value0). intros Hv.
  apply bind_Ok in Hv as (files & Hfiles & Hv).
  apply bind_Ok in Hv as (queryset & _ & Hv).
  apply fmap_Ok in Hv as (results & Hresults & ->).
  apply provided_files_Forall2 in Hfiles.
  apply user_files_Forall2 in Hresults.
  exists results. split; [reflexivity |].
  split. { now rewrite <- (Forall2_length _ _ _ Hresults),
                        (Forall2_length _ _ _ Hfiles). }
  intros i o Hi.
  destruct (Forall2_lookup_l _ _ _ _ _ Hfiles Hi) as (file & Hfile & -> & _).
  destruct (Forall2_lookup_l _ _ _ _ _ Hresults Hfile)
    as (r & Hr & u & Hnext & ->).
  exists file, u. split; [reflexivity |].
  split; [now apply next_user_file_name in Hnext |].
  split; [exact Hr |].
  unfold stored_file at 1. rewrite dict_get_set_eq. f_equal.
  unfold py_or. now destruct (dict_get file "visible_name").
Qed.

Lemma file_prepare_value_for_db_stored_witness :
  exists results,
    @FileFieldType.prepare_value_for_db sample_environment_files
       (sample_field 6)
       (PyList [PyDict [("name", PyStr "a.png")];
                PyDict [("name", PyStr "b.pdf");
                        ("visible_name", PyStr "Report")]])
    = Ok (PyList results) /\ length results = 2%nat.
Proof.
  destruct (@file_prepare_value_for_db_stored sample_environment_files
              (sample_field 6)
              [PyDict [("name", PyStr "a.png")];
               PyDict [("name", PyStr "b.pdf");
                       ("visible_name", PyStr "Report")]]
              (PyList [PyDict [("size", PyInt 10); ("name", PyStr "a.png");
                               ("visible_name", PyStr "holiday.png")];
                       PyDict [("size", PyInt 20); ("name", PyStr "b.pdf");
                               ("visible_name", PyStr "Report")]])
              eq_refl) as (results & Hresult & Hlength & _).
  exists results. split; [| exact Hlength]. now rewrite <- Hresult.
Defined.

Lemma user_files_missing (queryset : list UserFile)
  (found : list (list (string * PyValue))) (file : list (string * PyValue))
  (rest : list (list (string * PyValue))) :
  Forall (fun f => is_Some (FileFieldType.next_user_file queryset
                              (FileFieldType.file_name f))) found ->
  FileFieldType.next_user_file queryset (FileFieldType.file_name file) = None ->
  FileFieldType.user_files queryset (found ++ file :: rest)
  = Raise (UserFileDoesNotExist (FileFieldType.file_name file)).
Proof.
  intros Hfound Hmissing. induction Hfound as [| f found [u Hu] _ IH].
  - cbn. now rewrite Hmissing.
  - rewrite <- app_comm_cons.
    rewrite (user_files_found _ _ _ _ Hu), IH. reflexivity.
Qed.

Lemma provided_files_of_checked (files : list (list (string * PyValue))) :
  Forall checked_file files ->
  FileFieldType.provided_files (PyDict <$> files) = Ok files.
Proof.
  induction 1 as [| file files Hfile _ IH]; [reflexivity |].
  rewrite fmap_cons, (provided_files_checked_cons _ _ Hfile), IH. reflexivity.
Qed.

Lemma prepare_value_for_db_nonempty `{Environment} (instance : Field)
  (value : list PyValue) :
  value <> [] ->
  FileFieldType.prepare_value_for_db instance (PyList value) =
  (files ← FileFieldType.provided_files value;
   queryset ← UserFile_objects_name (FileFieldType.file_name <$> files);
   PyList <$> FileFieldType.user_files queryset files).
Proof. now destruct value. Qed.

(** X9: when every provided object passes the checks and the files named
    before [file] all exist, a [file] whose name no user file of the
    queryset carries makes the coercion raise [UserFileDoesNotExist] with
    that name: the first missing file is the one reported. *)
Theorem file_prepare_value_for_db_missing_file `{Environment}
  (instance : Field) (found : list (list (string * PyValue)))
  (file : list (string * PyValue)) (rest : list (list (string * PyValue)))
  (queryset : list UserFile) :
  Forall checked_file (found ++ file :: rest)%list ->
  UserFile_objects_name
    (FileFieldType.file_name <$> (found ++ file :: rest)%list) = Ok queryset ->
  Forall (fun f => is_Some (FileFieldType.next_user_file queryset
                              (FileFieldType.file_name f))) found ->
  FileFieldType.next_user_file queryset (FileFieldType.file_name file) = None ->
  FileFieldType.prepare_value_for_db instance
    (PyList (PyDict <$> (found ++ file :: rest)%list))
  = Raise (UserFileDoesNotExist (FileFieldType.file_name file)).
Proof.
  intros Hchecked Hquery Hfound Hmissing.
  rewrite prepare_value_for_db_nonempty by now destruct found.
  rewrite (provided_files_of_checked _ Hchecked). cbn.
  rewrite Hquery. cbn. now rewrite user_files_missing.
Qed.

Lemma file_prepare_value_for_db_missing_file_witness :
  @FileFieldType.prepare_value_for_db sample_environment_files
    (sample_field 6)
    (PyList [PyDict [("name", PyStr "a.png")];
             PyDict [("name", PyStr "c.gif")];
             PyDict [("name", PyStr "d.gif")]])
  = Raise (UserFileDoesNotExist "c.gif").
Proof.
  apply (@file_prepare_value_for_db_missing_file sample_environment_files
           (sample_field 6) [[("name", PyStr "a.png")]]
           [("name", PyStr "c.gif")] [[("name", PyStr "d.gif")]]
           [ {| uf_name := "a.png"; uf_original_name := "holiday.png";
                uf_serialized := [("size", PyInt 10)] |} ]).
  - repeat constructor.
  - reflexivity.
  - repeat constructor. vm_compute. eauto.
  - reflexivity.
Defined.

(** X10: the provided objects are checked before any file is looked up.
    When the objects before [bad] pass the checks and [bad] does not, the
    coercion raises the error of [bad] whatever the user files are: the
    missing-name error for a dictionary without a string [name], the
    visible-name error for one whose [visible_name] is no string, and an
    [AttributeError] for an object that is no dictionary. *)
Theorem file_prepare_value_for_db_invalid_object `{Environment}
  (instance : Field) (good : list (list (string * PyValue)))
  (bad : PyValue) (rest : list PyValue) :
  Forall checked_file good ->
  (forall d, bad = PyDict d -> ~ checked_file d) ->
  FileFieldType.prepare_value_for_db instance
    (PyList ((PyDict <$> good) ++ bad :: rest)%list)
  = Raise (provided_file_error bad).
Proof.
  intros Hgood Hbad.
  rewrite prepare_value_for_db_nonempty by now destruct good.
  assert (FileFieldType.provided_files ((PyDict <$> good) ++ bad :: rest)%list
          = Raise (provided_file_error bad)) as ->; [| reflexivity].
  induction Hgood as [| file good Hfile _ IH].
  - destruct bad as [| b | z | s | d | d | dt | l | d | o]; try reflexivity.
    specialize (Hbad d eq_refl). cbn. unfold checked_file in Hbad.
    destruct (FileFieldType.is_str (default PyNone (dict_get d "name")));
      [| reflexivity].
    cbn. destruct (dict_get d "visible_name") as [v |]; [| tauto].
    destruct (FileFieldType.is_str v); [tauto | reflexivity].
  - rewrite fmap_cons, <- app_comm_cons.
    rewrite (provided_files_checked_cons _ _ Hfile), IH. reflexivity.
Qed.

Lemma file_prepare_value_for_db_invalid_object_witness :
  @FileFieldType.prepare_value_for_db sample_environment_files
    (sample_field 6)
    (PyList [PyDict [("name", PyStr "a.png")]; PyStr "b.pdf";
             PyDict [("name", PyInt 3)]])
  = Raise AttributeError.
Proof.
  apply (@file_prepare_value_for_db_invalid_object sample_environment_files
           (sample_field 6) [[("name", PyStr "a.png")]] (PyStr "b.pdf")
           [PyDict [("name", PyInt 3)]]).
  - repeat constructor.
  - intros d Hd. discriminate Hd.
Defined.

(** ** The single select field: what is accepted *)

(** X11: whatever is provided, a value the single select field accepts is
    None (for None) or a select option that belongs to the field. *)
Theorem single_select_prepare_value_for_db_result `{Environment}
  (instance : SingleSelectField) (value result : PyValue) :
  SingleSelectFieldType.prepare_value_for_db instance value = Ok result ->
  (value = PyNone /\ result = PyNone) \/
  exists o, result = PySelectOption o /\
            so_field_id o = field_id (single_select_base instance).
Proof.
  unfold SingleSelectFieldType.prepare_value_for_db.
  destruct (is_None value) eqn:Hnone.
  { intros [= <-]. left. now destruct value. }
  intros Hv. right.
  apply bind_Ok in Hv as (found & Hfound & Hv).
  destruct found as [o |].
  - injection Hv as <-. exists o. split; [reflexivity |].
    destruct (SingleSelectFieldType.as_int value) as [id |]; [| discriminate].
    now apply SelectOption_objects_get_field in Hfound.
  - destruct value; try discriminate.
    destruct (bool_decide _) eqn:Hfield; [| discriminate].
    injection Hv as <-. apply bool_decide_eq_true in Hfield. eauto.
Qed.

Lemma single_select_prepare_value_for_db_result_witness :
  exists o,
    @SingleSelectFieldType.prepare_value_for_db sample_environment
      (sample_single_select_field 7) (PyInt 2) = Ok (PySelectOption o) /\
    so_field_id o = 7.
Proof.
  destruct (@single_select_prepare_value_for_db_result sample_environment
              (sample_single_select_field 7) (PyInt 2)
              (PySelectOption {| so_id := 2; so_value := "Blue";
                                 so_color := "blue"; so_order := 1;
                                 so_field_id := 7 |}) eq_refl)
    as [[Hvalue _] | (o & Hresult & Hfield)]; [discriminate Hvalue |].
  exists o. split; [now rewrite <- Hresult | exact Hfield].
Defined.

(** X12: an integer is looked up as the id of an option of the field, and a
    boolean counts as the integer 0 or 1.  With unique option ids the
    option of the field with that id is the result, and an integer that is
    the id of no option of the field is refused with the validation
    error, also when it is the id of an option of another field. *)
Theorem single_select_prepare_value_for_db_by_id `{Environment}
  (instance : SingleSelectField) (value : PyValue) (id : Z) :
  NoDup (so_id <$> select_options instance) ->
  SingleSelectFieldType.as_int value = Some id ->
  SingleSelectFieldType.prepare_value_for_db instance value =
  match List.find (fun o => so_id o =? id) (select_options instance) with
  | Some o => Ok (PySelectOption o)
  | None => Raise (ValidationError NotAValidOption)
  end.
Proof.
  intros Hnodup Hint. unfold SingleSelectFieldType.prepare_value_for_db.
  assert (is_None value = false) as -> by now destruct value.
  rewrite Hint. unfold SelectOption_objects_get.
  assert (forall options : list SelectOption,
            NoDup (so_id <$> options) ->
            filter (fun o => so_id o = id) options =
            match List.find (fun o => so_id o =? id) options with
            | Some o => [o] | None => [] end) as Hfilter.
  { clear. induction options as [| o options IH]; intros Hnodup;
      [reflexivity |].
    rewrite fmap_cons in Hnodup. apply NoDup_cons in Hnodup as [Hnotin Hnodup].
    rewrite filter_cons. cbn [List.find].
    destruct (Z.eqb_spec (so_id o) id) as [Heq | Hne].
    - rewrite decide_True by exact Heq. f_equal.
      clear IH Hnodup. induction options as [| o' options IH];
        [reflexivity |].
      rewrite fmap_cons in Hnotin. apply not_elem_of_cons in Hnotin as [Hne ?].
      rewrite filter_cons, decide_False by congruence. now apply IH.
    - rewrite decide_False by exact Hne. now apply IH. }
  rewrite (Hfilter _ Hnodup).
  destruct (List.find _ _); [reflexivity |].
  cbn. now destruct value.
Qed.

Lemma single_select_prepare_value_for_db_by_id_witness :
  @SingleSelectFieldType.prepare_value_for_db sample_environment
    (sample_single_select_field 7) (PyBool true)
  = Ok (PySelectOption {| so_id := 1; so_value := "Red"; so_color := "red";
                          so_order := 0; so_field_id := 7 |}) /\
  @SingleSelectFieldType.prepare_value_for_db sample_environment
    (sample_single_select_field 8) (PyInt 1)
  = Raise (ValidationError NotAValidOption).
Proof.
  split.
  - apply (@single_select_prepare_value_for_db_by_id sample_environment
             (sample_single_select_field 7) (PyBool true) 1);
      [apply (bool_decide_unpack _); vm_compute; exact I | reflexivity].
  - apply (@single_select_prepare_value_for_db_by_id sample_environment
             (sample_single_select_field 8) (PyInt 1) 1);
      [apply (bool_decide_unpack _); vm_compute; exact I | reflexivity].
Defined.

Lemma Case_shape (field_name : string) (options : list (option Z)) :
  when_then <$> Case field_name options
    = Z.of_nat <$> seq 0 (length options) /\
  when_value <$> Case field_name options = options /\
  Forall (fun w => when_field w = field_name) (Case field_name options).
Proof.
  unfold Case, enumerate.
  assert (forall j,
            when_then <$>
              ((fun '(index, option) =>
                  {| when_field := field_name; when_value := option;
                     when_then := index |})
                 <$> imap (fun i x => (Z.of_nat (j + i), x)) options)
            = Z.of_nat <$> seq j (length options) /\
            when_value <$>
              ((fun '(index, option) =>
                  {| when_field := field_name; when_value := option;
                     when_then := index |})
                 <$> imap (fun i x => (Z.of_nat (j + i), x)) options)
            = options /\
            Forall (fun w => when_field w = field_name)
              ((fun '(index, option) =>
                  {| when_field := field_name; when_value := option;
                     when_then := index |})
                 <$> imap (fun i x => (Z.of_nat (j + i), x)) options))
    as Hshape.
  { induction options as [| o options IH]; intros j.
    - split_and!; [reflexivity | reflexivity | constructor].
    - cbn [imap fmap list_fmap length seq].
      rewrite (imap_ext _ (fun i x => (Z.of_nat (S j + i), x)));
        [| intros; cbn; f_equal; lia].
      destruct (IH (S j)) as (Hthen & Hvalue & Hfield).
      split_and!.
      + cbn. f_equal; [f_equal; lia | exact Hthen].
      + cbn. f_equal. exact Hvalue.
      + constructor; [reflexivity | exact Hfield]. }
  exact (Hshape 0%nat).
Qed.

(** X13: the [Case] that orders by a single select field has one [When] for
    the empty cell and one for every option, all on the column of the
    field, with the positions 0, 1, 2, ... as their ranks; a cell that
    holds the id of no option of the field gets no rank.  Only the order
    [DESC], spelled so, reverses: every other order sorts ascending. *)
Theorem single_select_get_order_whens `{Environment}
  (field : SingleSelectField) (field_name : string) (view_sort : ViewSort) :
  let order := SingleSelectFieldType.get_order field field_name view_sort in
  let n := length (select_options field) in
  when_then <$> order = Z.of_nat <$> seq 0 (S n) /\
  Forall (fun w => when_field w = field_name) order /\
  when_value <$> order
    ≡ₚ None :: ((fun o => Some (so_id o)) <$> select_options field) /\
  (forall id, id ∉ so_id <$> select_options field ->
     eval_case order (Some id) = None) /\
  (view_sort_order view_sort <> "DESC" ->
   order = SingleSelectFieldType.get_order field field_name
             {| view_sort_order := "ASC" |}).
Proof.
  intros order n. subst order n.
  unfold SingleSelectFieldType.get_order.
  set (sorted := merge_sort value_le (select_options field)).
  set (keys := None :: ((fun o => Some (so_id o)) <$> sorted)).
  set (options := if String.eqb (view_sort_order view_sort) "DESC"
                  then reverse keys else keys).
  assert (options ≡ₚ None :: ((fun o => Some (so_id o))
                               <$> select_options field)) as Hperm.
  { transitivity keys.
    - subst options. destruct (String.eqb _ _);
        [apply reverse_Permutation | reflexivity].
    - subst keys sorted. constructor. apply fmap_Permutation.
      apply merge_sort_Permutation. }
  destruct (Case_shape field_name options) as (Hthen & Hvalue & Hfield).
  split_and!.
  - rewrite Hthen. now rewrite (Permutation_length Hperm), length_cons,
      length_fmap.
  - exact Hfield.
  - now rewrite Hvalue.
  - intros id Hid. unfold eval_case.
    destruct (List.find _ _) as [w |] eqn:Hfind; [| reflexivity].
    exfalso. apply List.find_some in Hfind as [Hin Hkey].
    apply bool_decide_eq_true in Hkey.
    assert (Some id ∈ when_value <$> Case field_name options) as Hmember.
    { rewrite <- Hkey. apply list_elem_of_fmap_2.
      now apply list_elem_of_In. }
    rewrite Hvalue, Hperm in Hmember.
    apply elem_of_cons in Hmember as [Hnone | Hmember]; [discriminate |].
    apply list_elem_of_fmap in Hmember as (o & [= ->] & Ho).
    apply Hid. now apply list_elem_of_fmap_2.
  - intros Hdesc. subst options.
    apply String.eqb_neq in Hdesc. rewrite Hdesc. reflexivity.
Qed.

(** ** The single select field: the statements carry no option text *)

Lemma fmap_by_id {A} (g : Z -> A) (options1 options2 : list SelectOption) :
  so_id <$> options1 = so_id <$> options2 ->
  (fun option => g (so_id option)) <$> options1
  = (fun option => g (so_id option)) <$> options2.
Proof.
  intros Hids.
  change (fun option => g (so_id option)) with (g ∘ so_id).
  now rewrite !list_fmap_compose, Hids.
Qed.

(** X14: the text of the statements that convert a single select column to
    and from text is built from the ids of the options alone.  Two fields
    whose options have the same ids in the same order get the same
    statement text whatever the texts of their options are: the texts
    travel only as parameters of either statement, bound to placeholders
    named after the ids. *)
Theorem single_select_statement_text_by_ids
  (environment1 environment2 : Environment) (connection : Connection)
  (field1 field2 : SingleSelectField) (other : AnyField) :
  so_id <$> @select_options environment1 field1
  = so_id <$> @select_options environment2 field2 ->
  statement_text
    (@SingleSelectFieldType.get_alter_column_prepare_old_value environment1
       connection field1 other)
  = statement_text
      (@SingleSelectFieldType.get_alter_column_prepare_old_value environment2
         connection field2 other) /\
  statement_text
    (@SingleSelectFieldType.get_alter_column_prepare_new_value environment1
       connection other field1)
  = statement_text
      (@SingleSelectFieldType.get_alter_column_prepare_new_value environment2
         connection other field2) /\
  (forall name text,
     statement_variables
       (@SingleSelectFieldType.get_alter_column_prepare_old_value environment1
          connection field1 other) !! name = Some text \/
     statement_variables
       (@SingleSelectFieldType.get_alter_column_prepare_new_value environment1
          connection other field1) !! name = Some text ->
     exists option,
       option ∈ @select_options environment1 field1 /\
       name = SingleSelectFieldType.variable_name option /\
       text = so_value option).
Proof.
  intros Hids.
  unfold SingleSelectFieldType.get_alter_column_prepare_old_value,
    SingleSelectFieldType.get_alter_column_prepare_new_value.
  split_and!.
  - destruct (_ && _); [| reflexivity].
    rewrite !length_fmap.
    rewrite <- (length_fmap so_id (@select_options environment1 field1)),
      <- (length_fmap so_id (@select_options environment2 field2)), Hids.
    destruct (_ =? _)%nat; [reflexivity |]. cbn [statement_text].
    unfold SingleSelectFieldType.variable_name.
    now rewrite (fmap_by_id
      (fun id => "('" +:+ pretty id +:+ "', %("
                 +:+ ("option_" +:+ pretty id +:+ "_value") +:+ ")s)")
      _ _ Hids).
  - destruct (_ && _); [| reflexivity].
    rewrite !length_fmap.
    rewrite <- (length_fmap so_id (@select_options environment1 field1)),
      <- (length_fmap so_id (@select_options environment2 field2)), Hids.
    destruct (_ =? _)%nat; [reflexivity |]. cbn [statement_text].
    unfold SingleSelectFieldType.variable_name.
    now rewrite (fmap_by_id
      (fun id => "(lower(%(" +:+ ("option_" +:+ pretty id +:+ "_value")
                 +:+ ")s), '" +:+ pretty id +:+ "')")
      _ _ Hids).
  - intros name text.
    assert (SingleSelectFieldType.variables_of
              (@select_options environment1 field1) !! name = Some text ->
            exists option,
              option ∈ @select_options environment1 field1 /\
              name = SingleSelectFieldType.variable_name option /\
              text = so_value option) as Hbound.
    { generalize (@select_options environment1 field1). clear.
      induction l as [| o options IH] using rev_ind.
      - cbn. now rewrite lookup_empty.
      - rewrite variables_of_app. intros Hlookup.
        apply lookup_insert_Some in Hlookup as [[<- <-] | [_ Hlookup]].
        + exists o. split; [| now split]. apply elem_of_app. right.
          now apply list_elem_of_singleton.
        + destruct (IH Hlookup) as (option & Hin & Hname & Htext).
          exists option. split; [| now split]. apply elem_of_app. now left. }
    intros [Hlookup | Hlookup]; apply Hbound; revert Hlookup;
      (destruct (_ && _); [| cbn; now rewrite lookup_empty]);
      (destruct (_ =? _)%nat; [cbn; now rewrite lookup_empty |]);
      cbn [statement_variables]; trivial.
Qed.

Lemma single_select_statement_text_by_ids_witness :
  statement_text
    (@SingleSelectFieldType.get_alter_column_prepare_old_value
       sample_environment postgresql (sample_single_select_field 7)
       sample_text_field)
  = statement_text
      (@SingleSelectFieldType.get_alter_column_prepare_old_value
         sample_environment_same_text postgresql
         (sample_single_select_field 7) sample_text_field).
Proof.
  apply (single_select_statement_text_by_ids sample_environment
           sample_environment_same_text postgresql
           (sample_single_select_field 7) (sample_single_select_field 7)
           sample_text_field).
  reflexivity.
Defined.

(** ** The number field: one precision for the serializer, the column and
    the conversion *)

(** X15: the serializer field, the column and the conversion expression of
    a number field agree on the digits.  With keyword arguments that leave
    the three explicit keywords alone, the serializer is constructed with
    the decimal places of the column and fifty digits more than those, the
    conversion rounds to the same places, and a minimum of zero is set, and
    then zero is also the lower bound of the conversion, exactly when the
    field does not allow negative numbers; the decimal places and the
    minimum a caller passes are overwritten. *)
Theorem number_field_precision_agrees (instance : NumberField)
  (kwargs : gmap string PyValue) :
  kwargs !! "max_digits" = None ->
  kwargs !! "required" = None ->
  kwargs !! "allow_null" = None ->
  let places := NumberFieldType.decimal_places_of instance in
  exists field,
    NumberFieldType.get_serializer_field instance kwargs = Ok field /\
    field !! "decimal_places" = Some (PyInt places) /\
    field !! "max_digits" = Some (PyInt (50 + places)) /\
    field !! "min_value" =
      (if number_negative instance then kwargs !! "min_value"
       else Some (PyInt 0)) /\
    NumberFieldType.get_model_field instance
      = DecimalField (50 + places) places true true /\
    NumberFieldType.new_value_function instance
      = (if number_negative instance
         then Round PInNumeric places
         else Greatest (Round PInNumeric places) 0).
Proof.
  intros Hdigits Hrequired Hnull places.
  unfold NumberFieldType.get_serializer_field, call_with_kwargs.
  fold (NumberFieldType.decimal_places_of instance). fold places.
  set (explicit := <["max_digits" := _]> _).
  set (kwargs' := if negb (number_negative instance) then _ else _).
  assert (kwargs' !! "max_digits" = None /\ kwargs' !! "required" = None /\
          kwargs' !! "allow_null" = None /\
          kwargs' !! "decimal_places" = Some (PyInt places) /\
          kwargs' !! "min_value" =
            (if number_negative instance then kwargs !! "min_value"
             else Some (PyInt 0))) as (H1 & H2 & H3 & H4 & H5).
  { subst kwargs'. destruct (number_negative instance); cbn [negb];
      rewrite ?lookup_insert_eq, ?lookup_insert_ne by discriminate;
      rewrite ?lookup_insert_eq, ?lookup_insert_ne by discriminate;
      now split_and!. }
  assert (explicit ##ₘ kwargs') as Hdisjoint.
  { apply map_disjoint_spec. intros k x y Hx Hy. subst explicit.
    apply lookup_insert_Some in Hx as [[<- _] | [_ Hx]]; [congruence |].
    apply lookup_insert_Some in Hx as [[<- _] | [_ Hx]]; [congruence |].
    apply lookup_insert_Some in Hx as [[<- _] | [_ Hx]]; [congruence |].
    discriminate. }
  rewrite decide_True by exact Hdisjoint.
  exists (explicit ∪ kwargs'). split; [reflexivity |].
  split_and!.
  - rewrite lookup_union_r; [exact H4 | reflexivity].
  - erewrite lookup_union_Some_l; [reflexivity |]. reflexivity.
  - rewrite lookup_union_r; [exact H5 | reflexivity].
  - reflexivity.
  - unfold NumberFieldType.new_value_function, places,
      NumberFieldType.decimal_places_of.
    now destruct (number_type instance), (number_negative instance).
Qed.

Lemma number_field_precision_agrees_witness :
  exists field,
    NumberFieldType.get_serializer_field sample_decimal_field
      {[ "min_value" := PyInt (-5); "help_text" := PyStr "Price" ]} = Ok field /\
    field !! "decimal_places" = Some (PyInt 2) /\
    field !! "max_digits" = Some (PyInt 52) /\
    field !! "min_value" = Some (PyInt 0).
Proof.
  destruct (number_field_precision_agrees sample_decimal_field
              {[ "min_value" := PyInt (-5); "help_text" := PyStr "Price" ]})
    as (field & Hfield & Hplaces & Hdigits & Hmin & _);
    [vm_compute; reflexivity .. |].
  exists field. now split_and!.
Defined.

(** ** The single select field: the options a field is created or updated
    with *)

(** X16: the options provided for a single select field reach
    [update_field_select_options] differently on creation and on update.
    On creation the list is taken out of the values and handed on, after
    the field exists, only when it is not empty; on update the list is
    handed on before the change even when it is empty, and taken out of the
    values when the handler returned.  Without the key neither hook calls
    the handler. *)
Theorem single_select_options_hooks {S : Type}
  (update_field_select_options :
     Z -> SingleSelectField -> PyValue -> S -> Result unit * S)
  (table : Table) (primary : bool) (values : gmap string PyValue)
  (order user : Z) (field : SingleSelectField) (s : S) :
  let created :=
    SingleSelectFieldType.before_create table primary values order user in
  let after_create :=
    SingleSelectFieldType.after_create update_field_select_options
      field user created.1 s in
  let before_update :=
    SingleSelectFieldType.before_update update_field_select_options
      field values user s in
  created.2 !! "select_options" = None /\
  (forall key, key <> "select_options" -> created.2 !! key = values !! key) /\
  match values !! "select_options" with
  | None =>
      after_create = (Ok (), s) /\ before_update = (Ok values, s)
  | Some (PyList options) =>
      created.1 = PyList options /\
      after_create =
        (if bool_decide (options = []) then (Ok (), s)
         else update_field_select_options user field (PyList options) s) /\
      before_update =
        (let called :=
           update_field_select_options user field (PyList options) s in
         ((fun _ => created.2) <$> called.1, called.2))
  | Some _ => True
  end.
Proof.
  intros created after_create before_update.
  subst created after_create before_update.
  unfold SingleSelectFieldType.before_create,
    SingleSelectFieldType.after_create, SingleSelectFieldType.before_update.
  destruct (values !! "select_options") as [v |] eqn:Hv; cbn [fst snd].
  - split; [apply lookup_delete_eq |].
    split; [intros key Hkey; now apply lookup_delete_ne |].
    destruct v as [| | | | | | | options | |]; try exact I.
    split; [reflexivity |]. split.
    + destruct options as [| o options]; [reflexivity |].
      cbn [truthy py_len]. rewrite bool_decide_eq_false_2 by discriminate.
      replace (0 <? Z.of_nat (length (o :: options))) with true;
        [reflexivity |].
      symmetry. apply Z.ltb_lt. cbn [length]. lia.
    + cbn. now destruct (update_field_select_options _ _ _ _) as [[[] | e] s'].
  - split; [exact Hv |]. split; [reflexivity |]. now split.
Qed.

(** ** The app registry: generated models are never registered *)

(** X17: with the replaced [register_model], a run of model registrations
    does to the registry what the original does on the models that are
    neither generated table models nor created automatically for one: the
    others never reach the original.  Replacing twice is the same as
    replacing once. *)
Theorem register_model_skips_generated {S : Type} (apps : Apps S)
  (models : list (string * ModelClass)) (s : S) :
  let original := apps_register_model apps in
  let replaced :=
    apps_register_model
      (DatabaseConfig.prevent_generated_model_for_registering apps) in
  let replaced_twice :=
    apps_register_model
      (DatabaseConfig.prevent_generated_model_for_registering
         (DatabaseConfig.prevent_generated_model_for_registering apps)) in
  register_all replaced models s
  = register_all original
      (List.filter (fun m => negb (of_generated_table m.2)) models) s /\
  register_all replaced_twice models s = register_all replaced models s.
Proof.
  intros original replaced replaced_twice.
  subst original replaced replaced_twice. cbn [apps_register_model
    DatabaseConfig.prevent_generated_model_for_registering].
  split.
  - revert s. induction models as [| [app_label model] models IH]; intros s;
      [reflexivity |].
    cbn [register_all List.filter snd].
    unfold DatabaseConfig.register_model at 1, of_generated_table.
    rewrite <- negb_orb.
    destruct (negb _).
    + cbn [register_all].
      destruct (apps_register_model apps app_label model s) as [[[] | e] s'];
        [apply IH | reflexivity].
    + apply IH.
  - revert s. induction models as [| [app_label model] models IH]; intros s;
      [reflexivity |].
    cbn [register_all].
    assert (DatabaseConfig.register_model
              (DatabaseConfig.register_model (apps_register_model apps))
              app_label model s
            = DatabaseConfig.register_model (apps_register_model apps)
                app_label model s) as ->.
    { unfold DatabaseConfig.register_model. now destruct (_ && _). }
    destruct (DatabaseConfig.register_model _ app_label model s)
      as [[[] | e] s']; [apply IH | reflexivity].
Qed.

(** ** The link row field: updates *)

(** X18: [before_update] checks a provided link row table as
    [before_create] checks it against the table of the field, and, unlike
    [before_create], accepts values without a link row table; neither
    writes to the database. *)
Theorem link_row_before_update_checks (from_field : LinkRowField)
  (values : gmap string KwargValue) (user : Z) (primary : bool) (order : Z)
  (db : Database) :
  let provided :=
    match values !! "link_row_table" with
    | Some v => kwarg_truthy v
    | None => false
    end in
  LinkRowFieldType.before_update from_field values user db =
    (if provided
     then LinkRowFieldType.before_create
            (field_table (link_row_base from_field)) primary values order
            user db
     else (Ok (), db)) /\
  (LinkRowFieldType.before_update from_field values user db).2 = db /\
  (provided = false ->
   LinkRowFieldType.before_create
     (field_table (link_row_base from_field)) primary values order user db
   = (Raise LinkRowTableNotProvided, db)).
Proof.
  intros provided. subst provided.
  unfold LinkRowFieldType.before_update, LinkRowFieldType.before_create.
  destruct (values !! "link_row_table") as [v |]; [| now split_and!].
  destruct (kwarg_truthy v) eqn:Htruthy; cbn [negb].
  - split; [reflexivity |]. split; [| discriminate].
    destruct v; try reflexivity. now destruct (bool_decide _).
  - now split_and!.
Qed.

Lemma save_lookup (field : LinkRowField) (db : Database) :
  LinkRowField_save field db =
  (Ok (), {| Table_objects := Table_objects db;
             LinkRowField_objects :=
               <[field_id (link_row_base field) := field]>
                 (LinkRowField_objects db);
             next_field_id := next_field_id db;
             group_has_user := group_has_user db |}).
Proof. reflexivity. Qed.

(** X19: when a link row field is pointed at another table, the related
    field moves with it.  The row of the related field keeps its id, its
    back reference and its relation id; it now belongs to the new linked
    table, links to the table of the updated field, is named after that
    table and gets the last order of the new linked table.  No other row
    changes, and the pairing invariant of the database is kept. *)
Theorem link_row_before_schema_change_moves_related
  (get_last_order : Table -> DB Z) (from_field to_field related : LinkRowField)
  (user order : Z) (db : Database) :
  table_id (link_row_table to_field) <> table_id (link_row_table from_field) ->
  pair db from_field = Some related ->
  link_row_related_field from_field = Some (field_id (link_row_base related)) ->
  get_last_order (link_row_table to_field) db = (Ok order, db) ->
  exists db' moved,
    LinkRowFieldType.before_schema_change get_last_order
      (OfLinkRowField from_field) (OfLinkRowField to_field) user db
    = (Ok (), db') /\
    LinkRowField_objects db' =
      <[field_id (link_row_base related) := moved]> (LinkRowField_objects db) /\
    Table_objects db' = Table_objects db /\
    next_field_id db' = next_field_id db /\
    field_id (link_row_base moved) = field_id (link_row_base related) /\
    link_row_related_field moved = link_row_related_field related /\
    link_row_relation_id moved = link_row_relation_id related /\
    field_table (link_row_base moved) = link_row_table to_field /\
    link_row_table moved = field_table (link_row_base to_field) /\
    field_name (link_row_base moved)
      = table_name (field_table (link_row_base to_field)) /\
    field_order (link_row_base moved) = order /\
    (paired db -> paired db').
Proof.
  intros Htable Hpair Hid Horder.
  unfold pair in Hpair. rewrite Hid in Hpair. cbn in Hpair.
  unfold LinkRowFieldType.before_schema_change.
  rewrite bool_decide_eq_true_2 by exact Htable.
  unfold mbind, DB_bind, LinkRowFieldType.link_row_related_field_of.
  rewrite Hid, Hpair, Horder, save_lookup. cbn [link_row_base field_id].
  eexists _, _. split; [reflexivity |]. cbn.
  split_and!; try reflexivity.
  intros Hpaired i f Hf. cbn in Hf |- *.
  destruct (decide (i = field_id (link_row_base related))) as [-> | Hne].
  - rewrite lookup_insert_eq in Hf. injection Hf as <-. cbn.
    destruct (Hpaired _ _ Hpair) as (_ & Hnext & j & p & Hj & Hrel & Hp & Hback).
    split; [reflexivity |]. split; [exact Hnext |].
    exists j, p. split; [exact Hj |]. split; [exact Hrel |].
    rewrite lookup_insert_ne by congruence. now split.
  - rewrite lookup_insert_ne in Hf by congruence.
    destruct (Hpaired _ _ Hf) as (Hfid & Hnext & j & p & Hj & Hrel & Hp & Hback).
    split; [exact Hfid |]. split; [exact Hnext |].
    destruct (decide (j = field_id (link_row_base related))) as [-> | Hne'].
    + eexists _, _. split; [exact Hj |]. split; [exact Hrel |].
      rewrite lookup_insert_eq. split; [reflexivity |]. cbn. congruence.
    + exists j, p. rewrite lookup_insert_ne by congruence. now split_and!.
Qed.

Lemma link_row_before_schema_change_moves_related_witness :
  exists db' moved,
    LinkRowFieldType.before_schema_change (fun _ db => (Ok 4, db))
      (OfLinkRowField sample_link_row_field)
      (OfLinkRowField
         {| link_row_base := link_row_base sample_link_row_field;
            link_row_table := sample_other_table;
            link_row_related_field := Some 2;
            link_row_relation_id := Some 1 |})
      1 sample_paired_database
    = (Ok (), db') /\
    LinkRowField_objects db' !! 2 = Some moved /\
    table_name (field_table (link_row_base moved)) = "Invoices" /\
    link_row_related_field moved = Some 1.
Proof.
  destruct (link_row_before_schema_change_moves_related
              (fun _ db => (Ok 4, db)) sample_link_row_field
              {| link_row_base := link_row_base sample_link_row_field;
                 link_row_table := sample_other_table;
                 link_row_related_field := Some 2;
                 link_row_relation_id := Some 1 |}
              sample_related_field 1 4 sample_paired_database)
    as (db' & moved & Hrun & Hrows & _ & _ & _ & Hback & _ & Htable & _);
    [cbn; lia | reflexivity | reflexivity | reflexivity |].
  exists db', moved. split; [exact Hrun |].
  split; [rewrite Hrows; apply lookup_insert_eq |].
  split; [now rewrite Htable | exact Hback].
Defined.

(** X20: what [before_schema_change] does otherwise.  When the field
    stops being a link row field, the row of its related field is deleted
    and the rows that referred to it lose that reference; in a database
    that satisfies the pairing invariant that is the row of the field
    itself and no other row changes.  When the field stays a link row
    field to the same table the database is left as it is. *)
Theorem link_row_before_schema_change_drops_related
  (get_last_order : Table -> DB Z) (from_field related : LinkRowField)
  (to_field : AnyField) (user : Z) (db : Database) :
  pair db from_field = Some related ->
  match to_field with
  | OfLinkRowField to_link =>
      table_id (link_row_table to_link) = table_id (link_row_table from_field)
  | _ => True
  end ->
  let related_id := field_id (link_row_base related) in
  exists db',
    LinkRowFieldType.before_schema_change get_last_order
      (OfLinkRowField from_field) to_field user db = (Ok (), db') /\
    match to_field with
    | OfLinkRowField _ => db' = db
    | _ =>
        Table_objects db' = Table_objects db /\
        next_field_id db' = next_field_id db /\
        LinkRowField_objects db' !! related_id = None /\
        (forall i, i <> related_id ->
           LinkRowField_objects db' !! i
           = set_null related_id <$> LinkRowField_objects db !! i) /\
        (paired db ->
         LinkRowField_objects db !! field_id (link_row_base from_field)
           = Some from_field ->
         LinkRowField_objects db' !! field_id (link_row_base from_field)
           = Some {| link_row_base := link_row_base from_field;
                     link_row_table := link_row_table from_field;
                     link_row_related_field := None;
                     link_row_relation_id :=
                       link_row_relation_id from_field |} /\
         forall i, i <> related_id ->
           i <> field_id (link_row_base from_field) ->
           LinkRowField_objects db' !! i = LinkRowField_objects db !! i)
    end.
Proof.
  intros Hpair Hsame related_id. subst related_id. unfold pair in Hpair.
  destruct (link_row_related_field from_field) as [rid |] eqn:Hid;
    [| discriminate].
  cbn in Hpair.
  assert (forall i, i <> field_id (link_row_base related) ->
            (set_null (field_id (link_row_base related))
               <$> delete (field_id (link_row_base related))
                     (LinkRowField_objects db)) !! i
            = set_null (field_id (link_row_base related))
                <$> LinkRowField_objects db !! i) as Hother.
  { intros i Hi. now rewrite lookup_fmap, lookup_delete_ne by congruence. }
  assert (paired db ->
          LinkRowField_objects db !! field_id (link_row_base from_field)
            = Some from_field ->
          (set_null (field_id (link_row_base related))
             <$> delete (field_id (link_row_base related))
                   (LinkRowField_objects db))
            !! field_id (link_row_base from_field)
          = Some {| link_row_base := link_row_base from_field;
                    link_row_table := link_row_table from_field;
                    link_row_related_field := None;
                    link_row_relation_id := link_row_relation_id from_field |} /\
          forall i, i <> field_id (link_row_base related) ->
            i <> field_id (link_row_base from_field) ->
            (set_null (field_id (link_row_base related))
               <$> delete (field_id (link_row_base related))
                     (LinkRowField_objects db)) !! i
            = LinkRowField_objects db !! i) as Hpaired_rows.
  { intros Hpaired Hfrom.
    destruct (Hpaired _ _ Hpair) as (Hrid & _ & j & p & Hj & Hrel & Hp & Hback).
    destruct (Hpaired _ _ Hfrom)
      as (_ & _ & j' & p' & Hj' & Hrel' & Hp' & Hback').
    assert (j' = rid) as -> by congruence.
    split.
    - rewrite Hother by congruence. rewrite Hfrom. cbn. unfold set_null.
      now rewrite bool_decide_eq_true_2 by congruence.
    - intros i Hi Hfi. rewrite Hother by congruence.
      destruct (LinkRowField_objects db !! i) as [g |] eqn:Hg; [| reflexivity].
      cbn. f_equal. unfold set_null.
      rewrite bool_decide_eq_false_2; [reflexivity |].
      intros Hgrel.
      destruct (Hpaired _ _ Hg) as (_ & _ & k & q & _ & Hgrel' & Hq & Hqback).
      assert (k = rid) as -> by congruence.
      assert (q = related) as -> by congruence.
      assert (p' = related) as -> by congruence.
      apply Hfi. congruence. }
  destruct to_field;
    try (eexists; split;
         [unfold LinkRowFieldType.before_schema_change, mbind, DB_bind,
            LinkRowFieldType.link_row_related_field_of;
          rewrite Hid, Hpair; reflexivity |];
         cbn; split_and!;
         [reflexivity | reflexivity
         | now rewrite lookup_fmap, lookup_delete_eq
         | exact Hother | exact Hpaired_rows]).
  exists db. split; [| reflexivity].
  unfold LinkRowFieldType.before_schema_change.
  now rewrite bool_decide_eq_false_2 by congruence.
Qed.

Lemma link_row_before_schema_change_drops_related_witness :
  exists db',
    LinkRowFieldType.before_schema_change (fun _ db => (Ok 4, db))
      (OfLinkRowField sample_link_row_field) sample_text_field 1
      sample_paired_database = (Ok (), db') /\
    LinkRowField_objects db' !! 2 = None /\
    link_row_related_field <$> LinkRowField_objects db' !! 1 = Some None.
Proof.
  destruct (link_row_before_schema_change_drops_related
              (fun _ db => (Ok 4, db)) sample_link_row_field
              sample_related_field sample_text_field 1
              sample_paired_database eq_refl I)
    as (db' & Hrun & _ & _ & Hgone & Hrows & _).
  exists db'. split; [exact Hrun |]. split; [exact Hgone |].
  rewrite (Hrows 1) by discriminate. reflexivity.
Defined.

(** X21: [after_update] gives a field that becomes a link row field its
    related field as [after_create] gives it to a new field: on a field
    without a related field the two do the same.  When the field was a
    link row field before, nothing is created. *)
Theorem link_row_after_update_creates_related
  (create_field :
     Z -> Table -> string -> bool -> gmap string KwargValue -> DB LinkRowField)
  (from_field : AnyField) (to_field : LinkRowField) (user : Z)
  (db : Database) :
  link_row_related_field to_field = None ->
  LinkRowFieldType.after_update create_field from_field
    (OfLinkRowField to_field) user db =
  match from_field with
  | OfLinkRowField _ => (Ok (OfLinkRowField to_field), db)
  | _ =>
      let created :=
        LinkRowFieldType.after_create create_field to_field user db in
      (OfLinkRowField <$> created.1, created.2)
  end.
Proof.
  intros Hnone. unfold LinkRowFieldType.after_create.
  rewrite Hnone. rewrite bool_decide_eq_false_2 by (intros [? ?]; discriminate).
  destruct from_field; try reflexivity;
    unfold LinkRowFieldType.after_update, mbind, DB_bind;
    destruct (create_field _ _ _ _ _ db) as [[related | e] db1];
    reflexivity.
Qed.

Lemma link_row_after_update_creates_related_witness :
  (LinkRowFieldType.after_update (FieldHandler.create_field 2)
     sample_text_field (OfLinkRowField sample_unrelated_field) 1
     sample_database).1
  = OfLinkRowField <$>
      (LinkRowFieldType.after_create (FieldHandler.create_field 2)
         sample_unrelated_field 1 sample_database).1.
Proof.
  now rewrite (link_row_after_update_creates_related
                 (FieldHandler.create_field 2) sample_text_field
                 sample_unrelated_field 1 sample_database eq_refl).
Defined.

(** ** Random values are values of the field *)

(** X22: a random value of a number field is accepted by the field.  With a
    faker that keeps to the bounds it is given, the integer or decimal it
    draws lies between zero (or -10000 when negative numbers are allowed)
    and 10000, and preparing it for the database raises nothing. *)
Theorem number_random_value_accepted `{Environment} {F : Type}
  (instance : NumberField) (fake : Faker F) (f : F) :
  (forall min_value max_value step f,
     min_value <= max_value ->
     min_value <= (pyint fake min_value max_value step f).1 <= max_value) ->
  (forall min_value max_value positive f,
     0 <= min_value ->
     Decimal_lt_zero (pydecimal fake min_value max_value positive f).1
     = Ok false) ->
  let value := (NumberFieldType.random_value instance fake f).1 in
  (exists d,
     NumberFieldType.prepare_value_for_db instance value = Ok (PyDecimal d)) /\
  match number_type instance with
  | NUMBER_TYPE_INTEGER =>
      exists n, value = PyInt n /\
        (if number_negative instance then -10000 else 0) <= n <= 10000
  | NUMBER_TYPE_DECIMAL => exists d, value = PyDecimal d
  end.
Proof.
  intros Hpyint Hpydecimal value. subst value.
  unfold NumberFieldType.random_value.
  destruct (number_type instance).
  - specialize (Hpyint (if number_negative instance then -10000 else 0)
                  10000 1 f).
    destruct (pyint fake _ 10000 1 f) as [n f'] eqn:Hdraw. cbn [fst] in *.
    assert ((if number_negative instance then -10000 else 0) <= n <= 10000)
      as Hrange by (apply Hpyint; destruct (number_negative instance); lia).
    split; [| eauto].
    unfold NumberFieldType.prepare_value_for_db. cbn.
    destruct (number_negative instance); cbn; [eauto |].
    unfold Decimal_of_int.
    assert ((n <? 0) = false) as -> by (apply Z.ltb_ge; lia).
    cbn. eauto.
  - specialize (Hpydecimal 0 10000 true f).
    destruct (number_negative instance) eqn:Hnegative; cbn [negb].
    + destruct (pydecimal fake _ 10000 false f) as [d f'] eqn:Hdraw.
      cbn [fst]. split; [| eauto].
      unfold NumberFieldType.prepare_value_for_db. cbn.
      rewrite Hnegative. cbn. eauto.
    + destruct (pydecimal fake 0 10000 true f) as [d f'] eqn:Hdraw.
      cbn [fst] in *. split; [| eauto].
      unfold NumberFieldType.prepare_value_for_db. cbn.
      rewrite Hnegative. cbn. rewrite Hpydecimal by lia. cbn. eauto.
Qed.

Lemma number_random_value_accepted_witness :
  exists d,
    @NumberFieldType.prepare_value_for_db sample_environment
      sample_decimal_field
      (NumberFieldType.random_value sample_decimal_field sample_faker ()).1
    = Ok (PyDecimal d).
Proof.
  refine (proj1 (@number_random_value_accepted sample_environment unit
                   sample_decimal_field sample_faker () _ _)).
  - intros min_value max_value step f Hle. cbn. lia.
  - intros min_value max_value positive f Hle. cbn. unfold Decimal_of_int.
    destruct (Z.ltb_spec min_value 0); [lia | reflexivity].
Defined.

(** X23: a random value of a single select field is a value of the field.
    On a cache without an entry for the field, and with a generator that
    keeps to its range, the choice is None when the field has no options
    and one of its options otherwise, the field accepts it unchanged, and
    the options are now in the cache.  Later calls choose among the cached
    options, whatever the options of the field have become. *)
Theorem single_select_random_value_valid `{Environment} `{Random}
  (instance : SingleSelectField) (cache : gmap string CacheEntry)
  (s : RandomState) :
  (forall a b s, a <= b ->
     exists n s', randint a b s = (Ok n, s') /\ a <= n <= b) ->
  let name :=
    "field_" +:+ pretty (field_id (single_select_base instance))
    +:+ "_options" in
  cache !! name = None ->
  exists value s',
    SingleSelectFieldType.random_value instance cache s
    = (Value value,
       <[name := CachedOptions (select_options instance)]> cache, s') /\
    (select_options instance = [] -> value = PyNone) /\
    (select_options instance <> [] ->
     exists o, value = PySelectOption o /\ o ∈ select_options instance) /\
    SingleSelectFieldType.prepare_value_for_db instance value = Ok value /\
    (forall (later : Environment) s,
       @SingleSelectFieldType.random_value later _ instance
         (<[name := CachedOptions (select_options instance)]> cache) s
       = SingleSelectFieldType.random_value instance
           (<[name := CachedOptions (select_options instance)]> cache) s).
Proof.
  intros Hrandint name Hfresh.
  assert (forall (e : Environment) s,
            @SingleSelectFieldType.random_value e _ instance
              (<[name := CachedOptions (select_options instance)]> cache) s
            = match select_options instance with
              | [] => (Value PyNone,
                       <[name := CachedOptions (select_options instance)]> cache,
                       s)
              | _ =>
                  match randint 0 (Z.of_nat (length (select_options instance))
                                   - 1) s with
                  | (Ok random_choice, s) =>
                      (PySelectOption
                         <$> queryset_index (select_options instance)
                               random_choice,
                       <[name := CachedOptions (select_options instance)]> cache,
                       s)
                  | (Raise e, s) =>
                      (Raised e,
                       <[name := CachedOptions (select_options instance)]> cache,
                       s)
                  end
              end) as Hcached.
  { intros e s0. unfold SingleSelectFieldType.random_value. fold name.
    rewrite decide_True by (rewrite lookup_insert_eq; eauto).
    now rewrite lookup_insert_eq. }
  assert (SingleSelectFieldType.random_value instance cache s
          = SingleSelectFieldType.random_value instance
              (<[name := CachedOptions (select_options instance)]> cache) s)
    as Hfirst.
  { unfold SingleSelectFieldType.random_value. fold name.
    rewrite Hfresh.
    rewrite decide_False by (intros [? ?]; discriminate).
    rewrite decide_True by (rewrite lookup_insert_eq; eauto).
    reflexivity. }
  assert (forall (later : Environment) s,
            @SingleSelectFieldType.random_value later _ instance
              (<[name := CachedOptions (select_options instance)]> cache) s
            = SingleSelectFieldType.random_value instance
                (<[name := CachedOptions (select_options instance)]> cache) s)
    as Hlater by (intros later s0; now rewrite !Hcached).
  cut (exists value s',
         SingleSelectFieldType.random_value instance cache s
         = (Value value,
            <[name := CachedOptions (select_options instance)]> cache, s') /\
         (select_options instance = [] -> value = PyNone) /\
         (select_options instance <> [] ->
          exists o, value = PySelectOption o /\ o ∈ select_options instance) /\
         SingleSelectFieldType.prepare_value_for_db instance value = Ok value).
  { intros (value & s' & H1 & H2 & H3 & H4). exists value, s'.
    now split_and!. }
  rewrite Hfirst, Hcached. clear Hfirst Hcached Hlater.
  assert (forall o, o ∈ select_options instance ->
            so_field_id o = field_id (single_select_base instance)) as Hfield.
  { intros o Hin. unfold select_options in Hin.
    now apply list_elem_of_filter in Hin as [? _]. }
  destruct (select_options instance) as [| o options].
  - exists PyNone, s. split; [reflexivity |]. split; [reflexivity |].
    split; [congruence |]. reflexivity.
  - destruct (Hrandint 0 (Z.of_nat (length (o :: options)) - 1) s)
      as (n & s' & -> & Hrange); [cbn [length]; lia |].
    unfold queryset_index.
    assert ((n <? 0) = false) as -> by (apply Z.ltb_ge; lia).
    destruct ((o :: options) !! Z.to_nat n) as [chosen |] eqn:Hchosen.
    2:{ apply lookup_ge_None in Hchosen. cbn [length] in *. lia. }
    exists (PySelectOption chosen), s'. split; [reflexivity |].
    split; [discriminate |].
    assert (chosen ∈ o :: options) as Hin
      by (eapply list_elem_of_lookup_2, Hchosen).
    split; [eauto |].
    unfold SingleSelectFieldType.prepare_value_for_db. cbn.
    now rewrite bool_decide_eq_true_2 by now apply Hfield.
Qed.

Lemma single_select_random_value_valid_witness :
  exists value s',
    @SingleSelectFieldType.random_value sample_environment sample_random
      (sample_single_select_field 7) ∅ 3
    = (Value value,
       {[ "field_7_options" :=
            CachedOptions (@select_options sample_environment
                             (sample_single_select_field 7)) ]}, s') /\
    @SingleSelectFieldType.prepare_value_for_db sample_environment
      (sample_single_select_field 7) value = Ok value.
Proof.
  destruct (@single_select_random_value_valid sample_environment sample_random
              (sample_single_select_field 7) ∅ 3)
    as (value & s' & Hrun & _ & _ & Haccepted & _).
  - intros a b s Hle. cbn. destruct (Z.leb_spec a b); [| lia].
    eexists _, _. split; [reflexivity |].
    pose proof (Z.mod_pos_bound s (b - a + 1)). lia.
  - reflexivity.
  - exists value, s'. split; [exact Hrun | exact Haccepted].
Defined.

Lemma random_rows_drawn `{Random} (rows : list Z) :
  (forall a b s, a <= b ->
     exists n s', randint a b s = (Ok n, s') /\ a <= n <= b) ->
  rows <> [] ->
  forall (n : nat) (values : list Z) (s : RandomState),
  exists (drawn : list Z) s',
    LinkRowFieldType.random_rows n rows (Z.of_nat (length rows)) values s
    = (Value (values ++ drawn)%list, s') /\
    length drawn = n /\
    (forall id, id ∈ drawn -> id ∈ rows).
Proof.
  intros Hrandint Hrows. induction n as [| n IH]; intros values s.
  - exists [], s. rewrite app_nil_r. split; [reflexivity |].
    split; [reflexivity |]. intros id Hid. inversion Hid.
  - cbn [LinkRowFieldType.random_rows].
    destruct (Hrandint 0 (Z.of_nat (length rows) - 1) s)
      as (k & s1 & -> & Hrange).
    { destruct rows; [congruence | cbn [length]; lia]. }
    unfold queryset_index.
    assert ((k <? 0) = false) as -> by (apply Z.ltb_ge; lia).
    destruct (rows !! Z.to_nat k) as [id |] eqn:Hid.
    2:{ apply lookup_ge_None in Hid. lia. }
    destruct (IH (values ++ [id])%list s1) as (drawn & s' & -> & Hlength & Hin).
    exists (id :: drawn), s'. rewrite <- app_assoc. split; [reflexivity |].
    split; [cbn; now rewrite Hlength |].
    intros id' Hid'. apply elem_of_cons in Hid' as [-> | Hid'];
      [eapply list_elem_of_lookup_2, Hid | now apply Hin].
Qed.

Lemma count_name_ne (id : Z) :
  "table_" +:+ pretty id +:+ "_count" <> "table_" +:+ pretty id.
Proof.
  intros Heq. apply (f_equal String.length) in Heq.
  rewrite !String_length_app in Heq. cbn in Heq. lia.
Qed.

(** X24: the random value of a link row field holds at most two row ids,
    not three, all of them ids of rows of the linked table, and none when
    the table has no rows.  This is on a cache without an entry for the
    table and with a generator that keeps to its ranges; the model of the
    table and the number of its rows are then in the cache. *)
Theorem link_row_random_value_rows `{Random} (objects_all : Table -> list Z)
  (instance : LinkRowField) (cache : gmap string CacheEntry)
  (s : RandomState) :
  (forall start stop s, start < stop ->
     exists n s', randrange start stop s = (Ok n, s') /\ start <= n < stop) ->
  (forall a b s, a <= b ->
     exists n s', randint a b s = (Ok n, s') /\ a <= n <= b) ->
  let table := link_row_table instance in
  cache !! ("table_" +:+ pretty (table_id table)) = None ->
  exists ids s',
    LinkRowFieldType.random_value objects_all instance cache s
    = (Value ids,
       <["table_" +:+ pretty (table_id table) +:+ "_count" :=
           CachedCount (Z.of_nat (length (objects_all table)))]>
       (<["table_" +:+ pretty (table_id table) := CachedModel table]> cache),
       s') /\
    (length ids <= 2)%nat /\
    (forall id, id ∈ ids -> id ∈ objects_all table).
Proof.
  intros Hrandrange Hrandint table Hfresh.
  unfold LinkRowFieldType.random_value. fold table.
  rewrite Hfresh. rewrite decide_False by (intros [? ?]; discriminate).
  rewrite lookup_insert_ne by apply count_name_ne.
  rewrite !lookup_insert_eq.
  destruct (objects_all table) as [| row rows] eqn:Hrows.
  { exists [], s. split; [reflexivity |]. split; [cbn; lia |].
    intros id Hid. inversion Hid. }
  assert ((Z.of_nat (length (row :: rows)) =? 0) = false) as ->
    by (apply Z.eqb_neq; cbn [length]; lia).
  destruct (Hrandrange 0 3 s) as (n & s1 & -> & Hrange); [lia |].
  destruct (Z.leb_spec n 0) as [Hzero | Hpositive].
  { exists [], s1. split; [reflexivity |]. split; [cbn; lia |].
    intros id Hid. inversion Hid. }
  destruct (random_rows_drawn (row :: rows) Hrandint ltac:(discriminate)
              (Z.to_nat n) [] s1) as (drawn & s' & -> & Hlength & Hin).
  exists drawn, s'. split; [reflexivity |]. split; [lia | exact Hin].
Qed.

Lemma link_row_random_value_rows_witness :
  exists ids cache' s',
    @LinkRowFieldType.random_value sample_random (fun _ => [11; 12; 13])
      sample_link_row_field ∅ 5 = (Value ids, cache', s') /\
    (length ids <= 2)%nat.
Proof.
  destruct (@link_row_random_value_rows sample_random (fun _ => [11; 12; 13])
              sample_link_row_field ∅ 5)
    as (ids & s' & Hrun & Hlength & _).
  - intros start stop s Hlt. cbn. destruct (Z.ltb_spec start stop); [| lia].
    eexists _, _. split; [reflexivity |].
    pose proof (Z.mod_pos_bound s (stop - start)). lia.
  - intros a b s Hle. cbn. destruct (Z.leb_spec a b); [| lia].
    eexists _, _. split; [reflexivity |].
    pose proof (Z.mod_pos_bound s (b - a + 1)). lia.
  - reflexivity.
  - eexists ids, _, s'. split; [exact Hrun | exact Hlength].
Defined.
